(** * youtrack_time_importer: rows of time-tracking data and their import

    A shallow embedding of [youtrack_time_importer/__init__.py] (the CSV
    importer: classes [Row], [ManicTimeRow], [TogglRow] and the driver
    loop) and of [youtrack_time_importer/row.py] (the abstract [Row] and
    [TogglAPIRow]), followed by the properties of the specification.

    Conventions of the embedding:
    - a Python [str] is a [string]; its characters are the code points
      below 256, so every character test below ([str.isspace], the
      classes of [re], the digits of [int]) is the Python one restricted
      to that range;
    - a Python exception is a constructor of [exn], and code that can
      raise returns a [res];
    - methods that touch the tracker or the cached attributes of a row run
      in a state monad over the row object and the outside world. *)

From Stdlib Require Import ZArith Lia Bool Ascii SpecFloat DecimalString DecimalPos.
From stdpp Require Import base option list strings gmap.

Local Open Scope Z_scope.

(** ** Python values, exceptions and results *)

Inductive exn : Type :=
| TypeError
| ValueError
| IndexError
| AttributeError
| EOFError
| YouTrackException
| YoutrackIssueNotFoundException
| YoutrackIssueIncorrectException
| YoutrackMissingConnectionException
| OtherError (what : string).

Inductive res (A : Type) : Type :=
| Ok (a : A)
| Raise (e : exn).
Arguments Ok {A} a.
Arguments Raise {A} e.

(** The values that occur in row data and in the attributes of a work
    item. *)
#[warnings="-register-all"]
Inductive pyval : Type :=
| PNone
| PBool (b : bool)
| PInt (n : Z)
| PStr (s : string)
| PList (items : list pyval).

Class Monad (m : Type -> Type) : Type := {
  ret : forall {A}, A -> m A;
  bind : forall {A B}, m A -> (A -> m B) -> m B
}.

Notation "'let*' x ':=' e 'in' k" := (bind e (fun x => k))
  (at level 10, x pattern, e at level 200, k at level 200,
   format "'[v' 'let*'  x  ':='  e  'in' '/' k ']'").
Notation "e ';;' k" := (bind e (fun _ => k))
  (at level 100, k at level 200, right associativity).

#[global] Instance res_monad : Monad res := {
  ret := fun A a => Ok a;
  bind := fun A B r k => match r with Ok a => k a | Raise e => Raise e end
}.

(** ** Strings *)

Definition code (c : ascii) : N := N_of_ascii c.

Definition in_range (lo hi : N) (c : ascii) : bool :=
  (lo <=? code c)%N && (code c <=? hi)%N.

(** [str.isspace] on one character. *)
Definition is_space (c : ascii) : bool :=
  in_range 9 13 c || in_range 28 32 c || (code c =? 133)%N || (code c =? 160)%N.

Definition is_digit (c : ascii) : bool := in_range 48 57 c.

Definition is_upper (c : ascii) : bool := in_range 65 90 c.

Definition is_lower (c : ascii) : bool := in_range 97 122 c.

Definition is_alnum (c : ascii) : bool := is_lower c || is_upper c || is_digit c.

Definition digit_val (c : ascii) : Z := Z.of_N (code c) - 48.

(** Lower case of an ASCII letter; the other characters are left alone
    (the tests below only compare the result with ASCII letters). *)
Definition lower (c : ascii) : ascii :=
  if is_upper c then ascii_of_N (code c + 32) else c.

Definition upper (c : ascii) : ascii :=
  if is_lower c then ascii_of_N (code c - 32) else c.

Fixpoint str_lower (s : string) : string :=
  match s with
  | EmptyString => EmptyString
  | String c t => String (lower c) (str_lower t)
  end.

Fixpoint str_forall (p : ascii -> bool) (s : string) : bool :=
  match s with
  | EmptyString => true
  | String c t => p c && str_forall p t
  end.

Fixpoint lstrip (s : string) : string :=
  match s with
  | EmptyString => EmptyString
  | String c t => if is_space c then lstrip t else s
  end.

Fixpoint rstrip (s : string) : string :=
  match s with
  | EmptyString => EmptyString
  | String c t =>
      match rstrip t with
      | EmptyString => if is_space c then EmptyString else String c EmptyString
      | t' => String c t'
      end
  end.

(** [s.strip()] *)
Definition strip (s : string) : string := rstrip (lstrip s).

(** [s.split(sep)] for a separator of one character. *)
Fixpoint split (sep : ascii) (s : string) : list string :=
  match s with
  | EmptyString => [EmptyString]
  | String c t =>
      if Ascii.eqb c sep then EmptyString :: split sep t
      else match split sep t with
           | h :: r => String c h :: r
           | [] => [String c EmptyString]
           end
  end.

(** [l[i]] *)
Definition index {A} (l : list A) (i : nat) : res A :=
  match l !! i with
  | Some x => Ok x
  | None => Raise IndexError
  end.

Fixpoint is_prefix (p s : string) : bool :=
  match p, s with
  | EmptyString, _ => true
  | String a p', String b s' => Ascii.eqb a b && is_prefix p' s'
  | String _ _, EmptyString => false
  end.

(** [p in s] for two strings. *)
Fixpoint str_contains (p s : string) : bool :=
  is_prefix p s ||
  match s with
  | EmptyString => false
  | String _ t => str_contains p t
  end.

(** The digits of an integer literal after its first digit: single
    underscores may separate digits. *)
Fixpoint int_digits (acc : Z) (s : string) : option Z :=
  match s with
  | EmptyString => Some acc
  | String c t =>
      if is_digit c then int_digits (10 * acc + digit_val c) t
      else if Ascii.eqb c "_" then
        match t with
        | String d u =>
            if is_digit d then int_digits (10 * acc + digit_val d) u else None
        | EmptyString => None
        end
      else None
  end.

Definition int_literal (s : string) : option Z :=
  match s with
  | String c t => if is_digit c then int_digits (digit_val c) t else None
  | EmptyString => None
  end.

(** [int(s)] for a string [s]. *)
Definition py_int (s : string) : res Z :=
  let s := strip s in
  let '(neg, body) :=
    match s with
    | String "-" t => (true, t)
    | String "+" t => (false, t)
    | _ => (false, s)
    end in
  match int_literal body with
  | Some n => Ok (if neg then - n else n)
  | None => Raise ValueError
  end.

(** [str(n)] for an integer [n]. *)
Definition py_str (n : Z) : string := NilZero.string_of_int (Z.to_int n).

(** [str(x)] for an integer or [None]. *)
Definition str_opt (x : option Z) : string :=
  match x with
  | Some n => py_str n
  | None => "None"
  end.

(** The string of one double quote. *)
Definition quote : string := String "034" EmptyString.

(** Truth value of an optional string ([None] and [""] are false). *)
Definition truthy (x : option string) : bool :=
  match x with
  | Some (String _ _) => true
  | _ => false
  end.

(** ** Regular expressions

    The part of [re] that the importer and [datetime.strptime] use:
    literals, character sets, [\d], [\s], concatenation, alternation,
    greedy repetition of a set and named groups, matched by backtracking,
    alternatives in order and repetitions longest first. *)

Module Re.

Inductive item : Type :=
| Lit (c : ascii)
| Range (lo hi : ascii)
| Digit
| Space.

Inductive regex : Type :=
| Eps
| Set_ (items : list item)
| Cat (r1 r2 : regex)
| Alt (r1 r2 : regex)
| Star (items : list item)
| Group (name : string) (r : regex).

Definition Plus (items : list item) : regex := Cat (Set_ items) (Star items).

Definition Chr (c : ascii) : regex := Set_ [Lit c].

(** A literal string. *)
Fixpoint Str (s : string) : regex :=
  match s with
  | EmptyString => Eps
  | String c t => Cat (Chr c) (Str t)
  end.

(** Whether a character belongs to an item; [ic] is [re.IGNORECASE]. *)
Definition item_matches (ic : bool) (it : item) (ch : ascii) : bool :=
  match it with
  | Lit c => if ic then Ascii.eqb (lower ch) (lower c) else Ascii.eqb ch c
  | Range lo hi =>
      in_range (code lo) (code hi) ch
      || (ic && (in_range (code lo) (code hi) (lower ch)
                 || in_range (code lo) (code hi) (upper ch)))
  | Digit => is_digit ch
  | Space => is_space ch
  end.

Definition set_matches (ic : bool) (items : list item) (ch : ascii) : bool :=
  existsb (fun it => item_matches ic it ch) items.

(** Named groups, the most recent first. *)
Definition groups : Type := list (string * string).

(** The text between a position [s] and a later position [s1]. *)
Definition consumed (s s1 : string) : string :=
  String.substring 0 (String.length s - String.length s1) s.

Section Run.
Context {A : Type} (ic : bool).

Fixpoint star (items : list item) (s : string)
    (k : string -> option A) : option A :=
  match s with
  | String c t =>
      if set_matches ic items c then
        match star items t k with
        | Some x => Some x
        | None => k s
        end
      else k s
  | EmptyString => k s
  end.

Fixpoint run (r : regex) (s : string) (g : groups)
    (k : string -> groups -> option A) : option A :=
  match r with
  | Eps => k s g
  | Set_ items =>
      match s with
      | String c t => if set_matches ic items c then k t g else None
      | EmptyString => None
      end
  | Cat r1 r2 => run r1 s g (fun s1 g1 => run r2 s1 g1 k)
  | Alt r1 r2 =>
      match run r1 s g k with
      | Some x => Some x
      | None => run r2 s g k
      end
  | Star items => star items s (fun s1 => k s1 g)
  | Group name r1 =>
      run r1 s g (fun s1 g1 => k s1 ((name, consumed s s1) :: g1))
  end.
End Run.

(** A match object: where the match starts, its text, its named groups
    and the text after it. *)
Record match_obj : Type := {
  m_start : nat;
  m_text : string;
  m_groups : groups;
  m_rest : string
}.

Definition match_at (ic : bool) (r : regex) (i : nat) (s : string)
    : option match_obj :=
  run ic r s [] (fun s1 g =>
    Some {| m_start := i; m_text := consumed s s1;
            m_groups := g; m_rest := s1 |}).

(** [re.match(r, s)] *)
Definition match_ (ic : bool) (r : regex) (s : string) : option match_obj :=
  match_at ic r 0 s.

Fixpoint search_from (ic : bool) (r : regex) (i : nat) (s : string)
    : option match_obj :=
  match match_at ic r i s with
  | Some m => Some m
  | None =>
      match s with
      | String _ t => search_from ic r (S i) t
      | EmptyString => None
      end
  end.

(** [re.search(r, s)] *)
Definition search (ic : bool) (r : regex) (s : string) : option match_obj :=
  search_from ic r 0 s.

Fixpoint lookup_group (name : string) (g : groups) : option string :=
  match g with
  | [] => None
  | (n, v) :: g' => if String.eqb n name then Some v else lookup_group name g'
  end.

(** [m.group(name)] *)
Definition group (m : match_obj) (name : string) : res string :=
  match lookup_group name (m_groups m) with
  | Some v => Ok v
  | None => Raise IndexError
  end.

End Re.

(** The pattern ['(?P<issue_id>[a-zA-Z0-9]*\-[0-9]+)'] of both files. *)
Definition alnum_set : list Re.item :=
  [Re.Range "a" "z"; Re.Range "A" "Z"; Re.Range "0" "9"].

Definition digit_set : list Re.item := [Re.Range "0" "9"].

Definition issue_pattern : Re.regex :=
  Re.Group "issue_id"
    (Re.Cat (Re.Star alnum_set) (Re.Cat (Re.Chr "-") (Re.Plus digit_set))).

(** ** Dates and times: the part of [datetime] the rows use *)

Module Datetime.

Record datetime : Type := {
  year : Z; month : Z; day : Z;
  hour : Z; minute : Z; second : Z
}.

Definition is_leap (y : Z) : bool :=
  (y mod 4 =? 0) && (negb (y mod 100 =? 0) || (y mod 400 =? 0)).

Definition days_in_month (y m : Z) : Z :=
  if m =? 2 then (if is_leap y then 29 else 28)
  else if (m =? 4) || (m =? 6) || (m =? 9) || (m =? 11) then 30
  else 31.

Definition days_before_year (y : Z) : Z :=
  let y := y - 1 in y * 365 + y / 4 - y / 100 + y / 400.

Fixpoint days_before_month_aux (y : Z) (n : nat) : Z :=
  match n with
  | O => 0
  | S n' => days_before_month_aux y n' + days_in_month y (Z.of_nat n)
  end.

Definition days_before_month (y m : Z) : Z :=
  days_before_month_aux y (Z.to_nat (m - 1)).

Definition ymd2ord (y m d : Z) : Z :=
  days_before_year y + days_before_month y m + d.

Definition toordinal (dt : datetime) : Z :=
  ymd2ord (year dt) (month dt) (day dt).

(** Monday is 0. *)
Definition weekday (dt : datetime) : Z := (toordinal dt + 6) mod 7.

(** [datetime(y, m, d, H, M, S)] *)
Definition make (y m d H M S : Z) : res datetime :=
  if (1 <=? y) && (y <=? 9999) && (1 <=? m) && (m <=? 12)
     && (1 <=? d) && (d <=? days_in_month y m)
     && (0 <=? H) && (H <=? 23) && (0 <=? M) && (M <=? 59)
     && (0 <=? S) && (S <=? 59)
  then Ok {| year := y; month := m; day := d;
             hour := H; minute := M; second := S |}
  else Raise ValueError.

(** [datetime.utcfromtimestamp(0)] *)
Definition epoch : datetime :=
  {| year := 1970; month := 1; day := 1; hour := 0; minute := 0; second := 0 |}.

(** [int((dt - other).total_seconds())]: the difference is a whole
    number of seconds, which [total_seconds] returns exactly. *)
Definition seconds_between (dt other : datetime) : Z :=
  (toordinal dt - toordinal other) * 86400
  + ((hour dt * 3600 + minute dt * 60 + second dt)
     - (hour other * 3600 + minute other * 60 + second other)).

Import Re.

Definition d09 : list item := [Range "0" "9"].

(** The regular expression of a directive (the table of
    [_strptime.TimeRE]). *)
Definition directive (d : ascii) : option regex :=
  if Ascii.eqb d "d" then
    Some (Group "d"
      (Alt (Cat (Chr "3") (Set_ [Range "0" "1"]))
      (Alt (Cat (Set_ [Range "1" "2"]) (Set_ [Digit]))
      (Alt (Cat (Chr "0") (Set_ [Range "1" "9"]))
      (Alt (Set_ [Range "1" "9"])
           (Cat (Chr " ") (Set_ [Range "1" "9"])))))))
  else if Ascii.eqb d "m" then
    Some (Group "m"
      (Alt (Cat (Chr "1") (Set_ [Range "0" "2"]))
      (Alt (Cat (Chr "0") (Set_ [Range "1" "9"]))
           (Set_ [Range "1" "9"]))))
  else if Ascii.eqb d "Y" then
    Some (Group "Y"
      (Cat (Set_ [Digit]) (Cat (Set_ [Digit]) (Cat (Set_ [Digit]) (Set_ [Digit])))))
  else if Ascii.eqb d "H" then
    Some (Group "H"
      (Alt (Cat (Chr "2") (Set_ [Range "0" "3"]))
      (Alt (Cat (Set_ [Range "0" "1"]) (Set_ [Digit]))
           (Set_ [Digit]))))
  else if Ascii.eqb d "M" then
    Some (Group "M"
      (Alt (Cat (Set_ [Range "0" "5"]) (Set_ [Digit])) (Set_ [Digit])))
  else if Ascii.eqb d "S" then
    Some (Group "S"
      (Alt (Cat (Chr "6") (Set_ [Range "0" "1"]))
      (Alt (Cat (Set_ [Range "0" "5"]) (Set_ [Digit])) (Set_ [Digit]))))
  else None.

(** [TimeRE.pattern]: a run of white space in the format stands for
    [\s+], a directive for its expression, any other character for
    itself. Directives other than [%d %m %Y %H %M %S] are not
    modelled (the formats of the rows use no other). *)
Fixpoint pattern (after_space : bool) (fmt : string) : option regex :=
  match fmt with
  | EmptyString => Some Eps
  | String c t =>
      if Ascii.eqb c "%" then
        match t with
        | String d u =>
            match directive d, pattern false u with
            | Some r, Some rest => Some (Cat r rest)
            | _, _ => None
            end
        | EmptyString => None
        end
      else if is_space c then
        match pattern true t with
        | Some rest => Some (if after_space then rest else Cat (Plus [Space]) rest)
        | None => None
        end
      else
        match pattern false t with
        | Some rest => Some (Cat (Chr c) rest)
        | None => None
        end
  end.

(** A field of the match, or its default when the format has no such
    directive. *)
Definition field (m : match_obj) (name : string) (default : Z) : res Z :=
  match lookup_group name (m_groups m) with
  | Some v => py_int v
  | None => Ok default
  end.

(** [datetime.datetime.strptime(data_string, format)] *)
Definition strptime (data_string format : string) : res datetime :=
  match pattern false format with
  | None => Raise ValueError
  | Some r =>
      match match_ true r data_string with
      | None => Raise ValueError
      | Some m =>
          match m_rest m with
          | String _ _ => Raise ValueError
          | EmptyString =>
              let* y := field m "Y" 1900 in
              let* mo := field m "m" 1 in
              let* d := field m "d" 1 in
              let* hh := field m "H" 0 in
              let* mi := field m "M" 0 in
              let* ss := field m "S" 0 in
              make y mo d hh mi ss
          end
      end
  end.

Definition pad2 (n : Z) : string :=
  if n <? 10 then String "0" (py_str n) else py_str n.

Definition pad4 (n : Z) : string :=
  if n <? 10 then "000" +:+ py_str n
  else if n <? 100 then "00" +:+ py_str n
  else if n <? 1000 then String "0" (py_str n)
  else py_str n.

Definition day_abbr (w : Z) : string :=
  nth (Z.to_nat w) ["Mon"; "Tue"; "Wed"; "Thu"; "Fri"; "Sat"; "Sun"] "".

Definition month_abbr (m : Z) : string :=
  nth (Z.to_nat (m - 1))
    ["Jan"; "Feb"; "Mar"; "Apr"; "May"; "Jun";
     "Jul"; "Aug"; "Sep"; "Oct"; "Nov"; "Dec"] "".

(** [dt.strftime(format)] in the C locale, for the directives
    [%a %b %d %m %y %Y %H %M %S]; another directive is copied as it
    is. *)
Fixpoint strftime (dt : datetime) (fmt : string) : string :=
  match fmt with
  | EmptyString => EmptyString
  | String c t =>
      if Ascii.eqb c "%" then
        match t with
        | String d u =>
            (if Ascii.eqb d "a" then day_abbr (weekday dt)
             else if Ascii.eqb d "b" then month_abbr (month dt)
             else if Ascii.eqb d "d" then pad2 (day dt)
             else if Ascii.eqb d "m" then pad2 (month dt)
             else if Ascii.eqb d "y" then pad2 (year dt mod 100)
             else if Ascii.eqb d "Y" then pad4 (year dt)
             else if Ascii.eqb d "H" then pad2 (hour dt)
             else if Ascii.eqb d "M" then pad2 (minute dt)
             else if Ascii.eqb d "S" then pad2 (second dt)
             else String c (String d EmptyString))
            +:+ strftime dt u
        | EmptyString => String c EmptyString
        end
      else String c (strftime dt t)
  end.

End Datetime.

(** ** Floating-point numbers: binary64, as [spec_float] *)

Module Float.

Definition prec : Z := 53.
Definition emax : Z := 1024.

(** [float(n)] *)
Definition of_int (n : Z) : spec_float := binary_normalize prec emax n 0 false.

Definition is_zero (x : spec_float) : bool :=
  match x with
  | S754_zero _ => true
  | _ => false
  end.

(** [a / b] *)
Definition truediv (a b : spec_float) : res spec_float :=
  if is_zero b then Raise (OtherError "ZeroDivisionError")
  else Ok (SFdiv prec emax a b).

(** [a * b] *)
Definition mul (a b : spec_float) : spec_float := SFmul prec emax a b.

(** The integer nearest to [m / d], ties to the even one. *)
Definition div_half_even (m d : Z) : Z :=
  let q := m / d in
  let r := m mod d in
  if 2 * r <? d then q
  else if d <? 2 * r then q + 1
  else if Z.even q then q else q + 1.

(** [round(x)] *)
Definition round (x : spec_float) : res Z :=
  match x with
  | S754_zero _ => Ok 0
  | S754_finite s m e =>
      let v := if 0 <=? e then Z.pos m * 2 ^ e
               else div_half_even (Z.pos m) (2 ^ (- e)) in
      Ok (if s then - v else v)
  | S754_infinity _ => Raise (OtherError "OverflowError")
  | S754_nan => Raise ValueError
  end.

End Float.

(** ** The tracker: the part of the [youtrack] client the importer uses *)

Module youtrack.

Record Issue : Type := { issue_id : string }.

Record Project : Type := { project_id : string }.

Record WorkItem : Type := {
  description : pyval;
  date : pyval;
  duration : pyval
}.

(** A call of a method of the connection, with its arguments. *)
Inductive call : Type :=
| get_issue_call (issue_id : string)
| getProject_call (project_id : option string)
| getWorkItems_call (issue_id : option string)
| createWorkItem_call (issue_id : string) (work_item : WorkItem).

(** The connection is outside the program: what a method returns or
    raises is a function of its arguments and of the calls made so far,
    so that two calls with the same arguments may be answered
    differently. [None] stands for a result that is false. *)
Record Connection : Type := {
  get_issue : list call -> string -> res (option Issue);
  getProject : list call -> option string -> res (option Project);
  getWorkItems : list call -> option string -> res (list WorkItem);
  createWorkItem : list call -> string -> WorkItem -> res pyval
}.

End youtrack.

(** [a == b] on values. *)
Fixpoint py_eq (a b : pyval) : bool :=
  match a, b with
  | PNone, PNone => true
  | PBool x, PBool y => Bool.eqb x y
  | PInt x, PInt y => x =? y
  | PBool x, PInt y => Z.b2z x =? y
  | PInt x, PBool y => x =? Z.b2z y
  | PStr x, PStr y => String.eqb x y
  | PList xs, PList ys =>
      (fix all2 (xs ys : list pyval) : bool :=
         match xs, ys with
         | [], [] => true
         | x :: xs', y :: ys' => py_eq x y && all2 xs' ys'
         | _, _ => false
         end) xs ys
  | _, _ => false
  end.

Definition of_opt_str (x : option string) : pyval :=
  match x with
  | Some s => PStr s
  | None => PNone
  end.

Definition of_opt_int (x : option Z) : pyval :=
  match x with
  | Some n => PInt n
  | None => PNone
  end.

(** [str(x)] for a string or [None]. *)
Definition str_of_opt_str (x : option string) : string :=
  match x with
  | Some s => s
  | None => "None"
  end.

(** [a + b] where each side is a string or [None]. *)
Definition concat (a b : option string) : res string :=
  match a, b with
  | Some x, Some y => Ok (x +:+ y)
  | _, _ => Raise TypeError
  end.

(** ** [youtrack_time_importer/__init__.py] *)

Module Importer.
Import youtrack.

Inductive row_class : Type := Row | ManicTimeRow | TogglRow.

(** An attribute that caches a lookup: [None] before the first lookup,
    [False] when the lookup found nothing, or the object found. *)
Inductive cached (A : Type) : Type :=
| Unset
| NotFound
| Found (a : A).
Arguments Unset {A}.
Arguments NotFound {A}.
Arguments Found {A} a.

(** [isinstance(x, youtrack.Issue)] and [isinstance(x, youtrack.Project)] *)
Definition isinstance {A} (x : cached A) : bool :=
  match x with
  | Found _ => true
  | _ => false
  end.

Record row_obj : Type := {
  cls : row_class;
  data : gmap string string;
  _issue : cached Issue;
  _project : cached Project
}.

(** [cls(connection, data)] *)
Definition new (c : row_class) (d : gmap string string) : row_obj :=
  {| cls := c; data := d; _issue := Unset; _project := Unset |}.

(** The world outside a row: the calls the connection has received and
    the console. *)
Record world : Type := {
  calls : list call;
  stdin : list string;
  stdout : list string
}.

Record state : Type := { self : row_obj; outside : world }.

Definition M (A : Type) : Type := state -> res A * state.

#[global] Instance M_monad : Monad M := {
  ret := fun A a st => (Ok a, st);
  bind := fun A B m k st =>
    match m st with
    | (Ok a, st') => k a st'
    | (Raise e, st') => (Raise e, st')
    end
}.

Definition lift {A} (r : res A) : M A := fun st => (r, st).

Definition get_self : M row_obj := fun st => (Ok (self st), st).

Definition set_self (r : row_obj) : M unit :=
  fun st => (Ok tt, {| self := r; outside := outside st |}).

Definition set_issue (v : cached Issue) : M unit :=
  fun st =>
    let r := self st in
    (Ok tt, {| self := {| cls := cls r; data := data r;
                          _issue := v; _project := _project r |};
               outside := outside st |}).

Definition set_project (v : cached Project) : M unit :=
  fun st =>
    let r := self st in
    (Ok tt, {| self := {| cls := cls r; data := data r;
                          _issue := _issue r; _project := v |};
               outside := outside st |}).

(** A call of the connection: the call is recorded, and the connection
    answers from the calls made before it. *)
Definition tracker {A} (c : call) (answer : list call -> res A) : M A :=
  fun st =>
    let w := outside st in
    (answer (calls w),
     {| self := self st;
        outside := {| calls := calls w ++ [c];
                      stdin := stdin w; stdout := stdout w |} |}).

(** [try: m except youtrack.YouTrackException: handler] *)
Definition except_YouTrackException {A} (m handler : M A) : M A :=
  fun st =>
    match m st with
    | (Raise YouTrackException, st') => handler st'
    | other => other
    end.

(** [print(line)] *)
Definition print (line : string) : M unit :=
  fun st =>
    let w := outside st in
    (Ok tt,
     {| self := self st;
        outside := {| calls := calls w; stdin := stdin w;
                      stdout := stdout w ++ [line] |} |}).

(** [input(prompt)] *)
Definition input (prompt : string) : M string :=
  fun st =>
    let w := outside st in
    match stdin w with
    | line :: rest =>
        (Ok line,
         {| self := self st;
            outside := {| calls := calls w; stdin := rest;
                          stdout := stdout w ++ [prompt] |} |})
    | [] =>
        (Raise EOFError,
         {| self := self st;
            outside := {| calls := calls w; stdin := [];
                          stdout := stdout w ++ [prompt] |} |})
    end.

Definition datetime_format (r : row_obj) : string :=
  match cls r with
  | Row | ManicTimeRow => "%d/%m/%Y %H:%M:%S"
  | TogglRow => "%Y-%m-%d %H:%M:%S"
  end.

Definition get_field (r : row_obj) (field_key : string) : option string :=
  data r !! field_key.

Definition get_tags (r : row_obj) : option string :=
  match cls r with
  | Row | ManicTimeRow => get_field r "Name"
  | TogglRow => get_field r "Tags"
  end.

Definition get_description (r : row_obj) : option string :=
  match cls r with
  | Row | ManicTimeRow => get_field r "Notes"
  | TogglRow => get_field r "Description"
  end.

Definition get_duration (r : row_obj) : option string :=
  get_field r "Duration".

Definition get_start (r : row_obj) : res (option string) :=
  match cls r with
  | Row | ManicTimeRow => Ok (get_field r "Start")
  | TogglRow =>
      let* s := concat (get_field r "Start date") (Some " ") in
      let* s := concat (Some s) (get_field r "Start time") in
      Ok (Some s)
  end.

Definition get_issue_string (r : row_obj) : res (option string) :=
  match cls r with
  | Row | ManicTimeRow => Ok (get_tags r)
  | TogglRow =>
      let* s := concat (get_description r) (Some " ") in
      let* s := concat (Some s) (get_tags r) in
      Ok (Some s)
  end.

(** [re.search("ignore", text, re.IGNORECASE)] on a string or [None]. *)
Definition search_ignore (text : option string) : res (option Re.match_obj) :=
  match text with
  | Some t => Ok (Re.search true (Re.Str "ignore") t)
  | None => Raise TypeError
  end.

Definition is_ignored (r : row_obj) : res bool :=
  let* m := search_ignore (get_tags r) in
  Ok (match m with Some _ => true | None => false end).

Definition get_issue_id_from_tags (issue_string : option string)
    : res (option string) :=
  if negb (truthy issue_string) then Ok None
  else
    match Re.search false issue_pattern (str_of_opt_str issue_string) with
    | Some m => let* issue_id := Re.group m "issue_id" in Ok (Some issue_id)
    | None => Ok None
    end.

Definition get_duration_split (r : row_obj) : option (list string) :=
  match get_duration r with
  | Some (String c t) => Some (split ":" (String c t))
  | _ => None
  end.

Definition get_duration_as_string (r : row_obj) : res (option string) :=
  match get_duration_split r with
  | None => Ok None
  | Some duration =>
      let* d2 := index duration 2 in
      let* seconds := py_int d2 in
      let* duration :=
        (if 30 <=? seconds then
           let* d1 := index duration 1 in
           let* minutes := py_int d1 in
           Ok (<[1%nat := py_str (minutes + 1)]> duration)
         else Ok duration) in
      let* d1 := index duration 1 in
      let* minutes := py_int d1 in
      let* dt :=
        (if 0 <? minutes then
           if 59 <? minutes then
             let* d0 := index duration 0 in
             let* hours := py_int d0 in
             Ok (<[1%nat := "0"]> (<[0%nat := py_str (hours + 1)]> duration), "")
           else Ok (duration, d1 +:+ "m")
         else Ok (duration, "")) in
      let duration := fst dt in
      let time_string := snd dt in
      let* d0 := index duration 0 in
      let* hours := py_int d0 in
      Ok (Some (if 0 <? hours then d0 +:+ "h" +:+ time_string else time_string))
  end.

Definition get_duration_as_minutes (r : row_obj) : res (option Z) :=
  match get_duration_split r with
  | None => Ok None
  | Some duration =>
      let minutes := 0 in
      let* d0 := index duration 0 in
      let* hours := py_int d0 in
      let minutes := minutes + hours * 60 in
      let* d1 := index duration 1 in
      let* m := py_int d1 in
      let minutes := minutes + m in
      let* d2 := index duration 2 in
      let* seconds := py_int d2 in
      Ok (Some (if 30 <=? seconds then minutes + 1 else minutes))
  end.

Definition get_date_object (r : row_obj) : res (option Datetime.datetime) :=
  let* date_string := get_start r in
  if truthy date_string then
    let* date :=
      Datetime.strptime (str_of_opt_str date_string) (datetime_format r) in
    Ok (Some date)
  else Ok None.

Definition get_date_string (r : row_obj) (date_format : string)
    : res (option string) :=
  let date_format :=
    match date_format with
    | EmptyString => "%Y-%m-%d"
    | _ => date_format
    end in
  let* date := get_date_object r in
  Ok (match date with
      | Some dt => Some (Datetime.strftime dt date_format)
      | None => None
      end).

Definition get_date_as_unix_time (r : row_obj) : res (option Z) :=
  let* dt := get_date_object r in
  Ok (match dt with
      | Some dt => Some (Datetime.seconds_between dt Datetime.epoch)
      | None => None
      end).

Definition get_date_as_unix_time_milliseconds (r : row_obj) : res (option Z) :=
  let* epoch := get_date_as_unix_time r in
  Ok (match epoch with
      | Some e => if e =? 0 then None else Some (e * 1000)
      | None => None
      end).

Definition create_timeslip (r : row_obj) : res WorkItem :=
  let description := get_description r in
  let* date := get_date_as_unix_time_milliseconds r in
  let* duration := get_duration_as_minutes r in
  Ok {| description := of_opt_str description;
        date := of_opt_int date;
        duration := of_opt_int duration |}.

(** [" / ".join(string_list)] *)
Fixpoint join (sep : string) (string_list : list (option string)) : res string :=
  match string_list with
  | [] => Ok ""
  | [Some x] => Ok x
  | Some x :: rest => let* tail := join sep rest in Ok (x +:+ sep +:+ tail)
  | None :: _ => Raise TypeError
  end.

Definition timeslip_string (r : row_obj) : res string :=
  let* date_string := get_date_string r "%a, %d %b" in
  let* duration_string := get_duration_as_string r in
  join " / " [date_string; duration_string; get_description r].

(** One turn of the loop of [timeslip_exists] on a work item of the
    tracker: the three comparisons, the later ones only made when the
    earlier ones hold. *)
Definition same_timeslip (r : row_obj) (timeslip : WorkItem) : res bool :=
  let* minutes := get_duration_as_minutes r in
  if py_eq (duration timeslip) (PStr (str_opt minutes)) then
    let* ms := get_date_as_unix_time_milliseconds r in
    if py_eq (date timeslip) (PStr (str_opt ms)) then
      Ok (py_eq (description timeslip) (of_opt_str (get_description r)))
    else Ok false
  else Ok false.

Fixpoint any_same_timeslip (r : row_obj) (timeslips : list WorkItem) : res bool :=
  match timeslips with
  | [] => Ok false
  | timeslip :: rest =>
      let* same := same_timeslip r timeslip in
      if (same : bool) then Ok true else any_same_timeslip r rest
  end.

Section WithConnection.
Variable connection : Connection.

(** The property [issue]. (The two setters of the class are both named
    [x], so that they define a third property and leave [issue] and
    [project] without a setter; nothing uses them.) *)
Definition issue : M (cached Issue) :=
  let* r := get_self in
  (if negb (isinstance (_issue r)) then
     except_YouTrackException
       (let* s := lift (get_issue_string r) in
        let* i := lift (get_issue_id_from_tags s) in
        let* result :=
          tracker (get_issue_call (str_of_opt_str i))
            (fun h => get_issue connection h (str_of_opt_str i)) in
        match result with
        | Some obj => set_issue (Found obj)
        | None => set_issue NotFound
        end)
       (set_issue NotFound)
   else ret tt) ;;
  let* r := get_self in
  ret (_issue r).

Definition issue_exists : M bool :=
  let* i := issue in ret (isinstance i).

Definition get_issue_id : M (option string) :=
  let* i := issue in
  if isinstance i then
    let* i := issue in
    match i with
    | Found obj => ret (Some (issue_id obj))
    | _ => lift (Raise AttributeError)
    end
  else
    let* r := get_self in
    let* s := lift (get_issue_string r) in
    lift (get_issue_id_from_tags s).

Definition get_project_id_from_tags : M (option string) :=
  let* issue_id := get_issue_id in
  if truthy issue_id then
    let* p := lift (index (split "-" (str_of_opt_str issue_id)) 0) in
    ret (Some p)
  else ret None.

(** The property [project]. *)
Definition project : M (cached Project) :=
  let* r := get_self in
  (if negb (isinstance (_project r)) then
     let* p := get_project_id_from_tags in
     let* result :=
       tracker (getProject_call p) (fun h => getProject connection h p) in
     match result with
     | Some obj => set_project (Found obj)
     | None => set_project NotFound
     end
   else ret tt) ;;
  let* r := get_self in
  ret (_project r).

Definition project_exists : M bool :=
  let* p := project in ret (isinstance p).

Definition get_project_id : M (option string) :=
  let* p := project in
  if isinstance p then
    let* p := project in
    match p with
    | Found obj => ret (Some (project_id obj))
    | _ => lift (Raise AttributeError)
    end
  else
    let* issue_id := get_issue_id in
    if truthy issue_id then
      let* p := lift (index (split "-" (str_of_opt_str issue_id)) 0) in
      ret (Some p)
    else ret None.

Definition get_timeslips : M (list WorkItem) :=
  let* issue_id := get_issue_id in
  tracker (getWorkItems_call issue_id)
    (fun h => getWorkItems connection h issue_id).

Definition timeslip_exists : M bool :=
  let* timeslips := get_timeslips in
  let* r := get_self in
  lift (any_same_timeslip r timeslips).

(** The result of [createWorkItem], or [False]. *)
Definition save : M pyval :=
  let* r := get_self in
  let* timeslip := lift (create_timeslip r) in
  let* issue_id := get_issue_id in
  if truthy issue_id then
    tracker (createWorkItem_call (str_of_opt_str issue_id) timeslip)
      (fun h => createWorkItem connection h (str_of_opt_str issue_id) timeslip)
  else ret (PBool false).

(** *** The loop of the main program *)

(** [not row.get_issue_id() or (row.get_issue_id() and not row.issue_exists())] *)
Definition no_issue_found : M bool :=
  let* a := get_issue_id in
  if negb (truthy a) then ret true
  else
    let* b := get_issue_id in
    if truthy b then let* e := issue_exists in ret (negb e)
    else ret false.

(** [row.get_issue_id() or (row.get_issue_id() and not row.issue_exists())] *)
Definition retry_done : M bool :=
  let* a := get_issue_id in
  if truthy a then ret true
  else
    let* b := get_issue_id in
    if truthy b then let* e := issue_exists in ret (negb e)
    else ret false.

(** The [while True] loop; its result is the value of [ignore]. Every
    turn that does not leave the loop reads a line, so the loop is
    defined by recursion on the lines that the input still holds
    ([lines] is [stdin] when the loop is entered). *)
Fixpoint retry (lines : list string) (response : string) : M bool :=
  if String.eqb response "" then ret true
  else
    let* done := retry_done in
    if (done : bool) then ret false
    else
      let* response := input "  Could not find issue. Please try again: " in
      match lines with
      | _ :: rest => retry rest response
      | [] => lift (Raise EOFError)
      end.

(** The body of [for row in rows]; the result tells whether the row
    was counted as added. *)
Definition process_row (row : gmap string string) : M bool :=
  set_self (new ManicTimeRow row) ;;
  let* r := get_self in
  let* m := lift (search_ignore (get_tags r)) in
  let* ignore :=
    match m with
    | Some _ => ret true
    | None =>
        let* missing := no_issue_found in
        if (missing : bool) then
          let* r := get_self in
          let* prompt :=
            lift (concat (Some ("  No Issue found for " +:+ quote)) (get_tags r)) in
          let* response :=
            input (prompt +:+ quote +:+ ". Add to an issue? (y/n): ") in
          if String.eqb (strip response) "n" then ret true
          else
            let* r := get_self in
            let* t := lift (timeslip_string r) in
            let* response :=
              input ("  Enter Issue Id for " +:+ t +:+ " (Leave blank to ignore): ") in
            fun st => retry (stdin (outside st)) response st
        else ret false
    end in
  if negb (ignore : bool) then
    let* e := timeslip_exists in
    if negb (e : bool) then
      save ;;
      print "    uploaded timeslip" ;;
      ret true
    else
      let* issue_id := get_issue_id in
      let* line := lift (concat (Some "  Timeslip for ") issue_id) in
      let* r := get_self in
      let* t := lift (timeslip_string r) in
      print (line +:+ " (" +:+ t +:+ ") already exists") ;;
      ret false
  else
    print "  Timeslip ignored" ;;
    ret false.

Fixpoint for_rows (rows : list (gmap string string)) (count total : Z)
    : M (Z * Z) :=
  match rows with
  | [] => ret (count, total)
  | row :: rest =>
      let total := total + 1 in
      let* added := process_row row in
      for_rows rest (if added then count + 1 else count) total
  end.

Definition import_rows (rows : list (gmap string string)) : M unit :=
  let* ct := for_rows rows 0 0 in
  print ("Added " +:+ py_str (fst ct) +:+ " timeslips out of "
         +:+ py_str (snd ct)) ;;
  print "".
End WithConnection.

End Importer.

(** ** [youtrack_time_importer/row.py] *)

Module RowModule.
Import youtrack.

(** [Row.issue_finder]: the pattern of an issue id, compiled with
    [re.IGNORECASE]. *)
Definition issue_finder (text : string) : option Re.match_obj :=
  Re.search true issue_pattern text.

(** A row of the Toggl API. [Row] is abstract and [TogglCSVRow] leaves
    its abstract methods undefined, so [TogglAPIRow] is the one class of
    the file that has instances. *)
Record TogglAPIRow : Type := {
  data : gmap string pyval;
  connection : option Connection
}.

Definition datetime_format : string := "%Y-%m-%dT%H:%M:%S".

(** [self.data.get(key)] *)
Definition data_get (r : TogglAPIRow) (key : string) : pyval :=
  match data r !! key with
  | Some v => v
  | None => PNone
  end.

Definition start_datetime (r : TogglAPIRow) : res Datetime.datetime :=
  match data_get r "start" with
  | PStr s =>
      let* start := index (split "+" s) 0 in
      Datetime.strptime start datetime_format
  | _ => Raise AttributeError
  end.

(** [x / n] for a value [x] of the data and an integer [n]. *)
Definition div_int (x : pyval) (n : Z) : res spec_float :=
  match x with
  | PInt d => Float.truediv (Float.of_int d) (Float.of_int n)
  | PBool b => Float.truediv (Float.of_int (Z.b2z b)) (Float.of_int n)
  | _ => Raise TypeError
  end.

Section WithClock.
(** [dt.timestamp()] of a datetime without time zone reads [dt] in
    the local time zone of the machine: the seconds since the epoch
    that the platform gives for it. *)
Variable mktime : Datetime.datetime -> Z.

Definition timestamp (dt : Datetime.datetime) : spec_float :=
  Float.of_int (mktime dt).

(** [round(self.data.get("dur")/1000/60)] *)
Definition duration_minutes (r : TogglAPIRow) : res Z :=
  let* seconds := div_int (data_get r "dur") 1000 in
  let* minutes := Float.truediv seconds (Float.of_int 60) in
  Float.round minutes.

(** [round(self.start_datetime().timestamp()*1000)] *)
Definition date_milliseconds (r : TogglAPIRow) : res Z :=
  let* dt := start_datetime r in
  Float.round (Float.mul (timestamp dt) (Float.of_int 1000)).

Definition work_item (r : TogglAPIRow) : res WorkItem :=
  let description := data_get r "description" in
  let* duration := duration_minutes r in
  let* date := date_milliseconds r in
  Ok {| description := description;
        duration := PStr (py_str duration);
        date := PStr (py_str date) |}.
End WithClock.

(** ["ignore" in self.data.get("tags")] *)
Definition is_ignored (r : TogglAPIRow) : res bool :=
  match data_get r "tags" with
  | PStr s => Ok (str_contains "ignore" s)
  | PList items => Ok (existsb (fun v => py_eq v (PStr "ignore")) items)
  | _ => Raise TypeError
  end.

(** The issue id, or [False]. *)
Definition find_issue_id (r : TogglAPIRow) : res pyval :=
  match data_get r "description" with
  | PStr text =>
      match issue_finder text with
      | None => Ok (PBool false)
      | Some m => let* issue_id := Re.group m "issue_id" in Ok (PStr issue_id)
      end
  | _ => Raise TypeError
  end.

(** [not x] for a result of [find_issue_id]. *)
Definition falsy (x : pyval) : bool :=
  match x with
  | PNone | PBool false | PInt 0 | PStr EmptyString | PList [] => true
  | _ => false
  end.

(** The project id, or [False]. *)
Definition find_project_id (r : TogglAPIRow) : res pyval :=
  let* issue_id := find_issue_id r in
  if falsy issue_id then Ok (PBool false)
  else
    match issue_id with
    | PStr s => let* p := index (split "-" s) 0 in Ok (PStr p)
    | _ => Raise AttributeError
    end.

(** The calls of [createWorkItem] already made are [history]; the
    result is the call made, if any. The handler of [AttributeError]
    tests ["createWorkItem" in ae] on the exception object, which
    raises [TypeError]. *)
Definition save_work_item (r : TogglAPIRow) (history : list call)
    (w : WorkItem) : res unit * list call :=
  match find_issue_id r with
  | Raise e => (Raise e, history)
  | Ok issue_id =>
      if falsy issue_id then (Raise YoutrackIssueNotFoundException, history)
      else
        match issue_id, connection r with
        | PStr s, Some c =>
            (match createWorkItem c history s w with
             | Ok _ => Ok tt
             | Raise AttributeError => Raise TypeError
             | Raise e => Raise e
             end,
             history ++ [createWorkItem_call s w])
        | _, _ => (Raise TypeError, history)
        end
  end.

End RowModule.

(** ** More of [__init__.py] *)

Module RowData.

(** A row with its data as [csv.DictReader] gives them: every field of
    the header is a key, and its value is a string, or [None] when the
    line was too short to reach the field. [get_field] does not tell such
    a field from a name that is no key; [set_field] does. *)
Record row := {
  cls : Importer.row_class;
  data : gmap string (option string);
  _issue : Importer.cached youtrack.Issue;
  _project : Importer.cached youtrack.Project
}.

Definition get_field (r : row) (field_key : string) : option string :=
  match data r !! field_key with
  | Some value => value
  | None => None
  end.

(** [set_field]: the result, and the row after the call. *)
Definition set_field (r : row) (field_key field_value : string) : bool * row :=
  match data r !! field_key with
  | Some _ =>
      (true,
       {| cls := cls r;
          data := <[field_key := Some field_value]> (data r);
          _issue := _issue r;
          _project := _project r |})
  | None => (false, r)
  end.

(** The fields that have a string: the data of a row as [Importer] has
    them. *)
Definition strings_of (d : gmap string (option string)) : gmap string string :=
  omap id d.

(** The row as [Importer] has it. *)
Definition view (r : row) : Importer.row_obj :=
  {| Importer.cls := cls r;
     Importer.data := strings_of (data r);
     Importer._issue := _issue r;
     Importer._project := _project r |}.

End RowData.

(** * Vocabulary of the properties *)

(** The number that a string of decimal digits denotes. *)
Fixpoint dec_value_from (acc : Z) (s : string) : Z :=
  match s with
  | EmptyString => acc
  | String c t => dec_value_from (10 * acc + digit_val c) t
  end.

Definition dec_value (s : string) : Z := dec_value_from 0 s.

(** A non-empty string of decimal digits. *)
Definition is_number (s : string) : Prop :=
  s <> "" /\ str_forall is_digit s = true.

(** A row of a given class whose data are the given fields. *)
Definition row_of (c : Importer.row_class) (fields : list (string * string))
    : Importer.row_obj :=
  Importer.new c (list_to_map fields).

(** The row of the end-to-end scenario of the specification. *)
Definition csv_row_example : Importer.row_obj :=
  row_of Importer.ManicTimeRow
    [("Name", "ABC-123 meeting"); ("Duration", "0:30:00");
     ("Start", "01/01/2020 09:00:00"); ("Notes", "sync")].

(** A row of the Toggl API with the given fields and no connection. *)
Definition api_row_of (fields : list (string * pyval)) : RowModule.TogglAPIRow :=
  {| RowModule.data := list_to_map fields; RowModule.connection := None |}.

Definition api_row_example : RowModule.TogglAPIRow :=
  api_row_of
    [("description", PStr "ABC-123 sync"); ("dur", PInt 1800000);
     ("start", PStr "2020-01-01T09:00:00+00:00"); ("tags", PList [PStr "work"])].

(** The clock of a machine whose local time is UTC. *)
Definition utc_clock (dt : Datetime.datetime) : Z :=
  Datetime.seconds_between dt Datetime.epoch.

(** The longest prefix of a string whose characters satisfy [p], and the
    rest of the string. *)
Fixpoint span (p : ascii -> bool) (s : string) : string * string :=
  match s with
  | EmptyString => (EmptyString, EmptyString)
  | String c t =>
      if p c then (String c (fst (span p t)), snd (span p t))
      else (EmptyString, s)
  end.

(** A string has the form of an issue id: letters and digits, possibly
    none, a hyphen, and one digit or more. *)
Definition is_issue_id (m : string) : Prop :=
  exists a d,
    m = a +:+ "-" +:+ d
    /\ str_forall is_alnum a = true
    /\ str_forall is_digit d = true
    /\ d <> "".

(** [m] occurs in [text] at offset [n]. *)
Definition occurs_at (text : string) (n : nat) (m : string) : Prop :=
  exists pre post, text = pre +:+ m +:+ post /\ String.length pre = n.

(** [m] is the first issue id of [text]: no issue id starts before it, and
    none that starts where it does is longer. *)
Definition first_issue_id (text m : string) : Prop :=
  exists n,
    occurs_at text n m /\ is_issue_id m
    /\ forall n' m', occurs_at text n' m' -> is_issue_id m' ->
         (n <= n')%nat /\ (n' = n -> (String.length m' <= String.length m)%nat).

Definition no_issue_id (text : string) : Prop :=
  forall n m, occurs_at text n m -> ~ is_issue_id m.

(** The part of [m] before its first hyphen. *)
Definition before_hyphen (m p : string) : Prop :=
  exists q,
    m = p +:+ "-" +:+ q
    /\ str_forall (fun c => negb (Ascii.eqb c "-")) p = true.

(** [text] contains the word "ignore" in some letter case. *)
Definition contains_ignore (text : string) : Prop :=
  exists pre mid post, text = pre +:+ mid +:+ post /\ str_lower mid = "ignore".

(** What is left of [s] after a prefix equal to [p] up to letter case. *)
Fixpoint strip_prefix_ci (p s : string) : option string :=
  match p, s with
  | EmptyString, _ => Some s
  | String c p', String ch s' =>
      if Ascii.eqb (lower ch) (lower c) then strip_prefix_ci p' s' else None
  | String _ _, EmptyString => None
  end.

(** The issue id at the very start of [s], and what follows it. *)
Definition issue_at (s : string) : option (string * string) :=
  match snd (span is_alnum s) with
  | String c s2 =>
      if Ascii.eqb c "-" then
        match fst (span is_digit s2) with
        | EmptyString => None
        | d => Some (fst (span is_alnum s) +:+ "-" +:+ d, snd (span is_digit s2))
        end
      else None
  | EmptyString => None
  end.

(** What a lookup may change: the cached issue and the calls made, which
    only grow; the class, the data, the cached project and the console
    are left as they are. *)
Definition lookup_step (st st' : Importer.state) : Prop :=
  Importer.cls (Importer.self st') = Importer.cls (Importer.self st)
  /\ Importer.data (Importer.self st') = Importer.data (Importer.self st)
  /\ Importer._project (Importer.self st') = Importer._project (Importer.self st)
  /\ Importer.stdin (Importer.outside st') = Importer.stdin (Importer.outside st)
  /\ Importer.stdout (Importer.outside st') = Importer.stdout (Importer.outside st)
  /\ exists extra,
       Importer.calls (Importer.outside st')
       = Importer.calls (Importer.outside st) ++ extra.

(** A state: a row and the calls made so far, with an empty console. *)
Definition state_of (r : Importer.row_obj) (history : list youtrack.call)
    : Importer.state :=
  {| Importer.self := r;
     Importer.outside := {| Importer.calls := history;
                            Importer.stdin := [];
                            Importer.stdout := [] |} |}.

(** A tracker that knows no issue and no project, and accepts every work
    item. *)
Definition empty_tracker : youtrack.Connection :=
  {| youtrack.get_issue := fun _ _ => Raise YouTrackException;
     youtrack.getProject := fun _ _ => Ok None;
     youtrack.getWorkItems := fun _ _ => Ok [];
     youtrack.createWorkItem := fun _ _ _ => Ok PNone |}.

(** A tracker with the one issue ABC-123 of the project ABC, whose work
    items are the given ones. *)
Definition abc_tracker (items : list youtrack.WorkItem) : youtrack.Connection :=
  {| youtrack.get_issue := fun _ i =>
       if String.eqb i "ABC-123" then Ok (Some {| youtrack.issue_id := "ABC-123" |})
       else Raise YouTrackException;
     youtrack.getProject := fun _ p =>
       match p with
       | Some "ABC" => Ok (Some {| youtrack.project_id := "ABC" |})
       | _ => Ok None
       end;
     youtrack.getWorkItems := fun _ i =>
       match i with
       | Some "ABC-123" => Ok items
       | _ => Raise YouTrackException
       end;
     youtrack.createWorkItem := fun _ _ _ => Ok PNone |}.

(** The work item of the tracker that stands for the example row. *)
Definition stored_example : youtrack.WorkItem :=
  {| youtrack.description := PStr "sync";
     youtrack.date := PStr "1577869200000";
     youtrack.duration := PStr "30" |}.

(** A row with the class and the data of [r] and nothing cached. *)
Definition fresh (r : Importer.row_obj) : Importer.row_obj :=
  Importer.new (Importer.cls r) (Importer.data r).

(** A work item holds the given minutes, milliseconds and description. *)
Definition same_fields (minutes ms : option Z) (descr : option string)
    (w : youtrack.WorkItem) : Prop :=
  youtrack.duration w = PStr (str_opt minutes)
  /\ youtrack.date w = PStr (str_opt ms)
  /\ youtrack.description w = of_opt_str descr.

(** The state in which the loop of the main program leaves a row that it
    ignores at once: the row is the current one, nothing is cached, and
    one line is printed. *)
Definition ignored_at_once (row : gmap string string) (st : Importer.state)
    : Importer.state :=
  {| Importer.self := Importer.new Importer.ManicTimeRow row;
     Importer.outside :=
       {| Importer.calls := Importer.calls (Importer.outside st);
          Importer.stdin := Importer.stdin (Importer.outside st);
          Importer.stdout :=
            Importer.stdout (Importer.outside st) ++ ["  Timeslip ignored"] |} |}.

(** A row to ignore, whose issue exists on [abc_tracker]. *)
Definition ignored_row_example : gmap string string :=
  list_to_map [("Name", "ABC-123 lunch IGNORE"); ("Duration", "1:00:00");
               ("Start", "01/01/2020 12:00:00"); ("Notes", "lunch")].

(** An export with that row between two rows to upload. *)
Definition rows_example : list (gmap string string) :=
  [list_to_map [("Name", "ABC-123 meeting"); ("Duration", "0:30:00");
                ("Start", "01/01/2020 09:00:00"); ("Notes", "sync")];
   ignored_row_example;
   list_to_map [("Name", "ABC-123 review"); ("Duration", "0:45:40");
                ("Start", "01/01/2020 14:00:00"); ("Notes", "review")]].

(** The state after [n] accesses of [issue] by a row whose issue the
    tracker does not know. *)
Fixpoint after_accesses (n : nat) : Importer.state :=
  match n with
  | O => state_of (row_of Importer.ManicTimeRow [("Name", "ABC-1 call")]) []
  | S n' => snd (Importer.issue empty_tracker (after_accesses n'))
  end.

(** The run of the loop over the example rows. *)
Definition run_example : res (Z * Z) * Importer.state :=
  Importer.for_rows (abc_tracker []) rows_example 0 0 (state_of csv_row_example []).

(** A call of [createWorkItem]. *)
Definition is_create (c : youtrack.call) : bool :=
  match c with
  | youtrack.createWorkItem_call _ _ => true
  | _ => false
  end.

(** The number of calls of [createWorkItem] among some calls. *)
Definition creates (cs : list youtrack.call) : nat :=
  length (List.filter is_create cs).

(** The calls that a computation adds, from a state. *)
Definition adds {A} (m : Importer.M A) (st : Importer.state)
    (extra : list youtrack.call) : Prop :=
  Importer.calls (Importer.outside (snd (m st)))
  = Importer.calls (Importer.outside st) ++ extra.

(** A computation that calls [createWorkItem] at most [n] times. *)
Definition uploads_at_most {A} (n : nat) (m : Importer.M A) : Prop :=
  forall st, exists extra, adds m st extra /\ (creates extra <= n)%nat.

(** A computation that never calls [createWorkItem]. *)
Definition quiet {A} (m : Importer.M A) : Prop := uploads_at_most 0 m.

(** A computation that calls [createWorkItem] at most once, and not at
    all when it returns [False]. *)
Definition uploads_unless_false (m : Importer.M bool) : Prop :=
  forall st, exists extra,
    adds m st extra /\ (creates extra <= 1)%nat
    /\ (fst (m st) = Ok false -> creates extra = 0%nat).

(** [w'] is the work item [w] as the tracker gives it back: the same
    description, and the date and the duration of [w], an integer or
    [None], written as [str] writes them. *)
Definition stored_as_strings (w w' : youtrack.WorkItem) : Prop :=
  youtrack.description w' = youtrack.description w
  /\ (exists ms, youtrack.date w = of_opt_int ms
                 /\ youtrack.date w' = PStr (str_opt ms))
  /\ (exists minutes, youtrack.duration w = of_opt_int minutes
                      /\ youtrack.duration w' = PStr (str_opt minutes)).

(** The state after a lookup of the issue [i] that found nothing. *)
Definition after_failed_lookup (i : string) (st : Importer.state) : Importer.state :=
  snd (Importer.set_issue Importer.NotFound
         (snd (Importer.tracker (youtrack.get_issue_call i)
                 (fun _ => Ok tt) st))).

(** The state after a lookup of the issue [i] that found [obj]. *)
Definition after_found_lookup (i : string) (obj : youtrack.Issue)
    (st : Importer.state) : Importer.state :=
  snd (Importer.set_issue (Importer.Found obj)
         (snd (Importer.tracker (youtrack.get_issue_call i)
                 (fun _ => Ok tt) st))).

(** The state after a call [c] of the tracker. *)
Definition after_call (c : youtrack.call) (st : Importer.state) : Importer.state :=
  snd (Importer.tracker c (fun _ => Ok tt) st).

(** A tracker that answers every lookup of an issue with the issue
    XYZ-45, as a tracker does for an issue that was moved to the project
    XYZ and is asked for by its former id. *)
Definition xyz_tracker : youtrack.Connection :=
  {| youtrack.get_issue := fun _ _ => Ok (Some {| youtrack.issue_id := "XYZ-45" |});
     youtrack.getProject := fun _ _ => Ok None;
     youtrack.getWorkItems := fun _ _ => Ok [];
     youtrack.createWorkItem := fun _ _ _ => Ok PNone |}.

(** A row of a ManicTime export with nothing cached, whose "Name" is
    [text], before any call of the tracker. *)
Definition named_row (text : string) : Importer.state :=
  state_of (row_of Importer.ManicTimeRow [("Name", text)]) [].

(** The project part [p] of an issue id [id] that the tracker gave: none
    for the empty id; else the part before the first hyphen, which is the
    whole id when it has no hyphen. *)
Definition project_part_of (id : string) (p : option string) : Prop :=
  (id = "" /\ p = None)
  \/ (id <> ""
      /\ exists q, p = Some q
           /\ (before_hyphen id q
               \/ (str_forall (fun c => negb (Ascii.eqb c "-")) id = true
                   /\ q = id))).

(** * Properties *)

(** ** Strings *)

#[local] Arguments String.append !_ _ : simpl nomatch.
#[local] Arguments Re.set_matches : simpl never.
#[local] Arguments Re.consumed : simpl never.


Lemma append_assoc (a b c : string) : (a +:+ b) +:+ c = a +:+ b +:+ c.
Proof. induction a as [|x a IH]; simpl; [reflexivity | now rewrite IH]. Qed.

Lemma length_append (a b : string) :
  String.length (a +:+ b) = (String.length a + String.length b)%nat.
Proof. induction a as [|x a IH]; simpl; [reflexivity | now rewrite IH]. Qed.

Lemma append_inv_head (a b c : string) : a +:+ b = a +:+ c -> b = c.
Proof. induction a as [|x a IH]; simpl; intros H; [exact H | injection H; auto]. Qed.

Lemma substring_append (a b : string) : String.substring 0 (String.length a) (a +:+ b) = a.
Proof.
  induction a as [|x a IH]; simpl.
  - destruct b; reflexivity.
  - now rewrite IH.
Qed.

Lemma consumed_append (a b : string) : Re.consumed (a +:+ b) b = a.
Proof.
  unfold Re.consumed. rewrite length_append.
  replace (String.length a + String.length b - String.length b)%nat
    with (String.length a) by lia.
  apply substring_append.
Qed.

Lemma str_forall_append (p : ascii -> bool) (a b : string) :
  str_forall p (a +:+ b) = str_forall p a && str_forall p b.
Proof.
  induction a as [|x a IH]; simpl; [reflexivity|].
  rewrite IH. now rewrite andb_assoc.
Qed.

(** The characters of the classes, by enumeration of the 256 codes. *)
Ltac by_cases_on_char c :=
  destruct c as [[] [] [] [] [] [] [] []]; try reflexivity; try discriminate.

Lemma digit_not_space (c : ascii) : is_digit c = true -> is_space c = false.
Proof. by_cases_on_char c. Qed.

Lemma digit_not_colon (c : ascii) : is_digit c = true -> Ascii.eqb c ":" = false.
Proof. by_cases_on_char c. Qed.

Lemma digit_not_sign (c : ascii) :
  is_digit c = true -> c <> "-"%char /\ c <> "+"%char.
Proof. by_cases_on_char c; intros _; split; discriminate. Qed.

Lemma digit_val_range (c : ascii) : is_digit c = true -> 0 <= digit_val c <= 9.
Proof. by_cases_on_char c; intros _; vm_compute; split; discriminate. Qed.

(** ** Durations *)

Lemma int_digits_value (s : string) (acc : Z) :
  str_forall is_digit s = true -> int_digits acc s = Some (dec_value_from acc s).
Proof.
  revert acc; induction s as [|c s IH]; simpl; intros acc H; [reflexivity|].
  apply andb_true_iff in H as [Hc Hs]. rewrite Hc. now apply IH.
Qed.

Lemma lstrip_number (s : string) : str_forall is_digit s = true -> lstrip s = s.
Proof.
  destruct s as [|c s]; simpl; [reflexivity|]. intros H.
  apply andb_true_iff in H as [Hc _]. now rewrite (digit_not_space c Hc).
Qed.

Lemma rstrip_number (s : string) : str_forall is_digit s = true -> rstrip s = s.
Proof.
  induction s as [|c s IH]; simpl; [reflexivity|]. intros H.
  apply andb_true_iff in H as [Hc Hs]. rewrite (IH Hs).
  destruct s; [now rewrite (digit_not_space c Hc) | reflexivity].
Qed.

Lemma py_int_number (s : string) : is_number s -> py_int s = Ok (dec_value s).
Proof.
  intros [Hne Hd]. unfold py_int, strip.
  rewrite (lstrip_number s Hd), (rstrip_number s Hd).
  destruct s as [|c s]; [congruence|].
  simpl in Hd. apply andb_true_iff in Hd as [Hc Hs].
  destruct (digit_not_sign c Hc) as [Hm Hp].
  assert (Hbody :
    match String c s with
    | String "-" t => (true, t)
    | String "+" t => (false, t)
    | _ => (false, String c s)
    end = (false, String c s)).
  { clear - Hm Hp. by_cases_on_char c; congruence. }
  rewrite Hbody. simpl. rewrite Hc.
  rewrite (int_digits_value s _ Hs). unfold dec_value. simpl.
  reflexivity.
Qed.

Lemma split_no_sep (sep : ascii) (s : string) :
  str_forall (fun c => negb (Ascii.eqb c sep)) s = true -> split sep s = [s].
Proof.
  induction s as [|c s IH]; simpl; [reflexivity|]. intros H.
  apply andb_true_iff in H as [Hc Hs].
  apply negb_true_iff in Hc. rewrite Hc, (IH Hs). reflexivity.
Qed.

Lemma split_append (sep : ascii) (a rest : string) :
  str_forall (fun c => negb (Ascii.eqb c sep)) a = true ->
  split sep (a +:+ String sep rest) = a :: split sep rest.
Proof.
  induction a as [|c a IH]; simpl; intros H.
  - now rewrite Ascii.eqb_refl.
  - apply andb_true_iff in H as [Hc Ha].
    apply negb_true_iff in Hc. rewrite Hc, (IH Ha). reflexivity.
Qed.

Lemma number_no_colon (s : string) :
  str_forall is_digit s = true ->
  str_forall (fun c => negb (Ascii.eqb c ":")) s = true.
Proof.
  induction s as [|c s IH]; simpl; [reflexivity|]. intros H.
  apply andb_true_iff in H as [Hc Hs].
  now rewrite (digit_not_colon c Hc), (IH Hs).
Qed.

Lemma split_duration (h m s : string) :
  is_number h -> is_number m -> is_number s ->
  split ":" (h +:+ ":" +:+ m +:+ ":" +:+ s) = [h; m; s].
Proof.
  intros [_ Hh] [_ Hm] [_ Hs].
  change (h +:+ ":" +:+ m +:+ ":" +:+ s)
    with (h +:+ String ":" (m +:+ String ":" s)).
  rewrite (split_append ":" h _ (number_no_colon h Hh)).
  rewrite (split_append ":" m _ (number_no_colon m Hm)).
  now rewrite (split_no_sep ":" s (number_no_colon s Hs)).
Qed.

Lemma duration_split_of (r : Importer.row_obj) (h m s : string) :
  is_number h -> is_number m -> is_number s ->
  Importer.get_duration r = Some (h +:+ ":" +:+ m +:+ ":" +:+ s) ->
  Importer.get_duration_split r = Some [h; m; s].
Proof.
  intros Hh Hm Hs Hd. unfold Importer.get_duration_split. rewrite Hd.
  destruct h as [|c h]; [destruct Hh; congruence|].
  rewrite <- (split_duration (String c h) m s Hh Hm Hs). reflexivity.
Qed.

(** C3: for a duration [H:M:S] of three numbers, the duration in minutes is
    [H*60+M] when [S < 30] and [H*60+M+1] when [S >= 30]. *)
Theorem duration_minutes_rounds_seconds (r : Importer.row_obj) (h m s : string) :
  is_number h -> is_number m -> is_number s ->
  Importer.get_duration r = Some (h +:+ ":" +:+ m +:+ ":" +:+ s) ->
  (dec_value s < 30 ->
   Importer.get_duration_as_minutes r
   = Ok (Some (dec_value h * 60 + dec_value m)))
  /\ (dec_value s >= 30 ->
      Importer.get_duration_as_minutes r
      = Ok (Some (dec_value h * 60 + dec_value m + 1))).
Proof.
  intros Hh Hm Hs Hd.
  unfold Importer.get_duration_as_minutes.
  rewrite (duration_split_of r h m s Hh Hm Hs Hd).
  unfold index; simpl.
  rewrite (py_int_number h Hh), (py_int_number m Hm), (py_int_number s Hs).
  split; intros Hlt.
  - destruct (Z.leb_spec 30 (dec_value s)); [lia | reflexivity].
  - destruct (Z.leb_spec 30 (dec_value s)); [reflexivity | lia].
Qed.

Lemma duration_minutes_rounds_seconds_witness :
  Importer.get_duration_as_minutes (row_of Importer.TogglRow [("Duration", "02:07:30")])
  = Ok (Some (dec_value "02" * 60 + dec_value "07" + 1)).
Proof.
  refine (proj2 (duration_minutes_rounds_seconds
            (row_of Importer.TogglRow [("Duration", "02:07:30")])
            "02" "07" "30" _ _ _ _) _).
  - split; [discriminate | reflexivity].
  - split; [discriminate | reflexivity].
  - split; [discriminate | reflexivity].
  - vm_compute. reflexivity.
  - vm_compute. discriminate.
Defined.

(** C2, as the code has it: for a row whose duration field is ["1:45:10"]
    the duration in minutes is 105 (ten seconds do not round up) and the
    duration string is ["1h45m"]. *)
Theorem duration_1_45_10 (r : Importer.row_obj) :
  Importer.get_duration r = Some "1:45:10" ->
  Importer.get_duration_as_minutes r = Ok (Some 105)
  /\ Importer.get_duration_as_string r = Ok (Some "1h45m").
Proof.
  intros Hd.
  unfold Importer.get_duration_as_minutes, Importer.get_duration_as_string,
    Importer.get_duration_split.
  rewrite Hd. split; vm_compute; reflexivity.
Qed.

Lemma duration_1_45_10_witness :
  Importer.get_duration_as_minutes
    (row_of Importer.ManicTimeRow [("Duration", "1:45:10")]) = Ok (Some 105)
  /\ Importer.get_duration_as_string
       (row_of Importer.ManicTimeRow [("Duration", "1:45:10")]) = Ok (Some "1h45m").
Proof.
  apply (duration_1_45_10 (row_of Importer.ManicTimeRow [("Duration", "1:45:10")])).
  vm_compute. reflexivity.
Defined.

(** C2 as stated (106 minutes) does not hold. *)
Lemma duration_1_45_10_is_not_106 :
  ~ (Importer.get_duration_as_minutes
       (row_of Importer.ManicTimeRow [("Duration", "1:45:10")]) = Ok (Some 106)
     /\ Importer.get_duration_as_string
          (row_of Importer.ManicTimeRow [("Duration", "1:45:10")])
        = Ok (Some "1h45m")).
Proof. intros [H _]. vm_compute in H. discriminate H. Qed.

(** ** Dates *)

(** C9: when the start of a row is the epoch itself, second 0, the date in
    milliseconds is [None] and not 0, and so is the date of the work
    item. *)
Theorem epoch_start_gives_no_date (r : Importer.row_obj) :
  Importer.get_date_object r = Ok (Some Datetime.epoch) ->
  Importer.get_date_as_unix_time r = Ok (Some 0)
  /\ Importer.get_date_as_unix_time_milliseconds r = Ok None
  /\ (forall minutes,
        Importer.get_duration_as_minutes r = Ok minutes ->
        exists w, Importer.create_timeslip r = Ok w /\ youtrack.date w = PNone).
Proof.
  intros Hd.
  assert (Hs : Importer.get_date_as_unix_time r = Ok (Some 0)).
  { unfold Importer.get_date_as_unix_time. rewrite Hd. reflexivity. }
  assert (Hms : Importer.get_date_as_unix_time_milliseconds r = Ok None).
  { unfold Importer.get_date_as_unix_time_milliseconds. rewrite Hs. reflexivity. }
  repeat split; try assumption.
  intros minutes Hm. unfold Importer.create_timeslip.
  rewrite Hms, Hm. simpl. eexists; split; reflexivity.
Qed.

Lemma epoch_start_gives_no_date_witness :
  Importer.get_date_as_unix_time_milliseconds
    (row_of Importer.ManicTimeRow
       [("Start", "01/01/1970 00:00:00"); ("Duration", "0:30:00")]) = Ok None.
Proof.
  refine (proj1 (proj2 (epoch_start_gives_no_date
    (row_of Importer.ManicTimeRow
       [("Start", "01/01/1970 00:00:00"); ("Duration", "0:30:00")]) _))).
  vm_compute. reflexivity.
Defined.

(** The same for a row of the Toggl export, whose start is made of two
    fields. *)
Lemma epoch_start_toggl :
  Importer.get_date_object
    (row_of Importer.TogglRow
       [("Start date", "1970-01-01"); ("Start time", "00:00:00")])
  = Ok (Some Datetime.epoch).
Proof. vm_compute. reflexivity. Qed.

(** ** Work items *)

(** C5, as the code has it: [TogglAPIRow.work_item] stores the description
    of the row and the minutes and the milliseconds as strings;
    [Row.create_timeslip] stores the description of the row and the minutes
    and the milliseconds as they are computed, an integer or [None]. *)
Theorem work_item_fields (mktime : Datetime.datetime -> Z)
    (a : RowModule.TogglAPIRow) (r : Importer.row_obj)
    (minutes_a ms_a : Z) (minutes_r ms_r : option Z) :
  RowModule.duration_minutes a = Ok minutes_a ->
  RowModule.date_milliseconds mktime a = Ok ms_a ->
  Importer.get_duration_as_minutes r = Ok minutes_r ->
  Importer.get_date_as_unix_time_milliseconds r = Ok ms_r ->
  RowModule.work_item mktime a
  = Ok {| youtrack.description := RowModule.data_get a "description";
          youtrack.date := PStr (py_str ms_a);
          youtrack.duration := PStr (py_str minutes_a) |}
  /\ Importer.create_timeslip r
     = Ok {| youtrack.description := of_opt_str (Importer.get_description r);
             youtrack.date := of_opt_int ms_r;
             youtrack.duration := of_opt_int minutes_r |}.
Proof.
  intros Ha1 Ha2 Hr1 Hr2. split.
  - unfold RowModule.work_item. rewrite Ha1, Ha2. reflexivity.
  - unfold Importer.create_timeslip. rewrite Hr1, Hr2. reflexivity.
Qed.

Lemma work_item_fields_witness :
  RowModule.work_item utc_clock api_row_example
  = Ok {| youtrack.description := PStr "ABC-123 sync";
          youtrack.date := PStr "1577869200000";
          youtrack.duration := PStr "30" |}
  /\ Importer.create_timeslip csv_row_example
     = Ok {| youtrack.description := PStr "sync";
             youtrack.date := PInt 1577869200000;
             youtrack.duration := PInt 30 |}.
Proof.
  apply (work_item_fields utc_clock api_row_example csv_row_example
           30 1577869200000 (Some 30) (Some 1577869200000));
    vm_compute; reflexivity.
Defined.

(** C5 as stated does not hold for [create_timeslip]: the minutes of the
    example row are 30 and its milliseconds 1577869200000, and the work
    item does not hold them as strings. *)
Lemma create_timeslip_fields_are_not_strings :
  Importer.get_duration_as_minutes csv_row_example = Ok (Some 30)
  /\ Importer.get_date_as_unix_time_milliseconds csv_row_example
     = Ok (Some 1577869200000)
  /\ ~ (exists w,
          Importer.create_timeslip csv_row_example = Ok w
          /\ youtrack.duration w = PStr (py_str 30)
          /\ youtrack.date w = PStr (py_str 1577869200000)).
Proof.
  split; [vm_compute; reflexivity|]. split; [vm_compute; reflexivity|].
  intros [w [Hw [Hd _]]].
  assert (E : Importer.create_timeslip csv_row_example
              = Ok {| youtrack.description := PStr "sync";
                      youtrack.date := PInt 1577869200000;
                      youtrack.duration := PInt 30 |})
    by (vm_compute; reflexivity).
  rewrite E in Hw. injection Hw as <-. simpl in Hd. discriminate Hd.
Qed.

(** ** Ignored rows *)

(** C4 at a failing input: with the tag text ["Ignore"], or the tag list
    [["IGNORE"]], [TogglAPIRow.is_ignored] answers [False], where
    [Row.is_ignored] answers [True] on the same text. *)
Theorem api_is_ignored_is_case_sensitive :
  RowModule.is_ignored (api_row_of [("tags", PStr "Ignore")]) = Ok false
  /\ RowModule.is_ignored (api_row_of [("tags", PList [PStr "IGNORE"])]) = Ok false
  /\ RowModule.is_ignored (api_row_of [("tags", PList [PStr "ignore me"])]) = Ok false
  /\ RowModule.is_ignored (api_row_of [("tags", PStr "ignore")]) = Ok true
  /\ Importer.is_ignored (row_of Importer.ManicTimeRow [("Name", "Ignore")]) = Ok true
  /\ Importer.is_ignored (row_of Importer.TogglRow [("Tags", "IGNORE")]) = Ok true.
Proof. repeat split; vm_compute; reflexivity. Qed.

(** ** The matcher *)

Lemma set_alnum (ic : bool) (c : ascii) : Re.set_matches ic alnum_set c = is_alnum c.
Proof. destruct ic; by_cases_on_char c. Qed.

Lemma set_digit (ic : bool) (c : ascii) : Re.set_matches ic digit_set c = is_digit c.
Proof. destruct ic; by_cases_on_char c. Qed.

Lemma set_lit_ci (c ch : ascii) :
  Re.set_matches true [Re.Lit c] ch = Ascii.eqb (lower ch) (lower c).
Proof. unfold Re.set_matches. simpl. now rewrite orb_false_r. Qed.

Lemma alnum_not_hyphen (ic : bool) (c : ascii) :
  is_alnum c = true -> Re.set_matches ic [Re.Lit "-"] c = false.
Proof. destruct ic; by_cases_on_char c. Qed.

Lemma set_hyphen (ic : bool) (c : ascii) :
  Re.set_matches ic [Re.Lit "-"] c = Ascii.eqb c "-".
Proof. destruct ic; by_cases_on_char c. Qed.

Lemma span_append (p : ascii -> bool) (s : string) :
  fst (span p s) +:+ snd (span p s) = s.
Proof.
  induction s as [|c s IH]; simpl; [reflexivity|].
  destruct (p c); simpl; [now rewrite IH | reflexivity].
Qed.

Lemma span_forall (p : ascii -> bool) (s : string) :
  str_forall p (fst (span p s)) = true.
Proof.
  induction s as [|c s IH]; simpl; [reflexivity|].
  destruct (p c) eqn:E; simpl; [now rewrite E, IH | reflexivity].
Qed.

(** A greedy repetition whose continuation fails at every position that
    the repetition could still extend ends at the end of the longest run. *)
Lemma star_longest {A} (ic : bool) (items : list Re.item) (s : string)
    (k : string -> option A) :
  (forall c t, Re.set_matches ic items c = true -> k (String c t) = None) ->
  Re.star ic items s k = k (snd (span (Re.set_matches ic items) s)).
Proof.
  intros Hk. induction s as [|c s IH]; simpl; [reflexivity|].
  destruct (Re.set_matches ic items c) eqn:E; simpl; [|reflexivity].
  rewrite IH. destruct (k (snd (span (Re.set_matches ic items) s))) eqn:Ek;
    [reflexivity|]. now apply Hk.
Qed.

(** So does one whose continuation never fails. *)
Lemma star_total {A} (ic : bool) (items : list Re.item) (s : string)
    (k : string -> option A) :
  (forall t, k t <> None) ->
  Re.star ic items s k = k (snd (span (Re.set_matches ic items) s)).
Proof.
  intros Hk. induction s as [|c s IH]; simpl; [reflexivity|].
  destruct (Re.set_matches ic items c) eqn:E; simpl; [|reflexivity].
  rewrite IH. destruct (k (snd (span (Re.set_matches ic items) s))) eqn:Ek;
    [reflexivity|]. now apply Hk in Ek.
Qed.

Lemma span_ext (p q : ascii -> bool) (s : string) :
  (forall c, p c = q c) -> span p s = span q s.
Proof.
  intros H. induction s as [|c s IH]; simpl; [reflexivity|].
  now rewrite H, IH.
Qed.

Lemma match_at_issue (ic : bool) (i : nat) (s : string) :
  Re.match_at ic issue_pattern i s
  = match issue_at s with
    | Some (m, rest) =>
        Some {| Re.m_start := i; Re.m_text := m;
                Re.m_groups := [("issue_id", m)]; Re.m_rest := rest |}
    | None => None
    end.
Proof.
  unfold Re.match_at, issue_pattern, issue_at. simpl Re.run.
  rewrite star_longest.
  2:{ intros c t Hc. rewrite set_alnum in Hc.
      now rewrite (alnum_not_hyphen ic c Hc). }
  rewrite (span_ext _ is_alnum s (set_alnum ic)).
  pose proof (span_append is_alnum s) as Hs.
  destruct (snd (span is_alnum s)) as [|c s2] eqn:E1; [reflexivity|].
  rewrite set_hyphen. destruct (Ascii.eqb_spec c "-") as [->|Hne]; [|reflexivity].
  destruct s2 as [|c2 t2]; [reflexivity|].
  rewrite set_digit. simpl span. destruct (is_digit c2) eqn:E2; [|reflexivity].
  rewrite star_total by discriminate.
  rewrite (span_ext _ is_digit t2 (set_digit ic)).
  simpl fst; simpl snd.
  pose proof (span_append is_digit t2) as Ht.
  assert (Hc : Re.consumed s (snd (span is_digit t2))
               = fst (span is_alnum s) +:+ "-" +:+ String c2 (fst (span is_digit t2))).
  { rewrite <- Hs at 1. rewrite <- Ht at 1.
    change (fst (span is_alnum s) +:+
              String "-" (String c2 (fst (span is_digit t2) +:+ snd (span is_digit t2))))
      with (fst (span is_alnum s) +:+
              ("-" +:+ String c2 (fst (span is_digit t2))) +:+ snd (span is_digit t2)).
    rewrite <- append_assoc. apply consumed_append. }
  rewrite Hc. reflexivity.
Qed.

Lemma span_stops (p : ascii -> bool) (a : string) (c : ascii) (t : string) :
  str_forall p a = true -> p c = false ->
  span p (a +:+ String c t) = (a, String c t).
Proof.
  intros Ha Hc. induction a as [|x a IH]; simpl.
  - now rewrite Hc.
  - simpl in Ha. apply andb_true_iff in Ha as [Hx Ha].
    rewrite Hx, (IH Ha). reflexivity.
Qed.

Lemma span_extends (p : ascii -> bool) (a rest : string) :
  str_forall p a = true ->
  exists x, fst (span p (a +:+ rest)) = a +:+ x.
Proof.
  intros Ha. induction a as [|c a IH]; simpl.
  - now exists (fst (span p rest)).
  - simpl in Ha. apply andb_true_iff in Ha as [Hc Ha].
    destruct (IH Ha) as [x Hx]. rewrite Hc. simpl. rewrite Hx. now exists x.
Qed.

Lemma hyphen_not_alnum : is_alnum "-" = false.
Proof. reflexivity. Qed.

Lemma issue_at_sound (s m rest : string) :
  issue_at s = Some (m, rest) -> s = m +:+ rest /\ is_issue_id m.
Proof.
  unfold issue_at. intros H.
  pose proof (span_append is_alnum s) as Hs.
  pose proof (span_forall is_alnum s) as Ha.
  destruct (snd (span is_alnum s)) as [|c s2]; [discriminate|].
  destruct (Ascii.eqb_spec c "-") as [->|]; [|discriminate].
  pose proof (span_append is_digit s2) as Hs2.
  pose proof (span_forall is_digit s2) as Hd.
  destruct (fst (span is_digit s2)) as [|c2 d] eqn:E; [discriminate|].
  injection H as <- <-. split.
  - rewrite <- Hs at 1. rewrite <- Hs2 at 1.
    rewrite append_assoc. reflexivity.
  - exists (fst (span is_alnum s)), (String c2 d). repeat split; auto; discriminate.
Qed.

(** An issue id at the start of [s] is found, as a prefix of the one that
    [issue_at] returns. *)
Lemma issue_at_complete (s m' rest' : string) :
  s = m' +:+ rest' -> is_issue_id m' ->
  exists m rest,
    issue_at s = Some (m, rest) /\ (String.length m' <= String.length m)%nat.
Proof.
  intros -> (a & d & -> & Ha & Hd & Hne).
  unfold issue_at.
  rewrite !append_assoc.
  change ("-" +:+ d +:+ rest') with (String "-" (d +:+ rest')).
  rewrite (span_stops is_alnum a "-" (d +:+ rest') Ha hyphen_not_alnum).
  simpl fst; simpl snd. cbv iota. rewrite Ascii.eqb_refl.
  destruct (span_extends is_digit d rest' Hd) as [x Hx]. rewrite Hx.
  destruct d as [|c d]; [congruence|]. simpl String.append.
  eexists _, _. split; [reflexivity|].
  rewrite !length_append. simpl. rewrite !length_append. lia.
Qed.

Lemma issue_at_none (s : string) :
  issue_at s = None -> forall m rest, s = m +:+ rest -> ~ is_issue_id m.
Proof.
  intros H m rest Hs Hm.
  destruct (issue_at_complete s m rest Hs Hm) as (x & y & E & _). congruence.
Qed.

(** [re.search] tries the positions from left to right. *)
Lemma search_from_None (ic : bool) (r : Re.regex) (s : string) (i : nat) :
  Re.search_from ic r i s = None <->
  forall pre s', s = pre +:+ s' ->
    Re.match_at ic r (i + String.length pre) s' = None.
Proof.
  revert i. induction s as [|c s IH]; intros i; simpl.
  - split.
    + intros H pre s' E. destruct pre; [|discriminate]. simpl in E. subst s'.
      simpl. rewrite Nat.add_0_r.
      destruct (Re.match_at ic r i "") eqn:E1; [discriminate | reflexivity].
    + intros H. specialize (H "" "" eq_refl). simpl in H.
      rewrite Nat.add_0_r in H. now rewrite H.
  - split.
    + intros H pre s' E.
      destruct (Re.match_at ic r i (String c s)) eqn:E1; [discriminate|].
      destruct pre as [|x pre]; simpl in E.
      * subst s'. simpl. now rewrite Nat.add_0_r.
      * injection E as -> ->. simpl.
        replace (i + S (String.length pre))%nat
          with (S i + String.length pre)%nat by lia.
        now apply (proj1 (IH (S i)) H).
    + intros H.
      pose proof (H "" (String c s) eq_refl) as H0. simpl in H0.
      rewrite Nat.add_0_r in H0. rewrite H0.
      apply IH. intros pre s' ->.
      specialize (H (String c pre) s' eq_refl). simpl in H.
      now replace (S i + String.length pre)%nat
        with (i + S (String.length pre))%nat by lia.
Qed.

Lemma search_from_Some (ic : bool) (r : Re.regex) (s : string) (i : nat)
    (m : Re.match_obj) :
  Re.search_from ic r i s = Some m ->
  exists pre s',
    s = pre +:+ s'
    /\ Re.match_at ic r (i + String.length pre) s' = Some m
    /\ forall pre2 s2, s = pre2 +:+ s2 ->
         (String.length pre2 < String.length pre)%nat ->
         Re.match_at ic r (i + String.length pre2) s2 = None.
Proof.
  revert i. induction s as [|c s IH]; intros i; simpl.
  - destruct (Re.match_at ic r i "") eqn:E; [|discriminate].
    intros [= ->]. exists "", "". simpl. rewrite Nat.add_0_r.
    repeat split; auto. intros; lia.
  - destruct (Re.match_at ic r i (String c s)) eqn:E.
    + intros [= ->]. exists "", (String c s). simpl. rewrite Nat.add_0_r.
      repeat split; auto. intros; lia.
    + intros H. destruct (IH (S i) H) as (pre & s' & -> & Hm & Hfirst).
      exists (String c pre), s'. simpl.
      replace (i + S (String.length pre))%nat
        with (S i + String.length pre)%nat by lia.
      repeat split; auto.
      intros pre2 s2 E2 Hlt. destruct pre2 as [|x pre2]; simpl in *.
      * subst s2. now rewrite Nat.add_0_r.
      * injection E2 as -> E2.
        replace (i + S (String.length pre2))%nat
          with (S i + String.length pre2)%nat by lia.
        apply Hfirst; [assumption | lia].
Qed.

Lemma append_length_inj (a b a' b' : string) :
  a +:+ b = a' +:+ b' -> String.length a = String.length a' ->
  a = a' /\ b = b'.
Proof.
  revert a'. induction a as [|c a IH]; intros [|c' a'] H L;
    simpl in *; try discriminate.
  - now split.
  - injection H as -> H. injection L as L.
    destruct (IH a' H L) as [-> ->]. now split.
Qed.

(** ** Issue ids *)

Lemma search_issue (ic : bool) (text : string) :
  match Re.search ic issue_pattern text with
  | Some mo =>
      first_issue_id text (Re.m_text mo)
      /\ Re.m_groups mo = [("issue_id", Re.m_text mo)]
  | None => no_issue_id text
  end.
Proof.
  unfold Re.search. destruct (Re.search_from ic issue_pattern 0 text) as [mo|] eqn:E.
  - apply search_from_Some in E as (pre & s' & -> & Hm & Hfirst).
    rewrite match_at_issue in Hm.
    destruct (issue_at s') as [[m rest]|] eqn:Ei; [|discriminate].
    injection Hm as <-. simpl. split; [|reflexivity].
    destruct (issue_at_sound s' m rest Ei) as [-> Hid].
    exists (String.length pre). split; [now exists pre, rest|]. split; [exact Hid|].
    intros n' m' (pre' & post' & Et & Ln) Hid'. split.
    + destruct (Nat.le_gt_cases (String.length pre) n') as [|Hlt]; [assumption|].
      exfalso. rewrite <- Ln in Hlt.
      specialize (Hfirst pre' (m' +:+ post') Et Hlt).
      rewrite match_at_issue in Hfirst.
      destruct (issue_at_complete (m' +:+ post') m' post' eq_refl Hid')
        as (x & y & Ex & _).
      rewrite Ex in Hfirst. discriminate.
    + intros ->.
      destruct (append_length_inj _ _ _ _ Et (eq_sym Ln)) as [_ Es].
      destruct (issue_at_complete (m +:+ rest) m' post' Es Hid')
        as (x & y & Ex & Hle).
      rewrite Ex in Ei. now injection Ei as -> _.
  - intros n m (pre & post & -> & _) Hid.
    pose proof (proj1 (search_from_None ic issue_pattern _ 0) E pre (m +:+ post) eq_refl)
      as Hn.
    rewrite match_at_issue in Hn.
    destruct (issue_at_complete (m +:+ post) m post eq_refl Hid) as (x & y & Ex & _).
    rewrite Ex in Hn. discriminate.
Qed.

Lemma first_issue_id_unique (text m1 m2 : string) :
  first_issue_id text m1 -> first_issue_id text m2 -> m1 = m2.
Proof.
  intros (n1 & O1 & I1 & F1) (n2 & O2 & I2 & F2).
  destruct (F1 n2 m2 O2 I2) as [L12 H12].
  destruct (F2 n1 m1 O1 I1) as [L21 H21].
  assert (n1 = n2) by lia. subst n2.
  specialize (H12 eq_refl). specialize (H21 eq_refl).
  destruct O1 as (p1 & q1 & E1 & Lp1). destruct O2 as (p2 & q2 & E2 & Lp2).
  rewrite E1 in E2.
  destruct (append_length_inj _ _ _ _ E2 (eq_trans Lp1 (eq_sym Lp2))) as [_ E].
  apply (append_length_inj _ _ _ _ E). lia.
Qed.

Lemma first_issue_id_is_some (text m : string) :
  first_issue_id text m -> ~ no_issue_id text.
Proof. intros (n & O & I & _) H. exact (H n m O I). Qed.

Lemma alnum_no_hyphen (a : string) :
  str_forall is_alnum a = true ->
  str_forall (fun c => negb (Ascii.eqb c "-")) a = true.
Proof.
  induction a as [|c a IH]; simpl; [reflexivity|]. intros H.
  apply andb_true_iff in H as [Hc Ha]. rewrite (IH Ha), andb_true_r.
  clear - Hc. by_cases_on_char c.
Qed.

Lemma project_part (m : string) :
  is_issue_id m ->
  exists p, index (split "-" m) 0 = Ok p /\ before_hyphen m p.
Proof.
  intros (a & d & -> & Ha & _ & _). exists a.
  change (a +:+ "-" +:+ d) with (a +:+ String "-" d).
  rewrite (split_append "-" a d (alnum_no_hyphen a Ha)). split; [reflexivity|].
  exists d. split; [reflexivity | now apply alnum_no_hyphen].
Qed.

Lemma issue_id_not_empty (m : string) : is_issue_id m -> m <> "".
Proof.
  intros (a & d & -> & _ & _ & _). destruct a; discriminate.
Qed.

#[local] Arguments split : simpl never.

Lemma group_issue_id (mo : Re.match_obj) :
  Re.m_groups mo = [("issue_id", Re.m_text mo)] ->
  Re.group mo "issue_id" = Ok (Re.m_text mo).
Proof. unfold Re.group. intros ->. reflexivity. Qed.

Lemma find_issue_id_cases (r : RowModule.TogglAPIRow) (text : string) :
  RowModule.data_get r "description" = PStr text ->
  (no_issue_id text /\ RowModule.find_issue_id r = Ok (PBool false))
  \/ (exists m, first_issue_id text m /\ RowModule.find_issue_id r = Ok (PStr m)).
Proof.
  intros Hd. unfold RowModule.find_issue_id, RowModule.issue_finder. rewrite Hd.
  pose proof (search_issue true text) as H.
  destruct (Re.search true issue_pattern text) as [mo|].
  - destruct H as [Hf Hg]. right. exists (Re.m_text mo). split; [exact Hf|].
    now rewrite (group_issue_id mo Hg).
  - left. now split.
Qed.

Lemma get_issue_id_from_tags_cases (text : string) :
  (no_issue_id text /\ Importer.get_issue_id_from_tags (Some text) = Ok None)
  \/ (exists m, first_issue_id text m
                /\ Importer.get_issue_id_from_tags (Some text) = Ok (Some m)).
Proof.
  unfold Importer.get_issue_id_from_tags.
  pose proof (search_issue false text) as H.
  destruct text as [|c t].
  - left. split; [|reflexivity].
    destruct (Re.search false issue_pattern "") eqn:E; [|exact H].
    vm_compute in E. discriminate.
  - simpl negb. cbv iota. simpl str_of_opt_str.
    destruct (Re.search false issue_pattern (String c t)) as [mo|].
    + destruct H as [Hf Hg]. right. exists (Re.m_text mo). split; [exact Hf|].
      now rewrite (group_issue_id mo Hg).
    + left. now split.
Qed.


(** ** The cached lookups *)

Section Lookups.
Import Importer.
Variable connection : youtrack.Connection.

Lemma issue_found (st : state) (i : youtrack.Issue) :
  _issue (self st) = Found i -> issue connection st = (Ok (Found i), st).
Proof.
  intros H. unfold issue, get_self. simpl. rewrite H. simpl.
  rewrite H. reflexivity.
Qed.

Lemma project_found (st : state) (p : youtrack.Project) :
  _project (self st) = Found p -> project connection st = (Ok (Found p), st).
Proof.
  intros H. unfold project, get_self. simpl. rewrite H. simpl.
  rewrite H. reflexivity.
Qed.

(** What an access of [issue] does when no issue is cached. *)
Lemma issue_lookup (st : state) (s i : option string) :
  isinstance (_issue (self st)) = false ->
  get_issue_string (self st) = Ok s ->
  get_issue_id_from_tags s = Ok i ->
  let st1 := snd (tracker (youtrack.get_issue_call (str_of_opt_str i))
                    (fun _ => Ok tt) st) in
  issue connection st
  = match youtrack.get_issue connection (calls (outside st)) (str_of_opt_str i) with
    | Ok (Some obj) => (Ok (Found obj), snd (set_issue (Found obj) st1))
    | Ok None | Raise YouTrackException =>
        (Ok NotFound, snd (set_issue NotFound st1))
    | Raise e => (Raise e, st1)
    end.
Proof.
  intros Hc Hs Hi. unfold issue, get_self, except_YouTrackException, lift, tracker.
  simpl. rewrite Hc. simpl. rewrite Hs. simpl. rewrite Hi. simpl.
  destruct (youtrack.get_issue connection (calls (outside st)) (str_of_opt_str i))
    as [[obj|]|[]]; reflexivity.
Qed.
End Lookups.

Lemma lookup_step_refl (st : Importer.state) : lookup_step st st.
Proof. repeat split; auto. exists []. now rewrite app_nil_r. Qed.

Lemma lookup_step_trans (a b c : Importer.state) :
  lookup_step a b -> lookup_step b c -> lookup_step a c.
Proof.
  intros (H1 & H2 & H3 & H4 & H5 & x & H6) (K1 & K2 & K3 & K4 & K5 & y & K6).
  repeat split; try congruence.
  exists (x ++ y). rewrite K6, H6. now rewrite app_assoc.
Qed.

Lemma get_issue_string_raises (r : Importer.row_obj) (e : exn) :
  Importer.get_issue_string r = Raise e -> e = TypeError.
Proof.
  unfold Importer.get_issue_string, concat.
  destruct (Importer.cls r); try discriminate.
  destruct (Importer.get_description r); simpl;
    [destruct (Importer.get_tags r); simpl|]; congruence.
Qed.

Lemma get_issue_id_from_tags_ok (s : option string) :
  exists i, Importer.get_issue_id_from_tags s = Ok i.
Proof.
  destruct s as [text|]; [|now exists None].
  destruct (get_issue_id_from_tags_cases text) as [[_ E]|(m & _ & E)]; eauto.
Qed.

Section LookupSteps.
Import Importer.
Variable connection : youtrack.Connection.

(** Every way through the property [issue]. *)
Ltac issue_cases st :=
  unfold issue, get_self, except_YouTrackException, lift, tracker, set_issue;
  simpl;
  destruct (isinstance (_issue (self st))) eqn:Hcached; simpl;
  [|destruct (get_issue_string (self st)) as [s|e] eqn:Hs; simpl;
    [destruct (get_issue_id_from_tags_ok s) as [i Hi]; rewrite Hi; simpl;
     destruct (youtrack.get_issue connection (calls (outside st))
                 (str_of_opt_str i)) as [[obj|]|[]] eqn:Hanswer; simpl
    |rewrite (get_issue_string_raises _ _ Hs)]].

Lemma issue_step (st st' : state) (r : res (cached youtrack.Issue)) :
  issue connection st = (r, st') -> lookup_step st st'.
Proof.
  issue_cases st; intros [= <- <-]; try apply lookup_step_refl;
    repeat split; simpl; eauto.
Qed.

Lemma issue_returns (st st' : state) (v : cached youtrack.Issue) :
  issue connection st = (Ok v, st') ->
  _issue (self st') = v /\ v <> Unset.
Proof.
  issue_cases st; intros [= <- <-]; simpl; try (split; [reflexivity|discriminate]).
  split; [reflexivity|]. destruct (_issue (self st)); discriminate.
Qed.

(** An access of [issue] that finds [False] cached asks the tracker
    again. *)
Lemma issue_asks_again (st st' : state) (v : cached youtrack.Issue) :
  _issue (self st) = NotFound ->
  issue connection st = (Ok v, st') ->
  exists i,
    calls (outside st') = calls (outside st) ++ [youtrack.get_issue_call i]
    /\ match youtrack.get_issue connection (calls (outside st)) i with
       | Ok (Some obj) => v = Found obj
       | _ => v = NotFound
       end.
Proof.
  intros Hn. issue_cases st; try (rewrite Hn in Hcached; discriminate);
    intros [= <- <-]; simpl; exists (str_of_opt_str i); rewrite Hanswer;
    split; reflexivity.
Qed.
End LookupSteps.

Section Projects.
Import Importer.
Variable connection : youtrack.Connection.

(** [get_issue_id] in terms of one access of [issue]. *)
Lemma get_issue_id_unfold (st : state) :
  get_issue_id connection st
  = match issue connection st with
    | (Ok (Found obj), st1) => (Ok (Some (youtrack.issue_id obj)), st1)
    | (Ok _, st1) =>
        (match get_issue_string (self st1) with
         | Ok s => get_issue_id_from_tags s
         | Raise e => Raise e
         end, st1)
    | (Raise e, st1) => (Raise e, st1)
    end.
Proof.
  unfold get_issue_id. simpl.
  destruct (issue connection st) as [[v|e] st1] eqn:E; [|reflexivity].
  destruct (issue_returns connection st st1 v E) as [Hv _].
  destruct v as [| |obj]; simpl.
  - unfold get_self, lift. simpl. now destruct (get_issue_string (self st1)).
  - unfold get_self, lift. simpl. now destruct (get_issue_string (self st1)).
  - now rewrite (issue_found connection st1 obj Hv).
Qed.

Lemma get_issue_id_step (st st' : state) (r : res (option string)) :
  get_issue_id connection st = (r, st') -> lookup_step st st'.
Proof.
  rewrite get_issue_id_unfold.
  destruct (issue connection st) as [[v|e] st1] eqn:E;
    apply issue_step in E; [destruct v|]; now intros [= <- <-].
Qed.

Lemma get_project_id_from_tags_step (st st' : state) (r : res (option string)) :
  get_project_id_from_tags connection st = (r, st') -> lookup_step st st'.
Proof.
  unfold get_project_id_from_tags. simpl.
  destruct (get_issue_id connection st) as [[i|e] st1] eqn:E;
    apply get_issue_id_step in E; [|now intros [= <- <-]].
  destruct (truthy i); unfold lift; simpl.
  - destruct (index (split "-" (str_of_opt_str i)) 0); now intros [= <- <-].
  - now intros [= <- <-].
Qed.

Lemma project_returns (st st' : state) (v : cached youtrack.Project) :
  project connection st = (Ok v, st') ->
  _project (self st') = v /\ v <> Unset.
Proof.
  unfold project, get_self, tracker, set_project. simpl.
  destruct (isinstance (_project (self st))) eqn:Hc; simpl.
  - intros [= <- <-]. split; [reflexivity|].
    destruct (_project (self st)); discriminate.
  - destruct (get_project_id_from_tags connection st) as [[p|e] st1]; simpl;
      [|discriminate].
    destruct (youtrack.getProject connection (calls (outside st1)) p)
      as [[obj|]|e]; simpl; try discriminate;
      intros [= <- <-]; simpl; split; (reflexivity || discriminate).
Qed.

(** An access of [project] that finds [False] cached asks the tracker
    again. *)
Lemma project_asks_again (st st' : state) (v : cached youtrack.Project) :
  _project (self st) = NotFound ->
  project connection st = (Ok v, st') ->
  exists earlier p,
    calls (outside st')
    = calls (outside st) ++ earlier ++ [youtrack.getProject_call p].
Proof.
  intros Hn. unfold project, get_self, tracker, set_project. simpl.
  rewrite Hn. simpl.
  destruct (get_project_id_from_tags connection st) as [[p|e] st1] eqn:E; simpl;
    [|discriminate].
  apply get_project_id_from_tags_step in E as (_ & _ & _ & _ & _ & x & Hx).
  destruct (youtrack.getProject connection (calls (outside st1)) p)
    as [[obj|]|e]; simpl; try discriminate;
    intros [= <- <-]; simpl; exists x, p; rewrite Hx; now rewrite app_assoc.
Qed.
End Projects.

(** C1, as the code has it: once a lookup has found an issue (a project),
    every later access of the property returns that object and calls the
    tracker no more, the state being left as it is; a lookup that found
    nothing is recorded as [False], and the next access of the property
    calls the tracker again. *)
Theorem found_lookup_is_not_repeated (connection : youtrack.Connection)
    (st : Importer.state) :
  (forall v st', Importer.issue connection st = (Ok v, st') ->
     Importer._issue (Importer.self st') = v /\ v <> Importer.Unset)
  /\ (forall i, Importer._issue (Importer.self st) = Importer.Found i ->
        Importer.issue connection st = (Ok (Importer.Found i), st))
  /\ (forall v st', Importer.project connection st = (Ok v, st') ->
        Importer._project (Importer.self st') = v /\ v <> Importer.Unset)
  /\ (forall p, Importer._project (Importer.self st) = Importer.Found p ->
        Importer.project connection st = (Ok (Importer.Found p), st))
  /\ (forall v st', Importer._issue (Importer.self st) = Importer.NotFound ->
        Importer.issue connection st = (Ok v, st') ->
        exists i,
          Importer.calls (Importer.outside st')
          = Importer.calls (Importer.outside st) ++ [youtrack.get_issue_call i])
  /\ (forall v st', Importer._project (Importer.self st) = Importer.NotFound ->
        Importer.project connection st = (Ok v, st') ->
        exists earlier p,
          Importer.calls (Importer.outside st')
          = Importer.calls (Importer.outside st) ++ earlier
            ++ [youtrack.getProject_call p]).
Proof.
  split; [intros v st'; apply issue_returns|].
  split; [intros i; apply issue_found|].
  split; [intros v st'; apply project_returns|].
  split; [intros p; apply project_found|].
  split.
  - intros v st' Hn H.
    destruct (issue_asks_again connection st st' v Hn H) as (i & Hi & _).
    now exists i.
  - intros v st' Hn H. now apply (project_asks_again connection st st' v).
Qed.

(** C1 as stated does not hold: with a tracker that knows no issue, the
    first access of [issue] records [False], and the second access calls
    the tracker a second time. *)
Lemma not_found_lookup_is_repeated :
  Importer._issue (Importer.self (after_accesses 1)) = Importer.NotFound
  /\ Importer.calls (Importer.outside (after_accesses 1))
     = [youtrack.get_issue_call "ABC-1"]
  /\ Importer.calls (Importer.outside (after_accesses 2))
     = [youtrack.get_issue_call "ABC-1"; youtrack.get_issue_call "ABC-1"]
  /\ ~ (Importer.calls (Importer.outside (after_accesses 2))
        = Importer.calls (Importer.outside (after_accesses 1))).
Proof.
  repeat split; try (vm_compute; reflexivity).
  intros H. vm_compute in H. discriminate H.
Qed.

(** ** Duplicates *)

Lemma py_eq_str (v : pyval) (s : string) : py_eq v (PStr s) = true <-> v = PStr s.
Proof.
  destruct v; simpl; try (split; discriminate).
  rewrite String.eqb_eq. split; congruence.
Qed.

Lemma py_eq_opt_str (v : pyval) (o : option string) :
  py_eq v (of_opt_str o) = true <-> v = of_opt_str o.
Proof.
  destruct o as [s|]; simpl; [apply py_eq_str|].
  destruct v; simpl; split; (reflexivity || discriminate).
Qed.

Lemma same_timeslip_fresh (r : Importer.row_obj) (w : youtrack.WorkItem) :
  Importer.same_timeslip r w = Importer.same_timeslip (fresh r) w.
Proof. destruct r. reflexivity. Qed.

Lemma any_same_timeslip_fresh (r : Importer.row_obj) (items : list youtrack.WorkItem) :
  Importer.any_same_timeslip r items = Importer.any_same_timeslip (fresh r) items.
Proof.
  induction items as [|w items IH]; simpl; [reflexivity|].
  now rewrite same_timeslip_fresh, IH.
Qed.

Lemma get_issue_string_fresh (r : Importer.row_obj) :
  Importer.get_issue_string r = Importer.get_issue_string (fresh r).
Proof. destruct r. reflexivity. Qed.

Lemma lookup_step_fresh (st st' : Importer.state) :
  lookup_step st st' -> fresh (Importer.self st') = fresh (Importer.self st).
Proof. intros (H1 & H2 & _). unfold fresh. now rewrite H1, H2. Qed.

Lemma same_timeslip_spec (r : Importer.row_obj) (w : youtrack.WorkItem)
    (minutes ms : option Z) :
  Importer.get_duration_as_minutes r = Ok minutes ->
  Importer.get_date_as_unix_time_milliseconds r = Ok ms ->
  exists b, Importer.same_timeslip r w = Ok b
            /\ (b = true <-> same_fields minutes ms (Importer.get_description r) w).
Proof.
  intros Hm Hd. unfold Importer.same_timeslip, same_fields. rewrite Hm. simpl.
  destruct (py_eq (youtrack.duration w) (PStr (str_opt minutes))) eqn:E1.
  - rewrite Hd. simpl.
    destruct (py_eq (youtrack.date w) (PStr (str_opt ms))) eqn:E2.
    + eexists; split; [reflexivity|].
      apply py_eq_str in E1, E2. rewrite py_eq_opt_str. tauto.
    + exists false; split; [reflexivity|]. split; [discriminate|].
      intros (_ & H & _). apply py_eq_str in H. congruence.
  - exists false; split; [reflexivity|]. split; [discriminate|].
    intros (H & _). apply py_eq_str in H. congruence.
Qed.

Lemma any_same_timeslip_spec (r : Importer.row_obj) (items : list youtrack.WorkItem)
    (minutes ms : option Z) :
  Importer.get_duration_as_minutes r = Ok minutes ->
  Importer.get_date_as_unix_time_milliseconds r = Ok ms ->
  exists b, Importer.any_same_timeslip r items = Ok b
            /\ (b = true <->
                exists w, In w items
                          /\ same_fields minutes ms (Importer.get_description r) w).
Proof.
  intros Hm Hd. induction items as [|w items (b & Hb & IH)]; simpl.
  - exists false; split; [reflexivity|]. split; [discriminate|].
    now intros (w & [] & _).
  - destruct (same_timeslip_spec r w minutes ms Hm Hd) as (b1 & H1 & Hs).
    rewrite H1. simpl. destruct b1.
    + exists true; split; [reflexivity|]. split; [|reflexivity].
      intros _. exists w. split; [now left | now apply Hs].
    + exists b; split; [exact Hb|]. rewrite IH. split.
      * intros (x & Hx & Hf). exists x. split; [now right | exact Hf].
      * intros (x & [<-|Hx] & Hf); [|now exists x].
        apply Hs in Hf. discriminate.
Qed.

Lemma get_timeslips_step (connection : youtrack.Connection)
    (st st' : Importer.state) (r : res (list youtrack.WorkItem)) :
  Importer.get_timeslips connection st = (r, st') -> lookup_step st st'.
Proof.
  unfold Importer.get_timeslips, Importer.tracker. simpl.
  destruct (Importer.get_issue_id connection st) as [[i|e] st1] eqn:E;
    apply get_issue_id_step in E; [|now intros [= <- <-]].
  intros [= <- <-]. apply (lookup_step_trans st st1); [exact E|].
  repeat split; simpl; eauto.
Qed.

Lemma any_same_timeslip_true (r : Importer.row_obj)
    (items : list youtrack.WorkItem) :
  Importer.any_same_timeslip r items = Ok true <->
  exists w minutes ms,
    In w items
    /\ Importer.get_duration_as_minutes r = Ok minutes
    /\ Importer.get_date_as_unix_time_milliseconds r = Ok ms
    /\ same_fields minutes ms (Importer.get_description r) w.
Proof.
  destruct (Importer.get_duration_as_minutes r) as [minutes|e] eqn:Hm.
  - destruct (Importer.get_date_as_unix_time_milliseconds r) as [ms|e] eqn:Hd.
    + destruct (any_same_timeslip_spec r items minutes ms Hm Hd) as (b & Hb & Hiff).
      rewrite Hb. split.
      * intros [= ->]. destruct (proj1 Hiff eq_refl) as (w & Hw & Hf).
        now exists w, minutes, ms.
      * intros (w & m1 & m2 & Hw & [= <-] & [= <-] & Hf).
        f_equal. apply Hiff. now exists w.
    + split; [|now intros (w & m1 & m2 & _ & _ & H & _)].
      intros H. exfalso. induction items as [|w items IH]; simpl in H;
        [discriminate|].
      unfold Importer.same_timeslip in H. rewrite Hm, Hd in H. simpl in H.
      destruct (py_eq (youtrack.duration w) (PStr (str_opt minutes)));
        [discriminate | auto].
  - split; [|now intros (w & m1 & m2 & _ & H & _)].
    intros H. destruct items as [|w items]; simpl in H; [discriminate|].
    unfold Importer.same_timeslip in H. rewrite Hm in H. discriminate.
Qed.

(** C6: when the tracker has returned the work items of the issue of the
    row, [timeslip_exists] returns [True] if and only if one of them has a
    duration, a date and a description equal to the minutes of the row as
    a string, its milliseconds as a string, and its description; and it
    does return whenever the minutes and the milliseconds of the row can
    be computed. *)
Theorem timeslip_exists_iff (connection : youtrack.Connection)
    (st st' : Importer.state) (items : list youtrack.WorkItem) :
  Importer.get_timeslips connection st = (Ok items, st') ->
  (fst (Importer.timeslip_exists connection st) = Ok true <->
   exists w minutes ms,
     In w items
     /\ Importer.get_duration_as_minutes (Importer.self st) = Ok minutes
     /\ Importer.get_date_as_unix_time_milliseconds (Importer.self st) = Ok ms
     /\ youtrack.duration w = PStr (str_opt minutes)
     /\ youtrack.date w = PStr (str_opt ms)
     /\ youtrack.description w
        = of_opt_str (Importer.get_description (Importer.self st)))
  /\ (forall minutes ms,
        Importer.get_duration_as_minutes (Importer.self st) = Ok minutes ->
        Importer.get_date_as_unix_time_milliseconds (Importer.self st) = Ok ms ->
        exists b, Importer.timeslip_exists connection st = (Ok b, st')).
Proof.
  intros Ht.
  pose proof (lookup_step_fresh st st' (get_timeslips_step connection st st' _ Ht))
    as Hf.
  assert (E : Importer.timeslip_exists connection st
              = (Importer.any_same_timeslip (Importer.self st) items, st')).
  { unfold Importer.timeslip_exists, Importer.get_self, Importer.lift. simpl.
    rewrite Ht. simpl.
    now rewrite any_same_timeslip_fresh, Hf, <- any_same_timeslip_fresh. }
  rewrite E. simpl. split.
  - apply any_same_timeslip_true.
  - intros minutes ms Hm Hd.
    destruct (any_same_timeslip_spec (Importer.self st) items minutes ms Hm Hd)
      as (b & Hb & _).
    exists b. now rewrite Hb.
Qed.

Lemma timeslip_exists_iff_witness :
  fst (Importer.timeslip_exists (abc_tracker [stored_example])
         (state_of csv_row_example [])) = Ok true.
Proof.
  apply (proj1 (timeslip_exists_iff (abc_tracker [stored_example])
           (state_of csv_row_example [])
           (snd (Importer.get_timeslips (abc_tracker [stored_example])
                   (state_of csv_row_example [])))
           [stored_example] ltac:(vm_compute; reflexivity))).
  exists stored_example, (Some 30), (Some 1577869200000).
  repeat split; try (vm_compute; reflexivity). now left.
Defined.

(** The example row is a duplicate of the work item stored for it, and is
    not one when the tracker has no work item. *)
Example duplicate_of_stored_item :
  fst (Importer.timeslip_exists (abc_tracker [stored_example])
         (state_of csv_row_example [])) = Ok true
  /\ fst (Importer.timeslip_exists (abc_tracker [])
            (state_of csv_row_example [])) = Ok false.
Proof. split; vm_compute; reflexivity. Qed.

Lemma run_Str {A} (p s : string) (g : Re.groups)
    (k : string -> Re.groups -> option A) :
  Re.run true (Re.Str p) s g k
  = match strip_prefix_ci p s with
    | Some rest => k rest g
    | None => None
    end.
Proof.
  revert s. induction p as [|c p IH]; intros s; simpl; [reflexivity|].
  destruct s as [|ch s]; [reflexivity|].
  rewrite set_lit_ci. destruct (Ascii.eqb (lower ch) (lower c)); [apply IH | reflexivity].
Qed.

#[local] Arguments Re.Str : simpl never.

Lemma strip_prefix_ci_append (p mid post : string) :
  str_lower mid = str_lower p -> strip_prefix_ci p (mid +:+ post) = Some post.
Proof.
  revert mid. induction p as [|c p IH]; intros [|ch mid]; simpl;
    try discriminate; [reflexivity|].
  intros [= Hc Hm]. rewrite Hc, Ascii.eqb_refl. now apply IH.
Qed.

Lemma strip_prefix_ci_inv (p s rest : string) :
  strip_prefix_ci p s = Some rest ->
  exists mid, s = mid +:+ rest /\ str_lower mid = str_lower p.
Proof.
  revert s. induction p as [|c p IH]; intros s; simpl.
  - intros [= ->]. now exists "".
  - destruct s as [|ch s]; [discriminate|].
    destruct (Ascii.eqb_spec (lower ch) (lower c)) as [E|]; [|discriminate].
    intros H. destruct (IH s H) as (mid & -> & Hm).
    exists (String ch mid). simpl. now rewrite E, Hm.
Qed.

(** [re.search("ignore", text, re.IGNORECASE)] finds a match exactly in
    the texts that contain the word in some letter case. *)
Lemma search_ignore_spec (text : string) :
  (exists mo, Re.search true (Re.Str "ignore") text = Some mo)
  <-> contains_ignore text.
Proof.
  unfold Re.search. split.
  - intros [mo H]. apply search_from_Some in H as (pre & s' & -> & Hm & _).
    unfold Re.match_at in Hm. rewrite run_Str in Hm.
    destruct (strip_prefix_ci "ignore" s') as [rest|] eqn:E; [|discriminate].
    apply strip_prefix_ci_inv in E as (mid & -> & Hl).
    now exists pre, mid, rest.
  - intros (pre & mid & post & -> & Hl).
    destruct (Re.search_from true (Re.Str "ignore") 0 (pre +:+ mid +:+ post))
      as [mo|] eqn:E; [now exists mo|].
    pose proof (proj1 (search_from_None _ _ _ _) E pre (mid +:+ post) eq_refl) as Hn.
    unfold Re.match_at in Hn. rewrite run_Str in Hn.
    rewrite (strip_prefix_ci_append "ignore" mid post Hl) in Hn. discriminate.
Qed.

(** [Row.is_ignored] of [__init__.py] is true exactly for the tags that
    contain the word in some letter case. *)
Lemma is_ignored_iff (r : Importer.row_obj) (tags : string) :
  Importer.get_tags r = Some tags ->
  exists b, Importer.is_ignored r = Ok b /\ (b = true <-> contains_ignore tags).
Proof.
  intros Ht. unfold Importer.is_ignored, Importer.search_ignore. rewrite Ht. simpl.
  pose proof (search_ignore_spec tags) as H.
  destruct (Re.search true (Re.Str "ignore") tags) as [mo|].
  - exists true. split; [reflexivity|]. split; [|reflexivity].
    intros _. apply H. now exists mo.
  - exists false. split; [reflexivity|]. split; [discriminate|].
    intros Hc. apply H in Hc as [mo Hmo]. discriminate.
Qed.

(** ** The loop of the main program *)

Lemma process_ignored_row (connection : youtrack.Connection)
    (row : gmap string string) (tags : string) (st : Importer.state) :
  row !! "Name" = Some tags -> contains_ignore tags ->
  Importer.process_row connection row st = (Ok false, ignored_at_once row st).
Proof.
  intros Hn Hc. apply search_ignore_spec in Hc as [mo Hmo].
  unfold Importer.process_row, Importer.set_self, Importer.get_self,
    Importer.lift, Importer.search_ignore, Importer.print. simpl.
  unfold Importer.get_tags, Importer.get_field. simpl. rewrite Hn. simpl.
  rewrite Hmo. reflexivity.
Qed.

(** C8: a row whose tags contain "ignore" in some letter case is not
    uploaded. The loop leaves it at once: the tracker receives no call for
    it, [createWorkItem] no more than another, not even to look for its
    issue; the row is not counted as added, one line is printed, and the
    loop goes on with the next row. *)
Theorem ignored_row_is_never_uploaded (connection : youtrack.Connection)
    (row : gmap string string) (tags : string) (st : Importer.state)
    (rest : list (gmap string string)) (count total : Z) :
  row !! "Name" = Some tags -> contains_ignore tags ->
  Importer.process_row connection row st = (Ok false, ignored_at_once row st)
  /\ Importer.calls (Importer.outside (snd (Importer.process_row connection row st)))
     = Importer.calls (Importer.outside st)
  /\ Importer.for_rows connection (row :: rest) count total st
     = Importer.for_rows connection rest count (total + 1) (ignored_at_once row st).
Proof.
  intros Hn Hc.
  pose proof (process_ignored_row connection row tags st Hn Hc) as H.
  split; [exact H|]. split; [now rewrite H|].
  simpl. now rewrite H.
Qed.

Lemma ignored_row_is_never_uploaded_witness :
  Importer.process_row (abc_tracker []) ignored_row_example
    (state_of csv_row_example [])
  = (Ok false, ignored_at_once ignored_row_example (state_of csv_row_example [])).
Proof.
  refine (proj1 (ignored_row_is_never_uploaded (abc_tracker [])
            ignored_row_example "ABC-123 lunch IGNORE"
            (state_of csv_row_example []) [] 0 0 _ _)).
  - vm_compute. reflexivity.
  - exists "ABC-123 lunch ", "IGNORE", "". split; reflexivity.
Defined.

(** A run over three rows: the tracker is called for the first and the
    third, and two rows are added out of three. *)
Example run_of_three_rows :
  fst run_example = Ok (2, 3)
  /\ Importer.calls (Importer.outside (snd run_example))
     = [youtrack.get_issue_call "ABC-123";
        youtrack.getWorkItems_call (Some "ABC-123");
        youtrack.createWorkItem_call "ABC-123"
          {| youtrack.description := PStr "sync";
             youtrack.date := PInt 1577869200000;
             youtrack.duration := PInt 30 |};
        youtrack.get_issue_call "ABC-123";
        youtrack.getWorkItems_call (Some "ABC-123");
        youtrack.createWorkItem_call "ABC-123"
          {| youtrack.description := PStr "review";
             youtrack.date := PInt 1577887200000;
             youtrack.duration := PInt 46 |}]
  /\ Importer.stdout (Importer.outside (snd run_example))
     = ["    uploaded timeslip"; "  Timeslip ignored"; "    uploaded timeslip"].
Proof. repeat split; vm_compute; reflexivity. Qed.

(** ** Issue ids without a project code *)

Lemma first_issue_id_of_search (ic : bool) (text : string) (mo : Re.match_obj) :
  Re.search ic issue_pattern text = Some mo -> first_issue_id text (Re.m_text mo).
Proof.
  intros E. pose proof (search_issue ic text) as H. rewrite E in H. apply H.
Qed.

Lemma split_leading_hyphen (rest : string) :
  index (split "-" (String "-" rest)) 0 = Ok "".
Proof. reflexivity. Qed.

Lemma find_issue_id_of_first (r : RowModule.TogglAPIRow) (text m : string) :
  RowModule.data_get r "description" = PStr text ->
  first_issue_id text m ->
  RowModule.find_issue_id r = Ok (PStr m).
Proof.
  intros Hd Hf.
  destruct (find_issue_id_cases r text Hd) as [[Hno _]|(m0 & Hf0 & E)].
  - exfalso. eapply first_issue_id_is_some; eassumption.
  - now rewrite (first_issue_id_unique text m m0 Hf Hf0).
Qed.

Lemma get_issue_id_from_tags_of_first (text m : string) :
  first_issue_id text m ->
  Importer.get_issue_id_from_tags (Some text) = Ok (Some m).
Proof.
  intros Hf.
  destruct (get_issue_id_from_tags_cases text) as [[Hno _]|(m0 & Hf0 & E)].
  - exfalso. eapply first_issue_id_is_some; eassumption.
  - now rewrite (first_issue_id_unique text m m0 Hf Hf0).
Qed.



(** * Further properties *)

(** ** Numerals *)

Lemma uint_string_digits (d : Decimal.uint) :
  str_forall is_digit (NilEmpty.string_of_uint d) = true.
Proof. induction d; simpl; auto. Qed.

Lemma uint_string_value_acc (d : Decimal.uint) (acc : positive) :
  dec_value_from (Z.pos acc) (NilEmpty.string_of_uint d)
  = Z.pos (Pos.of_uint_acc d acc).
Proof.
  revert acc. induction d; intros acc; simpl; [reflexivity| ..];
    match goal with
    | |- dec_value_from ?z _ = Z.pos (Pos.of_uint_acc _ ?p) =>
        replace z with (Z.pos p) by (unfold digit_val; simpl; lia)
    end; apply IHd.
Qed.

Lemma uint_string_value (d : Decimal.uint) :
  dec_value (NilEmpty.string_of_uint d) = Z.of_N (Pos.of_uint d).
Proof.
  unfold dec_value. induction d; simpl; try reflexivity; try exact IHd;
    match goal with
    | |- dec_value_from ?z _ = Z.pos (Pos.of_uint_acc _ ?p) =>
        change z with (Z.pos p)
    end; apply uint_string_value_acc.
Qed.

(** [str(n)] of a natural number is a numeral that denotes it. *)
Lemma py_str_number (n : Z) :
  0 <= n -> is_number (py_str n) /\ dec_value (py_str n) = n.
Proof.
  intros Hn. unfold py_str. destruct n as [|p|p]; [| |lia].
  - split; [split; [discriminate | reflexivity] | reflexivity].
  - simpl. pose proof (DecimalPos.Unsigned.to_uint_nonnil p) as Hnil.
    unfold NilZero.string_of_uint.
    destruct (Pos.to_uint p) as [|u|u|u|u|u|u|u|u|u|u] eqn:E; [congruence| ..];
      rewrite <- E; (split; [split; [rewrite E; discriminate
                                    | apply uint_string_digits]|]);
      rewrite uint_string_value, DecimalPos.Unsigned.of_to; reflexivity.
Qed.

Lemma py_int_py_str (n : Z) : 0 <= n -> py_int (py_str n) = Ok n.
Proof.
  intros Hn. destruct (py_str_number n Hn) as [H1 H2].
  now rewrite (py_int_number _ H1), H2.
Qed.

(** ** Durations: what the string says, and what goes wrong *)

Lemma split_duration_tail (h m s t : string) :
  is_number h -> is_number m -> is_number s ->
  split ":" (h +:+ ":" +:+ m +:+ ":" +:+ s +:+ ":" +:+ t)
  = h :: m :: s :: split ":" t.
Proof.
  intros [_ Hh] [_ Hm] [_ Hs].
  change (h +:+ ":" +:+ m +:+ ":" +:+ s +:+ ":" +:+ t)
    with (h +:+ String ":" (m +:+ String ":" (s +:+ String ":" t))).
  rewrite (split_append ":" h _ (number_no_colon h Hh)).
  rewrite (split_append ":" m _ (number_no_colon m Hm)).
  now rewrite (split_append ":" s _ (number_no_colon s Hs)).
Qed.

Lemma duration_split_nonempty (r : Importer.row_obj) (c : ascii) (t : string) :
  Importer.get_duration r = Some (String c t) ->
  Importer.get_duration_split r = Some (split ":" (String c t)).
Proof. intros H. unfold Importer.get_duration_split. now rewrite H. Qed.

Lemma number_cons (s : string) :
  is_number s -> exists c t, s = String c t.
Proof. intros [Hne _]. destruct s as [|c t]; [congruence | eauto]. Qed.

(** X1: a row without a duration (no field, or an empty one) has no
    minutes and no duration string, and its work item has the duration
    [None]. *)
Theorem no_duration_gives_none (r : Importer.row_obj) :
  Importer.get_duration r = None \/ Importer.get_duration r = Some "" ->
  Importer.get_duration_as_minutes r = Ok None
  /\ Importer.get_duration_as_string r = Ok None
  /\ forall w, Importer.create_timeslip r = Ok w -> youtrack.duration w = PNone.
Proof.
  intros H.
  assert (Hs : Importer.get_duration_split r = None).
  { unfold Importer.get_duration_split. now destruct H as [-> | ->]. }
  assert (Hm : Importer.get_duration_as_minutes r = Ok None).
  { unfold Importer.get_duration_as_minutes. now rewrite Hs. }
  split; [exact Hm|]. split.
  - unfold Importer.get_duration_as_string. now rewrite Hs.
  - intros w. unfold Importer.create_timeslip. rewrite Hm.
    destruct (Importer.get_date_as_unix_time_milliseconds r); simpl;
      [now intros [= <-] | discriminate].
Qed.

Lemma no_duration_gives_none_witness :
  Importer.get_duration_as_minutes
    (row_of Importer.ManicTimeRow [("Name", "ABC-1"); ("Duration", "")]) = Ok None.
Proof.
  refine (proj1 (no_duration_gives_none
    (row_of Importer.ManicTimeRow [("Name", "ABC-1"); ("Duration", "")]) _)).
  right. vm_compute. reflexivity.
Defined.

(** X2: a duration of one number, or of two numbers with a colon between,
    has no third component: both conversions raise [IndexError]. *)
Theorem short_duration_raises (r : Importer.row_obj) (a b : string) :
  is_number a -> is_number b ->
  Importer.get_duration r = Some a
  \/ Importer.get_duration r = Some (a +:+ ":" +:+ b) ->
  Importer.get_duration_as_minutes r = Raise IndexError
  /\ Importer.get_duration_as_string r = Raise IndexError.
Proof.
  intros Ha Hb H.
  destruct (number_cons a Ha) as (c & t & Ec).
  assert (Hs : Importer.get_duration_split r = Some [a]
               \/ Importer.get_duration_split r = Some [a; b]).
  { destruct H as [H|H]; [left|right].
    - rewrite Ec in H. rewrite (duration_split_nonempty r c t H), <- Ec.
      now rewrite (split_no_sep ":" a (number_no_colon a (proj2 Ha))).
    - assert (E : a +:+ ":" +:+ b = String c (t +:+ ":" +:+ b)) by now rewrite Ec.
      rewrite E in H. rewrite (duration_split_nonempty r c _ H), <- E.
      change (a +:+ ":" +:+ b) with (a +:+ String ":" b).
      rewrite (split_append ":" a b (number_no_colon a (proj2 Ha))).
      now rewrite (split_no_sep ":" b (number_no_colon b (proj2 Hb))). }
  unfold Importer.get_duration_as_minutes, Importer.get_duration_as_string.
  destruct Hs as [-> | ->]; unfold index; simpl;
    rewrite ?(py_int_number a Ha), ?(py_int_number b Hb); simpl; split; reflexivity.
Qed.

Lemma short_duration_raises_witness :
  Importer.get_duration_as_minutes
    (row_of Importer.TogglRow [("Duration", "45:10")]) = Raise IndexError.
Proof.
  refine (proj1 (short_duration_raises
    (row_of Importer.TogglRow [("Duration", "45:10")]) "45" "10" _ _ _)).
  - split; [discriminate | reflexivity].
  - split; [discriminate | reflexivity].
  - right. vm_compute. reflexivity.
Defined.

(** X3: only the first three components of a duration are read: whatever
    follows a third colon changes neither the minutes nor the string. *)
Theorem duration_ignores_fourth_component (r r' : Importer.row_obj)
    (h m s t : string) :
  is_number h -> is_number m -> is_number s ->
  Importer.get_duration r = Some (h +:+ ":" +:+ m +:+ ":" +:+ s +:+ ":" +:+ t) ->
  Importer.get_duration r' = Some (h +:+ ":" +:+ m +:+ ":" +:+ s) ->
  Importer.get_duration_as_minutes r = Importer.get_duration_as_minutes r'
  /\ Importer.get_duration_as_string r = Importer.get_duration_as_string r'.
Proof.
  intros Hh Hm Hs Hd Hd'.
  pose proof (duration_split_of r' h m s Hh Hm Hs Hd') as E'.
  assert (E : Importer.get_duration_split r = Some (h :: m :: s :: split ":" t)).
  { destruct (number_cons h Hh) as (c & u & Ec).
    assert (Ed : h +:+ ":" +:+ m +:+ ":" +:+ s +:+ ":" +:+ t
                 = String c (u +:+ ":" +:+ m +:+ ":" +:+ s +:+ ":" +:+ t))
      by now rewrite Ec.
    rewrite Ed in Hd. rewrite (duration_split_nonempty r c _ Hd), <- Ed.
    now rewrite split_duration_tail. }
  unfold Importer.get_duration_as_minutes, Importer.get_duration_as_string.
  rewrite E, E'. unfold index; simpl.
  rewrite (py_int_number h Hh), (py_int_number m Hm), (py_int_number s Hs). simpl.
  split; [reflexivity|].
  repeat first
    [ reflexivity
    | rewrite (py_int_number h Hh)
    | rewrite (py_int_number m Hm)
    | progress simpl
    | match goal with
      | |- context [py_int (py_str ?e)] => destruct (py_int (py_str e))
      | |- context [if ?b then _ else _] => destruct b
      end ].
Qed.

Lemma duration_ignores_fourth_component_witness :
  Importer.get_duration_as_minutes
    (row_of Importer.ManicTimeRow [("Duration", "1:02:03:04:xyz")])
  = Importer.get_duration_as_minutes
      (row_of Importer.ManicTimeRow [("Duration", "1:02:03")]).
Proof.
  refine (proj1 (duration_ignores_fourth_component
    (row_of Importer.ManicTimeRow [("Duration", "1:02:03:04:xyz")])
    (row_of Importer.ManicTimeRow [("Duration", "1:02:03")])
    "1" "02" "03" "04:xyz" _ _ _ _ _)).
  - split; [discriminate | reflexivity].
  - split; [discriminate | reflexivity].
  - split; [discriminate | reflexivity].
  - vm_compute. reflexivity.
  - vm_compute. reflexivity.
Defined.

Lemma dec_value_from_nonneg (s : string) (acc : Z) :
  str_forall is_digit s = true -> 0 <= acc -> 0 <= dec_value_from acc s.
Proof.
  revert acc. induction s as [|c s IH]; simpl; intros acc H Ha; [exact Ha|].
  apply andb_true_iff in H as [Hc Hs]. apply IH; [exact Hs|].
  pose proof (digit_val_range c Hc). lia.
Qed.

Lemma dec_value_nonneg (s : string) : is_number s -> 0 <= dec_value s.
Proof. intros [_ H]. apply dec_value_from_nonneg; [exact H | lia]. Qed.

(** The minutes of a duration of three numbers. *)
Lemma duration_minutes_seconds_cases (r : Importer.row_obj) (h m s : string) :
  is_number h -> is_number m -> is_number s ->
  Importer.get_duration r = Some (h +:+ ":" +:+ m +:+ ":" +:+ s) ->
  (dec_value s < 30 ->
   Importer.get_duration_as_minutes r
   = Ok (Some (dec_value h * 60 + dec_value m)))
  /\ (dec_value s >= 30 ->
      Importer.get_duration_as_minutes r
      = Ok (Some (dec_value h * 60 + dec_value m + 1))).
Proof.
  intros Hh Hm Hs Hd.
  unfold Importer.get_duration_as_minutes.
  rewrite (duration_split_of r h m s Hh Hm Hs Hd).
  unfold index; simpl.
  rewrite (py_int_number h Hh), (py_int_number m Hm), (py_int_number s Hs).
  split; intros Hlt.
  - destruct (Z.leb_spec 30 (dec_value s)); [lia | reflexivity].
  - destruct (Z.leb_spec 30 (dec_value s)); [reflexivity | lia].
Qed.

(** The three components of a duration, as the conversions read them. *)
Lemma duration_string_unfold (r : Importer.row_obj) (h m s : string) :
  is_number h -> is_number m -> is_number s ->
  Importer.get_duration r = Some (h +:+ ":" +:+ m +:+ ":" +:+ s) ->
  Importer.get_duration_as_string r
  = Ok (Some
      (if 30 <=? dec_value s then
         if 59 <? dec_value m + 1 then py_str (dec_value h + 1) +:+ "h"
         else if 0 <? dec_value h
              then h +:+ "h" +:+ py_str (dec_value m + 1) +:+ "m"
              else py_str (dec_value m + 1) +:+ "m"
       else
         if 59 <? dec_value m then py_str (dec_value h + 1) +:+ "h"
         else if 0 <? dec_value m
              then (if 0 <? dec_value h then h +:+ "h" +:+ m +:+ "m"
                    else m +:+ "m")
              else (if 0 <? dec_value h then h +:+ "h" else ""))).
Proof.
  intros Hh Hm Hs Hd.
  pose proof (dec_value_nonneg h Hh) as Ph.
  pose proof (dec_value_nonneg m Hm) as Pm.
  unfold Importer.get_duration_as_string.
  rewrite (duration_split_of r h m s Hh Hm Hs Hd).
  unfold index; simpl.
  rewrite (py_int_number s Hs). simpl.
  destruct (30 <=? dec_value s); simpl.
  - rewrite (py_int_number m Hm). simpl.
    rewrite (py_int_py_str (dec_value m + 1)) by lia. simpl.
    replace (0 <? dec_value m + 1) with true by (symmetry; apply Z.ltb_lt; lia).
    destruct (59 <? dec_value m + 1); simpl.
    + rewrite (py_int_number h Hh). simpl.
      rewrite (py_int_py_str (dec_value h + 1)) by lia. simpl.
      replace (0 <? dec_value h + 1) with true by (symmetry; apply Z.ltb_lt; lia).
      reflexivity.
    + rewrite (py_int_number h Hh). simpl. now destruct (0 <? dec_value h).
  - rewrite (py_int_number m Hm). simpl.
    destruct (Z.ltb_spec 0 (dec_value m)); simpl.
    + destruct (Z.ltb_spec 59 (dec_value m)); simpl.
      * rewrite (py_int_number h Hh). simpl.
        rewrite (py_int_py_str (dec_value h + 1)) by lia. simpl.
        replace (0 <? dec_value h + 1) with true by (symmetry; apply Z.ltb_lt; lia).
        reflexivity.
      * rewrite (py_int_number h Hh). simpl. now destruct (0 <? dec_value h).
    + replace (59 <? dec_value m) with false by (symmetry; apply Z.ltb_ge; lia).
      rewrite (py_int_number h Hh). simpl. now destruct (0 <? dec_value h).
Qed.



(** X5: when the minutes, rounded, pass 59, the duration string keeps
    none of them: it is the hours plus one followed by "h", whatever the
    minutes were; from 61 minutes on it says less than
    [get_duration_as_minutes] counts. *)
Theorem duration_string_drops_minutes (r : Importer.row_obj) (h m s : string) :
  is_number h -> is_number m -> is_number s ->
  Importer.get_duration r = Some (h +:+ ":" +:+ m +:+ ":" +:+ s) ->
  59 < dec_value m + (if 30 <=? dec_value s then 1 else 0) ->
  Importer.get_duration_as_string r = Ok (Some (py_str (dec_value h + 1) +:+ "h"))
  /\ (60 < dec_value m ->
      exists minutes,
        Importer.get_duration_as_minutes r = Ok (Some minutes)
        /\ (dec_value h + 1) * 60 < minutes).
Proof.
  intros Hh Hm Hs Hd Hover.
  destruct (duration_minutes_seconds_cases r h m s Hh Hm Hs Hd) as [Hlt Hge].
  rewrite (duration_string_unfold r h m s Hh Hm Hs Hd).
  destruct (Z.leb_spec 30 (dec_value s)) as [H30|H30].
  - replace (59 <? dec_value m + 1) with true by (symmetry; apply Z.ltb_lt; lia).
    split; [reflexivity|]. intros H60. rewrite Hge by lia.
    eexists; split; [reflexivity | lia].
  - replace (59 <? dec_value m) with true by (symmetry; apply Z.ltb_lt; lia).
    split; [reflexivity|]. intros H60. rewrite Hlt by lia.
    eexists; split; [reflexivity | lia].
Qed.

Lemma duration_string_drops_minutes_witness :
  Importer.get_duration_as_string
    (row_of Importer.ManicTimeRow [("Duration", "1:75:00")])
  = Ok (Some (py_str (dec_value "1" + 1) +:+ "h")).
Proof.
  refine (proj1 (duration_string_drops_minutes
    (row_of Importer.ManicTimeRow [("Duration", "1:75:00")]) "1" "75" "00"
    _ _ _ _ _)).
  - split; [discriminate | reflexivity].
  - split; [discriminate | reflexivity].
  - split; [discriminate | reflexivity].
  - vm_compute. reflexivity.
  - vm_compute. reflexivity.
Defined.

(** ** The issue string of a Toggl row *)

Lemma span_append_stop (p : ascii -> bool) (a : string) (c : ascii) (t : string) :
  p c = false ->
  span p (a +:+ String c t) = (fst (span p a), snd (span p a) +:+ String c t).
Proof.
  intros Hc. induction a as [|x a IH]; simpl.
  - now rewrite Hc.
  - destruct (p x); [now rewrite IH | reflexivity].
Qed.

(** A space ends every issue id: what follows it does not change the
    issue id at the start of a text. *)
Lemma issue_at_before_space (a t : string) :
  issue_at (a +:+ String " " t)
  = match issue_at a with
    | Some (m, rest) => Some (m, rest +:+ String " " t)
    | None => None
    end.
Proof.
  unfold issue_at.
  rewrite (span_append_stop is_alnum a " " t eq_refl). simpl fst; simpl snd.
  destruct (snd (span is_alnum a)) as [|c s2]; [reflexivity|].
  simpl String.append. cbv iota.
  destruct (Ascii.eqb c "-"); [|reflexivity].
  rewrite (span_append_stop is_digit s2 " " t eq_refl). simpl fst; simpl snd.
  now destruct (fst (span is_digit s2)).
Qed.

Lemma search_from_cons (ic : bool) (r : Re.regex) (i : nat) (c : ascii) (s : string) :
  Re.search_from ic r i (String c s)
  = match Re.match_at ic r i (String c s) with
    | Some m => Some m
    | None => Re.search_from ic r (S i) s
    end.
Proof. reflexivity. Qed.

Lemma search_from_nil (ic : bool) (r : Re.regex) (i : nat) :
  Re.search_from ic r i ""
  = match Re.match_at ic r i "" with
    | Some m => Some m
    | None => None
    end.
Proof. reflexivity. Qed.

Lemma issue_at_nil : issue_at "" = None.
Proof. reflexivity. Qed.

Lemma search_from_before_space (ic : bool) (d t : string) (i : nat) :
  option_map Re.m_text (Re.search_from ic issue_pattern i (d +:+ String " " t))
  = match Re.search_from ic issue_pattern i d with
    | Some mo => Some (Re.m_text mo)
    | None =>
        option_map Re.m_text
          (Re.search_from ic issue_pattern (S (i + String.length d)) t)
    end.
Proof.
  revert i. induction d as [|c d IH]; intros i.
  - change ("" +:+ String " " t) with (String " " t).
    rewrite search_from_cons, search_from_nil, !match_at_issue, issue_at_nil.
    change (String " " t) with ("" +:+ String " " t) at 1.
    rewrite issue_at_before_space, issue_at_nil.
    simpl String.length. now rewrite Nat.add_0_r.
  - change (String c d +:+ String " " t) with (String c (d +:+ String " " t)).
    rewrite !search_from_cons, !match_at_issue.
    change (String c (d +:+ String " " t)) with (String c d +:+ String " " t).
    rewrite issue_at_before_space.
    destruct (issue_at (String c d)) as [[m rest]|]; [reflexivity|].
    rewrite IH. simpl String.length.
    now replace (S (S i + String.length d)) with (S (i + S (String.length d))) by lia.
Qed.

Lemma search_from_text_start (ic : bool) (s : string) (i j : nat) :
  option_map Re.m_text (Re.search_from ic issue_pattern i s)
  = option_map Re.m_text (Re.search_from ic issue_pattern j s).
Proof.
  revert i j. induction s as [|c s IH]; intros i j.
  - now rewrite !search_from_nil, !match_at_issue, issue_at_nil.
  - rewrite !search_from_cons, !match_at_issue.
    destruct (issue_at (String c s)) as [[m rest]|]; [reflexivity | apply IH].
Qed.

Lemma get_issue_id_from_tags_search (s : string) (i : nat) :
  Importer.get_issue_id_from_tags (Some s)
  = Ok (option_map Re.m_text (Re.search_from false issue_pattern i s)).
Proof.
  rewrite (search_from_text_start false s i 0).
  unfold Importer.get_issue_id_from_tags.
  pose proof (search_issue false s) as H. unfold Re.search in *.
  destruct s as [|c s].
  - now rewrite search_from_nil, match_at_issue, issue_at_nil.
  - simpl negb. cbv iota. simpl str_of_opt_str.
    destruct (Re.search_from false issue_pattern 0 (String c s)) as [mo|];
      [|reflexivity].
    destruct H as [_ Hg]. now rewrite (group_issue_id mo Hg).
Qed.

(** X6: the issue string of a Toggl row is its description, a space and
    its tags, and the issue id found in it is the one of the description
    when the description has one, and otherwise the one of the tags. *)
Theorem toggl_issue_id_description_first (r : Importer.row_obj) (d t : string) :
  Importer.cls r = Importer.TogglRow ->
  Importer.get_description r = Some d ->
  Importer.get_tags r = Some t ->
  Importer.get_issue_string r = Ok (Some (d +:+ " " +:+ t))
  /\ Importer.get_issue_id_from_tags (Some (d +:+ " " +:+ t))
     = match Importer.get_issue_id_from_tags (Some d) with
       | Ok (Some m) => Ok (Some m)
       | _ => Importer.get_issue_id_from_tags (Some t)
       end.
Proof.
  intros Hc Hd Ht. split.
  - unfold Importer.get_issue_string. rewrite Hc, Hd, Ht. simpl.
    now rewrite append_assoc.
  - rewrite (get_issue_id_from_tags_search (d +:+ " " +:+ t) 0).
    rewrite (get_issue_id_from_tags_search d 0).
    rewrite (get_issue_id_from_tags_search t (S (0 + String.length d))).
    change (d +:+ " " +:+ t) with (d +:+ String " " t).
    rewrite search_from_before_space.
    now destruct (Re.search_from false issue_pattern 0 d).
Qed.

Lemma toggl_issue_id_description_first_witness :
  Importer.get_issue_id_from_tags (Some ("fix XY-7 now" +:+ " " +:+ "ABC-123"))
  = match Importer.get_issue_id_from_tags (Some "fix XY-7 now") with
    | Ok (Some m) => Ok (Some m)
    | _ => Importer.get_issue_id_from_tags (Some "ABC-123")
    end.
Proof.
  refine (proj2 (toggl_issue_id_description_first
    (row_of Importer.TogglRow [("Description", "fix XY-7 now"); ("Tags", "ABC-123")])
    "fix XY-7 now" "ABC-123" _ _ _)); vm_compute; reflexivity.
Defined.

(** ** The calls of [createWorkItem] *)

Lemma creates_app (a b : list youtrack.call) :
  creates (a ++ b) = (creates a + creates b)%nat.
Proof. unfold creates. now rewrite List.filter_app, length_app. Qed.

Lemma creates_nil : creates [] = 0%nat.
Proof. reflexivity. Qed.

Section Uploads.
Import Importer.

Lemma adds_nothing {A} (m : M A) (st : state) :
  calls (outside (snd (m st))) = calls (outside st) -> adds m st [].
Proof. unfold adds. intros ->. now rewrite app_nil_r. Qed.

Lemma uploads_bind {A B} (a b : nat) (m : M A) (k : A -> M B) :
  uploads_at_most a m -> (forall x, uploads_at_most b (k x)) ->
  uploads_at_most (a + b) (bind m k).
Proof.
  intros Hm Hk st. destruct (Hm st) as (e1 & H1 & L1). unfold adds in *. simpl.
  destruct (m st) as [[x|e] st1]; simpl in *.
  - destruct (Hk x st1) as (e2 & H2 & L2). unfold adds in H2.
    exists (e1 ++ e2). rewrite H2, H1, creates_app, app_assoc. split; [reflexivity | lia].
  - exists e1. split; [exact H1 | lia].
Qed.

Lemma quiet_bind {A B} (m : M A) (k : A -> M B) :
  quiet m -> (forall x, quiet (k x)) -> quiet (bind m k).
Proof. intros Hm Hk. exact (uploads_bind 0 0 m k Hm Hk). Qed.

Lemma quiet_ret {A} (a : A) : quiet (ret a : M A).
Proof. intros st. exists []. split; [now apply adds_nothing | auto]. Qed.

Lemma quiet_lift {A} (r : res A) : quiet (lift r).
Proof. intros st. exists []. split; [now apply adds_nothing | auto]. Qed.

Lemma quiet_get_self : quiet get_self.
Proof. intros st. exists []. split; [now apply adds_nothing | auto]. Qed.

Lemma quiet_set_self (r : row_obj) : quiet (set_self r).
Proof. intros st. exists []. split; [now apply adds_nothing | auto]. Qed.

Lemma quiet_set_issue (v : cached youtrack.Issue) : quiet (set_issue v).
Proof. intros st. exists []. split; [now apply adds_nothing | auto]. Qed.

Lemma quiet_set_project (v : cached youtrack.Project) : quiet (set_project v).
Proof. intros st. exists []. split; [now apply adds_nothing | auto]. Qed.

Lemma quiet_print (line : string) : quiet (print line).
Proof. intros st. exists []. split; [now apply adds_nothing | auto]. Qed.

Lemma quiet_input (prompt : string) : quiet (input prompt).
Proof.
  intros st. exists []. split; [|auto]. apply adds_nothing.
  unfold input. now destruct (stdin (outside st)).
Qed.

Lemma quiet_tracker {A} (c : youtrack.call) (answer : list youtrack.call -> res A) :
  is_create c = false -> quiet (tracker c answer).
Proof.
  intros Hc st. exists [c]. split; [reflexivity|].
  unfold creates. simpl. rewrite Hc. simpl. lia.
Qed.

Lemma quiet_except {A} (m handler : M A) :
  quiet m -> quiet handler -> quiet (except_YouTrackException m handler).
Proof.
  intros Hm Hh st. destruct (Hm st) as (e1 & H1 & L1).
  unfold adds, except_YouTrackException in *.
  destruct (m st) as [[x|e] st1]; simpl in *; [now exists e1|].
  destruct e; try (now exists e1).
  destruct (Hh st1) as (e2 & H2 & L2). unfold adds in H2.
  exists (e1 ++ e2). rewrite H2, H1, creates_app, app_assoc. split; [reflexivity | lia].
Qed.

Variable connection : youtrack.Connection.

Ltac quiet_step :=
  first
    [ apply quiet_ret | apply quiet_lift | apply quiet_get_self
    | apply quiet_set_self | apply quiet_set_issue | apply quiet_set_project
    | apply quiet_print | apply quiet_input
    | apply quiet_tracker; reflexivity
    | apply quiet_except
    | apply quiet_bind; [|intros ?]
    | match goal with
      | |- quiet (if ?b then _ else _) => destruct b
      | |- quiet (match ?x with _ => _ end) => destruct x
      end ].

Lemma quiet_issue : quiet (issue connection).
Proof. unfold issue. repeat quiet_step. Qed.

Lemma quiet_issue_exists : quiet (issue_exists connection).
Proof. unfold issue_exists. apply quiet_bind; [apply quiet_issue | intros; quiet_step]. Qed.

Lemma quiet_get_issue_id : quiet (get_issue_id connection).
Proof.
  unfold get_issue_id. apply quiet_bind; [apply quiet_issue | intros i].
  destruct (isinstance i).
  - apply quiet_bind; [apply quiet_issue | intros; repeat quiet_step].
  - repeat quiet_step.
Qed.

Lemma quiet_get_timeslips : quiet (get_timeslips connection).
Proof.
  unfold get_timeslips.
  apply quiet_bind; [apply quiet_get_issue_id | intros; repeat quiet_step].
Qed.

Lemma quiet_timeslip_exists : quiet (timeslip_exists connection).
Proof.
  unfold timeslip_exists.
  apply quiet_bind; [apply quiet_get_timeslips | intros; repeat quiet_step].
Qed.

Lemma quiet_no_issue_found : quiet (no_issue_found connection).
Proof.
  unfold no_issue_found.
  apply quiet_bind; [apply quiet_get_issue_id | intros a].
  destruct (negb (truthy a)); [apply quiet_ret|].
  apply quiet_bind; [apply quiet_get_issue_id | intros b].
  destruct (truthy b); [|apply quiet_ret].
  apply quiet_bind; [apply quiet_issue_exists | intros; apply quiet_ret].
Qed.

Lemma quiet_retry_done : quiet (retry_done connection).
Proof.
  unfold retry_done.
  apply quiet_bind; [apply quiet_get_issue_id | intros a].
  destruct (truthy a); [apply quiet_ret|].
  apply quiet_bind; [apply quiet_get_issue_id | intros b].
  destruct (truthy b); [|apply quiet_ret].
  apply quiet_bind; [apply quiet_issue_exists | intros; apply quiet_ret].
Qed.

Lemma quiet_retry (lines : list string) (response : string) :
  quiet (retry connection lines response).
Proof.
  revert response. induction lines as [|l lines IH]; intros response; simpl;
    (destruct (String.eqb response ""); [apply quiet_ret|]);
    (apply quiet_bind; [apply quiet_retry_done | intros done]);
    (destruct done; [apply quiet_ret|]);
    (apply quiet_bind; [apply quiet_input | intros r2]).
  - apply quiet_lift.
  - apply IH.
Qed.

Lemma save_uploads_at_most_once : uploads_at_most 1 (save connection).
Proof.
  unfold save.
  apply (uploads_bind 0 1); [apply quiet_get_self | intros r].
  apply (uploads_bind 0 1); [apply quiet_lift | intros w].
  apply (uploads_bind 0 1); [apply quiet_get_issue_id | intros i].
  destruct (truthy i).
  - intros st. eexists. split; [reflexivity|]. unfold creates. simpl. lia.
  - intros st. exists []. split; [now apply adds_nothing | rewrite creates_nil; lia].
Qed.
End Uploads.

Section Loop.
Import Importer.
Variable connection : youtrack.Connection.

Lemma quiet_uploads_unless_false (m : M bool) : quiet m -> uploads_unless_false m.
Proof.
  intros Hm st. destruct (Hm st) as (e & H & L). exists e.
  split; [exact H|]. split; lia.
Qed.

Lemma uploads_unless_false_bind {A} (m : M A) (k : A -> M bool) :
  quiet m -> (forall x, uploads_unless_false (k x)) ->
  uploads_unless_false (bind m k).
Proof.
  intros Hm Hk st. destruct (Hm st) as (e1 & H1 & L1). unfold adds in *. simpl.
  destruct (m st) as [[x|e] st1]; simpl in *.
  - destruct (Hk x st1) as (e2 & H2 & L2 & F2). unfold adds in H2.
    exists (e1 ++ e2). rewrite H2, H1, creates_app, app_assoc.
    split; [reflexivity|]. split; [lia|]. intros F. specialize (F2 F). lia.
  - exists e1. split; [exact H1|]. split; lia.
Qed.

Lemma quiet_retry_from_stdin (response : string) :
  quiet (fun st => retry connection (stdin (outside st)) response st).
Proof. intros st. exact (quiet_retry connection _ response st). Qed.

Lemma save_and_report_uploads_unless_false :
  uploads_unless_false
    (save connection ;; print "    uploaded timeslip" ;; ret true).
Proof.
  intros st.
  destruct (uploads_bind 1 0 (save connection)
              (fun _ => print "    uploaded timeslip" ;; ret true)
              (save_uploads_at_most_once connection)
              (fun _ => quiet_bind _ _ (quiet_print _) (fun _ => quiet_ret true)) st)
    as (e & H & L).
  exists e. split; [exact H|]. split; [lia|].
  simpl. destruct (save connection st) as [[v|x] st1]; simpl; discriminate.
Qed.

Lemma process_row_uploads_unless_false (row : gmap string string) :
  uploads_unless_false (process_row connection row).
Proof.
  unfold process_row.
  apply uploads_unless_false_bind; [apply quiet_set_self | intros _].
  apply uploads_unless_false_bind; [apply quiet_get_self | intros r].
  apply uploads_unless_false_bind; [apply quiet_lift | intros m].
  apply uploads_unless_false_bind.
  { destruct m; [apply quiet_ret|].
    apply quiet_bind; [apply quiet_no_issue_found | intros missing].
    destruct missing; [|apply quiet_ret].
    apply quiet_bind; [apply quiet_get_self | intros r1].
    apply quiet_bind; [apply quiet_lift | intros prompt].
    apply quiet_bind; [apply quiet_input | intros response].
    destruct (String.eqb (strip response) "n"); [apply quiet_ret|].
    apply quiet_bind; [apply quiet_get_self | intros r2].
    apply quiet_bind; [apply quiet_lift | intros t].
    apply quiet_bind; [apply quiet_input | intros response2].
    apply quiet_retry_from_stdin. }
  intros ignore. destruct ignore; simpl negb; cbv iota.
  - apply quiet_uploads_unless_false.
    apply quiet_bind; [apply quiet_print | intros; apply quiet_ret].
  - apply uploads_unless_false_bind; [apply quiet_timeslip_exists | intros e].
    destruct e; simpl negb; cbv iota.
    + apply quiet_uploads_unless_false.
      apply quiet_bind; [apply quiet_get_issue_id | intros i].
      apply quiet_bind; [apply quiet_lift | intros line].
      apply quiet_bind; [apply quiet_get_self | intros r3].
      apply quiet_bind; [apply quiet_lift | intros t].
      apply quiet_bind; [apply quiet_print | intros; apply quiet_ret].
    + apply save_and_report_uploads_unless_false.
Qed.
End Loop.

(** X7: the body of the loop calls [createWorkItem] at most once for a
    row, and not at all when it reports the row as not added: a row that
    is ignored, by its tags or at the prompt, or that is found on the
    tracker already, is never uploaded. *)
Theorem row_not_added_is_not_uploaded (connection : youtrack.Connection)
    (row : gmap string string) (st : Importer.state) :
  exists extra,
    Importer.calls (Importer.outside (snd (Importer.process_row connection row st)))
    = Importer.calls (Importer.outside st) ++ extra
    /\ (creates extra <= 1)%nat
    /\ (fst (Importer.process_row connection row st) = Ok false ->
        creates extra = 0%nat).
Proof. exact (process_row_uploads_unless_false connection row st). Qed.

(** X8: when the loop ends, every row has been counted in the total, the
    rows added are at most the rows seen, and [createWorkItem] has been
    called at most as many times as rows were added. *)
Theorem loop_counts (connection : youtrack.Connection)
    (rows : list (gmap string string)) (count total : Z) (st st' : Importer.state)
    (count' total' : Z) :
  Importer.for_rows connection rows count total st = (Ok (count', total'), st') ->
  total' = total + Z.of_nat (length rows)
  /\ count <= count' <= count + Z.of_nat (length rows)
  /\ exists extra,
       Importer.calls (Importer.outside st')
       = Importer.calls (Importer.outside st) ++ extra
       /\ Z.of_nat (creates extra) <= count' - count.
Proof.
  revert count total st. induction rows as [|row rows IH]; intros count total st.
  - simpl. intros [= <- <- <-]. split; [lia|]. split; [lia|].
    exists []. rewrite app_nil_r, creates_nil. split; [reflexivity | lia].
  - simpl.
    destruct (process_row_uploads_unless_false connection row st)
      as (e1 & H1 & L1 & F1). unfold adds in H1.
    destruct (Importer.process_row connection row st) as [[added|x] st1];
      simpl in *; [|discriminate].
    intros H. destruct (IH _ _ _ H) as (Ht & Hc & e2 & H2 & L2).
    split; [lia|]. split; [destruct added; lia|].
    exists (e1 ++ e2). rewrite H2, H1, creates_app, app_assoc.
    split; [reflexivity|].
    destruct added; [lia|]. specialize (F1 eq_refl). lia.
Qed.

Lemma loop_counts_witness :
  3 = 0 + Z.of_nat (length rows_example)
  /\ 0 <= 2 <= 0 + Z.of_nat (length rows_example)
  /\ exists extra,
       Importer.calls (Importer.outside (snd run_example))
       = Importer.calls (Importer.outside (state_of csv_row_example [])) ++ extra
       /\ Z.of_nat (creates extra) <= 2 - 0.
Proof.
  apply (loop_counts (abc_tracker []) rows_example 0 0
           (state_of csv_row_example []) (snd run_example) 2 3).
  vm_compute. reflexivity.
Defined.

(** ** Saving a row, and finding it again *)

(** X9: [save] builds the work item before it asks the tracker anything,
    so that a row whose duration or date cannot be converted raises
    without a call; otherwise it calls [createWorkItem] at most once, last,
    with a non-empty issue id and the work item of the row. *)
Theorem save_needs_an_issue_id (connection : youtrack.Connection)
    (st : Importer.state) :
  (forall e, Importer.create_timeslip (Importer.self st) = Raise e ->
     Importer.save connection st = (Raise e, st))
  /\ exists before,
       creates before = 0%nat
       /\ (adds (Importer.save connection) st before
           \/ exists issue_id w,
                issue_id <> ""
                /\ Importer.create_timeslip (Importer.self st) = Ok w
                /\ adds (Importer.save connection) st
                     (before ++ [youtrack.createWorkItem_call issue_id w])).
Proof.
  split.
  - intros e He. unfold Importer.save, Importer.get_self, Importer.lift. simpl.
    now rewrite He.
  - unfold adds, Importer.save, Importer.get_self, Importer.lift, Importer.tracker.
    simpl.
    destruct (Importer.create_timeslip (Importer.self st)) as [w|e]; simpl.
    2:{ exists []. split; [reflexivity|]. left. now rewrite app_nil_r. }
    destruct (quiet_get_issue_id connection st) as (pre & Hpre & Lpre).
    unfold adds in Hpre.
    destruct (Importer.get_issue_id connection st) as [[i|e] st1]; simpl in *.
    2:{ exists pre. split; [lia|]. now left. }
    exists pre. split; [lia|].
    destruct i as [[|c t]|]; simpl.
    + now left.
    + right. exists (String c t), w. split; [discriminate|]. split; [reflexivity|].
      now rewrite Hpre, app_assoc.
    + now left.
Qed.

Lemma timeslip_exists_unfold (connection : youtrack.Connection)
    (st st' : Importer.state) (items : list youtrack.WorkItem) :
  Importer.get_timeslips connection st = (Ok items, st') ->
  Importer.timeslip_exists connection st
  = (Importer.any_same_timeslip (Importer.self st) items, st').
Proof.
  intros Ht.
  pose proof (lookup_step_fresh st st' (get_timeslips_step connection st st' _ Ht))
    as Hf.
  unfold Importer.timeslip_exists, Importer.get_self, Importer.lift. simpl.
  rewrite Ht. simpl.
  now rewrite any_same_timeslip_fresh, Hf, <- any_same_timeslip_fresh.
Qed.

(** X10: a row finds its own work item again: when the work items that
    the tracker returns include the one that [create_timeslip] builds for
    the row, with its date and duration written as strings,
    [timeslip_exists] returns [True]. *)
Theorem saved_timeslip_exists (connection : youtrack.Connection)
    (st st' : Importer.state) (items : list youtrack.WorkItem)
    (w w' : youtrack.WorkItem) :
  Importer.create_timeslip (Importer.self st) = Ok w ->
  stored_as_strings w w' ->
  Importer.get_timeslips connection st = (Ok items, st') ->
  In w' items ->
  Importer.timeslip_exists connection st = (Ok true, st').
Proof.
  intros Hw (Hd & (ms & Hms & Hms') & (minutes & Hmin & Hmin')) Ht Hin.
  rewrite (timeslip_exists_unfold connection st st' items Ht). f_equal.
  apply any_same_timeslip_true.
  unfold Importer.create_timeslip in Hw.
  destruct (Importer.get_date_as_unix_time_milliseconds (Importer.self st))
    as [ms0|] eqn:E1; simpl in Hw; [|discriminate].
  destruct (Importer.get_duration_as_minutes (Importer.self st))
    as [min0|] eqn:E2; simpl in Hw; [|discriminate].
  injection Hw as <-. simpl in *.
  assert (ms = ms0) as ->.
  { destruct ms, ms0; simpl in Hms; congruence. }
  assert (minutes = min0) as ->.
  { destruct minutes, min0; simpl in Hmin; congruence. }
  exists w', min0, ms0. repeat split; auto.
Qed.

Lemma saved_timeslip_exists_witness :
  Importer.timeslip_exists (abc_tracker [stored_example])
    (state_of csv_row_example [])
  = (Ok true,
     snd (Importer.get_timeslips (abc_tracker [stored_example])
            (state_of csv_row_example []))).
Proof.
  apply (saved_timeslip_exists (abc_tracker [stored_example])
           (state_of csv_row_example []) _ [stored_example]
           {| youtrack.description := PStr "sync";
              youtrack.date := PInt 1577869200000;
              youtrack.duration := PInt 30 |}
           stored_example).
  - vm_compute. reflexivity.
  - split; [reflexivity|].
    split; [exists (Some 1577869200000) | exists (Some 30)];
      split; vm_compute; reflexivity.
  - vm_compute. reflexivity.
  - now left.
Defined.

(** X11: when the tracker has no work item for the issue, [timeslip_exists]
    returns [False] without converting anything, even for a row whose
    duration cannot be converted; with a work item to compare, the error
    of the conversion comes out. *)
Theorem timeslip_exists_without_items (connection : youtrack.Connection)
    (st st' : Importer.state) (items : list youtrack.WorkItem) :
  Importer.get_timeslips connection st = (Ok items, st') ->
  (items = [] -> Importer.timeslip_exists connection st = (Ok false, st'))
  /\ (forall e, items <> [] ->
        Importer.get_duration_as_minutes (Importer.self st) = Raise e ->
        Importer.timeslip_exists connection st = (Raise e, st')).
Proof.
  intros Ht. rewrite (timeslip_exists_unfold connection st st' items Ht). split.
  - now intros ->.
  - intros e Hne He. destruct items as [|w items]; [congruence|]. simpl.
    unfold Importer.same_timeslip. now rewrite He.
Qed.

Lemma timeslip_exists_without_items_witness :
  Importer.timeslip_exists (abc_tracker [])
    (state_of (row_of Importer.ManicTimeRow
                 [("Name", "ABC-123"); ("Duration", "soon")]) [])
  = (Ok false,
     snd (Importer.get_timeslips (abc_tracker [])
            (state_of (row_of Importer.ManicTimeRow
                         [("Name", "ABC-123"); ("Duration", "soon")]) []))).
Proof.
  apply (proj1 (timeslip_exists_without_items (abc_tracker [])
           (state_of (row_of Importer.ManicTimeRow
                        [("Name", "ABC-123"); ("Duration", "soon")]) [])
           _ [] ltac:(vm_compute; reflexivity))).
  reflexivity.
Defined.

(** ** Fields *)

Lemma M_bind_unfold {A B} (m : Importer.M A) (k : A -> Importer.M B)
    (st : Importer.state) :
  bind m k st
  = match m st with
    | (Ok a, st') => k a st'
    | (Raise e, st') => (Raise e, st')
    end.
Proof. reflexivity. Qed.

(** X12: [set_field] changes a field that the row has and adds none: on a
    key of the data it returns [True] and [get_field] then gives the new
    value, also when the field held [None], where [get_field] gave
    [None]; on a name that is no key it returns [False] and leaves the
    row as it is. The other fields are kept and the keys stay the same.
    [get_field] reads these data as [Importer.get_field] reads the fields
    that have a string. The cached issue is kept, so that a row whose tags
    are changed still answers with the issue it had found. *)
Theorem set_field_then_get_field (r : RowData.row) (k v : string) :
  (fst (RowData.set_field r k v) = true <-> is_Some (RowData.data r !! k))
  /\ (fst (RowData.set_field r k v) = true ->
      RowData.get_field (snd (RowData.set_field r k v)) k = Some v)
  /\ (fst (RowData.set_field r k v) = false ->
      snd (RowData.set_field r k v) = r /\ RowData.get_field r k = None)
  /\ (forall k', k' <> k ->
        RowData.data (snd (RowData.set_field r k v)) !! k' = RowData.data r !! k')
  /\ (forall k', is_Some (RowData.data (snd (RowData.set_field r k v)) !! k')
                 <-> is_Some (RowData.data r !! k'))
  /\ (RowData.data r !! k = Some None ->
      RowData.get_field r k = None
      /\ fst (RowData.set_field r k v) = true)
  /\ (forall k',
        Importer.get_field (RowData.view r) k' = RowData.get_field r k')
  /\ (forall connection w i,
        RowData._issue r = Importer.Found i ->
        Importer.issue connection
          {| Importer.self := RowData.view (snd (RowData.set_field r k v));
             Importer.outside := w |}
        = (Ok (Importer.Found i),
           {| Importer.self := RowData.view (snd (RowData.set_field r k v));
              Importer.outside := w |})).
Proof.
  assert (Hview : forall k',
            Importer.get_field (RowData.view r) k' = RowData.get_field r k').
  { intros k'.
    unfold Importer.get_field, RowData.get_field, RowData.view, RowData.strings_of.
    cbn [Importer.data]. rewrite lookup_omap.
    destruct (RowData.data r !! k') as [[x|]|]; reflexivity. }
  assert (Hcache : forall connection w i,
            RowData._issue r = Importer.Found i ->
            Importer.issue connection
              {| Importer.self := RowData.view (snd (RowData.set_field r k v));
                 Importer.outside := w |}
            = (Ok (Importer.Found i),
               {| Importer.self := RowData.view (snd (RowData.set_field r k v));
                  Importer.outside := w |})).
  { intros connection w i Hi. apply issue_found. cbn [Importer.self].
    unfold RowData.set_field. now destruct (RowData.data r !! k). }
  split; [|split; [|split; [|split; [|split; [|split; [|split;
    [exact Hview | exact Hcache]]]]]]];
    clear Hview Hcache; unfold RowData.set_field, RowData.get_field;
    destruct (RowData.data r !! k) as [old|] eqn:E; cbn [fst snd RowData.data].
  - split; [intros _; now exists old | reflexivity].
  - split; [discriminate | now intros [x Hx]].
  - intros _. now rewrite lookup_insert_eq.
  - discriminate.
  - discriminate.
  - intros _. split; reflexivity.
  - intros k' Hk. now apply lookup_insert_ne.
  - reflexivity.
  - intros k'. destruct (decide (k = k')) as [<-|Hne].
    + rewrite lookup_insert_eq, E. split; intros _; eauto.
    + now rewrite lookup_insert_ne.
  - reflexivity.
  - intros [= ->]. split; reflexivity.
  - discriminate.
Qed.

(** ** Lookups without an issue id *)

(** X13: a row whose issue string is missing, or holds no issue id, still
    asks the tracker when its issue is looked up: for the issue named
    "None". *)
Theorem lookup_without_id_asks_for_None (connection : youtrack.Connection)
    (st : Importer.state) (s : option string) :
  Importer.isinstance (Importer._issue (Importer.self st)) = false ->
  Importer.get_issue_string (Importer.self st) = Ok s ->
  (s = None \/ exists text, s = Some text /\ no_issue_id text) ->
  Importer.calls (Importer.outside (snd (Importer.issue connection st)))
  = Importer.calls (Importer.outside st) ++ [youtrack.get_issue_call "None"].
Proof.
  intros Hc Hs Hno.
  assert (Hi : Importer.get_issue_id_from_tags s = Ok None).
  { destruct Hno as [->|(text & -> & Hno)]; [reflexivity|].
    destruct (get_issue_id_from_tags_cases text) as [[_ E]|(m & Hf & _)];
      [exact E|].
    exfalso. eapply first_issue_id_is_some; eassumption. }
  rewrite (issue_lookup connection st s None Hc Hs Hi). simpl str_of_opt_str.
  cbv zeta.
  destruct (youtrack.get_issue connection (Importer.calls (Importer.outside st))
              "None") as [[obj|]|[]]; reflexivity.
Qed.

Lemma lookup_without_id_asks_for_None_witness :
  Importer.calls (Importer.outside (snd (Importer.issue empty_tracker
    (state_of (row_of Importer.ManicTimeRow [("Name", "no id here")]) []))))
  = Importer.calls (Importer.outside
      (state_of (row_of Importer.ManicTimeRow [("Name", "no id here")]) []))
    ++ [youtrack.get_issue_call "None"].
Proof.
  apply (lookup_without_id_asks_for_None empty_tracker
           (state_of (row_of Importer.ManicTimeRow [("Name", "no id here")]) [])
           (Some "no id here")).
  - reflexivity.
  - vm_compute. reflexivity.
  - right. exists "no id here". split; [reflexivity|].
    pose proof (search_issue false "no id here") as H.
    destruct (Re.search false issue_pattern "no id here") eqn:E;
      [vm_compute in E; discriminate E | exact H].
Defined.

(** X14: when the tracker answers the lookup with an issue, [get_issue_id]
    returns the id of that issue, the one the tracker gives, after one
    call; from then on [get_issue_id] and [issue_exists] answer from the
    cache and leave the state as it is. *)
Theorem found_issue_gives_its_id (connection : youtrack.Connection)
    (st : Importer.state) (s i : option string) (obj : youtrack.Issue) :
  Importer.isinstance (Importer._issue (Importer.self st)) = false ->
  Importer.get_issue_string (Importer.self st) = Ok s ->
  Importer.get_issue_id_from_tags s = Ok i ->
  youtrack.get_issue connection (Importer.calls (Importer.outside st))
    (str_of_opt_str i) = Ok (Some obj) ->
  exists st1,
    Importer.get_issue_id connection st = (Ok (Some (youtrack.issue_id obj)), st1)
    /\ Importer.calls (Importer.outside st1)
       = Importer.calls (Importer.outside st)
         ++ [youtrack.get_issue_call (str_of_opt_str i)]
    /\ Importer.get_issue_id connection st1
       = (Ok (Some (youtrack.issue_id obj)), st1)
    /\ Importer.issue_exists connection st1 = (Ok true, st1).
Proof.
  intros Hc Hs Hi Ha.
  pose proof (issue_lookup connection st s i Hc Hs Hi) as Hl. cbv zeta in Hl.
  rewrite Ha in Hl.
  eexists. split; [rewrite get_issue_id_unfold, Hl; reflexivity|].
  split; [reflexivity|].
  split.
  - rewrite get_issue_id_unfold.
    now rewrite (issue_found connection _ obj) by reflexivity.
  - unfold Importer.issue_exists. rewrite M_bind_unfold.
    now rewrite (issue_found connection _ obj) by reflexivity.
Qed.

Lemma found_issue_gives_its_id_witness :
  exists st1,
    Importer.get_issue_id (abc_tracker []) (state_of csv_row_example [])
    = (Ok (Some "ABC-123"), st1)
    /\ Importer.calls (Importer.outside st1)
       = [] ++ [youtrack.get_issue_call "ABC-123"]
    /\ Importer.get_issue_id (abc_tracker []) st1 = (Ok (Some "ABC-123"), st1)
    /\ Importer.issue_exists (abc_tracker []) st1 = (Ok true, st1).
Proof.
  apply (found_issue_gives_its_id (abc_tracker []) (state_of csv_row_example [])
           (Some "ABC-123 meeting") (Some "ABC-123")
           {| youtrack.issue_id := "ABC-123" |});
    vm_compute; reflexivity.
Defined.

(** ** The prompt *)

(** X15: the loop that asks again for an issue id does not read what is
    typed: a blank answer ignores the row at once, and any two answers
    that are not blank lead to the same result and the same state. *)
Theorem retry_ignores_the_answer (connection : youtrack.Connection)
    (lines : list string) (response response' : string) (st : Importer.state) :
  response <> "" -> response' <> "" ->
  Importer.retry connection lines response st
  = Importer.retry connection lines response' st
  /\ Importer.retry connection lines "" st = (Ok true, st).
Proof.
  intros H1 H2. apply String.eqb_neq in H1, H2.
  destruct lines; simpl; rewrite H1, H2; split; reflexivity.
Qed.

Lemma retry_ignores_the_answer_witness :
  Importer.retry empty_tracker [] "XYZ-9" (state_of csv_row_example [])
  = Importer.retry empty_tracker [] "no thanks" (state_of csv_row_example [])
  /\ Importer.retry empty_tracker [] "" (state_of csv_row_example [])
     = (Ok true, state_of csv_row_example []).
Proof.
  apply (retry_ignores_the_answer empty_tracker [] "XYZ-9" "no thanks"
           (state_of csv_row_example [])); discriminate.
Defined.

(** ** Rows of the Toggl API *)

(** X16: [save_work_item] raises [YoutrackIssueNotFoundException], and
    calls nothing, when the description has no issue id. With an issue id
    and a connection it calls [createWorkItem] once, for the first issue
    id of the description. Without a connection, or when the call raises
    [AttributeError], the handler fails on its own test and the error that
    comes out is [TypeError]. *)
Theorem save_work_item_outcomes (r : RowModule.TogglAPIRow) (text : string)
    (history : list youtrack.call) (w : youtrack.WorkItem) :
  RowModule.data_get r "description" = PStr text ->
  (no_issue_id text ->
   RowModule.save_work_item r history w
   = (Raise YoutrackIssueNotFoundException, history))
  /\ (forall m, first_issue_id text m ->
        (RowModule.connection r = None ->
         RowModule.save_work_item r history w = (Raise TypeError, history))
        /\ (forall c, RowModule.connection r = Some c ->
              snd (RowModule.save_work_item r history w)
              = history ++ [youtrack.createWorkItem_call m w]
              /\ (forall v, youtrack.createWorkItem c history m w = Ok v ->
                    fst (RowModule.save_work_item r history w) = Ok tt)
              /\ (youtrack.createWorkItem c history m w = Raise AttributeError ->
                  fst (RowModule.save_work_item r history w) = Raise TypeError))).
Proof.
  intros Hd. split.
  - intros Hno. unfold RowModule.save_work_item.
    destruct (find_issue_id_cases r text Hd) as [[_ E]|(m & Hf & _)].
    + now rewrite E.
    + exfalso. eapply first_issue_id_is_some; eassumption.
  - intros m Hf. unfold RowModule.save_work_item.
    rewrite (find_issue_id_of_first r text m Hd Hf).
    destruct Hf as (n & _ & Hid & _).
    pose proof (issue_id_not_empty m Hid) as Hne.
    destruct m as [|c0 m0]; [congruence|]. simpl RowModule.falsy. cbv iota.
    split.
    + now intros ->.
    + intros c ->. split; [reflexivity|]. split.
      * now intros v ->.
      * now intros ->.
Qed.

Lemma save_work_item_outcomes_witness :
  RowModule.save_work_item api_row_example [] stored_example
  = (Raise TypeError, []).
Proof.
  refine (proj1 (proj2 (save_work_item_outcomes api_row_example "ABC-123 sync"
            [] stored_example eq_refl) "ABC-123" _) eq_refl).
  destruct (Re.search true issue_pattern "ABC-123 sync") as [mo|] eqn:E;
    [|vm_compute in E; discriminate E].
  pose proof (first_issue_id_of_search true "ABC-123 sync" mo E) as H.
  vm_compute in E. injection E as <-. exact H.
Defined.

Lemma no_plus_split (s : string) :
  str_forall (fun c => negb (Ascii.eqb c "+")) s = true -> split "+" s = [s].
Proof. apply split_no_sep. Qed.

(** X17: [start_datetime] reads the start up to its first "+": the offset
    that follows is dropped, and two starts that differ in their offset
    only give the same date and time. *)
Theorem start_datetime_drops_offset (r r' : RowModule.TogglAPIRow)
    (s offset : string) :
  str_forall (fun c => negb (Ascii.eqb c "+")) s = true ->
  RowModule.data_get r "start" = PStr (s +:+ "+" +:+ offset) ->
  RowModule.data_get r' "start" = PStr s ->
  RowModule.start_datetime r = RowModule.start_datetime r'
  /\ RowModule.start_datetime r = Datetime.strptime s RowModule.datetime_format.
Proof.
  intros Hs Hr Hr'. unfold RowModule.start_datetime. rewrite Hr, Hr'.
  change (s +:+ "+" +:+ offset) with (s +:+ String "+" offset).
  rewrite (split_append "+" s offset Hs), (split_no_sep "+" s Hs).
  split; reflexivity.
Qed.

Lemma start_datetime_drops_offset_witness :
  RowModule.start_datetime
    (api_row_of [("start", PStr ("2020-01-01T09:00:00" +:+ "+" +:+ "05:30"))])
  = RowModule.start_datetime (api_row_of [("start", PStr "2020-01-01T09:00:00")]).
Proof.
  refine (proj1 (start_datetime_drops_offset
    (api_row_of [("start", PStr ("2020-01-01T09:00:00" +:+ "+" +:+ "05:30"))])
    (api_row_of [("start", PStr "2020-01-01T09:00:00")])
    "2020-01-01T09:00:00" "05:30" _ _ _)); vm_compute; reflexivity.
Defined.

Lemma is_prefix_spec (p s : string) :
  is_prefix p s = true <-> exists post, s = p +:+ post.
Proof.
  revert s. induction p as [|a p IH]; intros s; simpl.
  - split; [intros _; now exists s | reflexivity].
  - destruct s as [|b s].
    + split; [discriminate | now intros [post H]].
    + rewrite andb_true_iff, Ascii.eqb_eq, IH. split.
      * intros [-> [post ->]]. now exists post.
      * intros [post [= -> ->]]. split; [reflexivity | now exists post].
Qed.

Lemma str_contains_spec (p s : string) :
  str_contains p s = true <-> exists pre post, s = pre +:+ p +:+ post.
Proof.
  induction s as [|c s IH]; simpl.
  - rewrite orb_false_r, is_prefix_spec. split.
    + intros [post H]. now exists "", post.
    + intros (pre & post & H). destruct pre; [now exists post | discriminate].
  - rewrite orb_true_iff, is_prefix_spec, IH. split.
    + intros [[post H]|(pre & post & ->)].
      * now exists "", post.
      * now exists (String c pre), post.
    + intros (pre & post & H). destruct pre as [|x pre]; simpl in H.
      * left. now exists post.
      * right. injection H as -> ->. now exists pre, post.
Qed.

(** X18: [TogglAPIRow.is_ignored] on tags that are one string is true
    exactly when the string contains "ignore" in lower case; on a list of
    tags, exactly when one tag is the string "ignore"; a row without tags
    raises [TypeError]. *)
Theorem api_is_ignored_spec (r : RowModule.TogglAPIRow) :
  (forall s, RowModule.data_get r "tags" = PStr s ->
     exists b, RowModule.is_ignored r = Ok b
               /\ (b = true <-> exists pre post, s = pre +:+ "ignore" +:+ post))
  /\ (forall items, RowModule.data_get r "tags" = PList items ->
        exists b, RowModule.is_ignored r = Ok b
                  /\ (b = true <-> In (PStr "ignore") items))
  /\ (RowModule.data_get r "tags" = PNone ->
      RowModule.is_ignored r = Raise TypeError).
Proof.
  unfold RowModule.is_ignored. split; [|split].
  - intros s ->. eexists. split; [reflexivity | apply str_contains_spec].
  - intros items ->. eexists. split; [reflexivity|].
    rewrite existsb_exists. split.
    + intros (v & Hin & Hv). apply py_eq_str in Hv. now subst v.
    + intros Hin. exists (PStr "ignore"). split; [exact Hin | now apply py_eq_str].
  - now intros ->.
Qed.

(** ** Rows of the exports *)

(** X19: [Row.is_ignored] is true exactly when the tags contain "ignore"
    in some letter case, and raises [TypeError] for a row without
    tags. *)
Theorem row_is_ignored_spec (r : Importer.row_obj) :
  (forall tags, Importer.get_tags r = Some tags ->
     exists b, Importer.is_ignored r = Ok b /\ (b = true <-> contains_ignore tags))
  /\ (Importer.get_tags r = None -> Importer.is_ignored r = Raise TypeError).
Proof.
  split.
  - intros tags. apply is_ignored_iff.
  - intros H. unfold Importer.is_ignored, Importer.search_ignore. now rewrite H.
Qed.

(** X20: the milliseconds of a row are never 0: when there are some, they
    are a thousand times the seconds since the epoch, and those are not
    zero. *)
Theorem milliseconds_are_not_zero (r : Importer.row_obj) (ms : Z) :
  Importer.get_date_as_unix_time_milliseconds r = Ok (Some ms) ->
  ms <> 0 /\ ms mod 1000 = 0
  /\ Importer.get_date_as_unix_time r = Ok (Some (ms / 1000)).
Proof.
  unfold Importer.get_date_as_unix_time_milliseconds.
  destruct (Importer.get_date_as_unix_time r) as [[sec|]|e]; simpl;
    try discriminate.
  destruct (Z.eqb_spec sec 0); [discriminate|]. intros [= <-].
  split; [lia|]. split; [apply Z_mod_mult|].
  now rewrite Z.div_mul by lia.
Qed.

Lemma milliseconds_are_not_zero_witness :
  1577869200000 <> 0 /\ 1577869200000 mod 1000 = 0
  /\ Importer.get_date_as_unix_time csv_row_example
     = Ok (Some (1577869200000 / 1000)).
Proof.
  apply (milliseconds_are_not_zero csv_row_example 1577869200000).
  vm_compute. reflexivity.
Defined.

(** X21: a row of [Row] or [ManicTimeRow] without a start has no date: the
    milliseconds are [None], and the summary of the row, which joins the
    date to the duration and the description, raises [TypeError]. A row
    of [TogglRow] without a start date or a start time raises [TypeError]
    as soon as its start is read. *)
Theorem row_without_start (r : Importer.row_obj) :
  (Importer.cls r <> Importer.TogglRow ->
   Importer.get_field r "Start" = None \/ Importer.get_field r "Start" = Some "" ->
   Importer.get_date_as_unix_time_milliseconds r = Ok None
   /\ (forall d, Importer.get_duration_as_string r = Ok d ->
         Importer.timeslip_string r = Raise TypeError))
  /\ (Importer.cls r = Importer.TogglRow ->
      Importer.get_field r "Start date" = None
      \/ Importer.get_field r "Start time" = None ->
      Importer.get_date_object r = Raise TypeError
      /\ Importer.create_timeslip r = Raise TypeError
      /\ Importer.timeslip_string r = Raise TypeError).
Proof.
  split.
  - intros Hc Hs.
    assert (Hstart : Importer.get_start r = Ok None
                     \/ Importer.get_start r = Ok (Some "")).
    { unfold Importer.get_start.
      destruct (Importer.cls r); try congruence; destruct Hs as [-> | ->]; auto. }
    assert (Hobj : Importer.get_date_object r = Ok None).
    { unfold Importer.get_date_object. now destruct Hstart as [-> | ->]. }
    split.
    + unfold Importer.get_date_as_unix_time_milliseconds,
        Importer.get_date_as_unix_time. now rewrite Hobj.
    + intros d Hd. unfold Importer.timeslip_string, Importer.get_date_string.
      rewrite Hobj. simpl. rewrite Hd. reflexivity.
  - intros Hc Hs.
    assert (Hstart : Importer.get_start r = Raise TypeError).
    { unfold Importer.get_start. rewrite Hc.
      destruct Hs as [-> | ->]; simpl; [reflexivity|].
      now destruct (Importer.get_field r "Start date"). }
    assert (Hobj : Importer.get_date_object r = Raise TypeError).
    { unfold Importer.get_date_object. now rewrite Hstart. }
    split; [exact Hobj|]. split.
    + unfold Importer.create_timeslip, Importer.get_date_as_unix_time_milliseconds,
        Importer.get_date_as_unix_time. now rewrite Hobj.
    + unfold Importer.timeslip_string, Importer.get_date_string. now rewrite Hobj.
Qed.

(** ** The project of a row *)

Lemma get_issue_id_unknown_issue (connection : youtrack.Connection)
    (st : Importer.state) (text m : string) :
  Importer.isinstance (Importer._issue (Importer.self st)) = false ->
  Importer.get_issue_string (Importer.self st) = Ok (Some text) ->
  first_issue_id text m ->
  youtrack.get_issue connection (Importer.calls (Importer.outside st)) m
  = Raise YouTrackException ->
  Importer.get_issue_id connection st = (Ok (Some m), after_failed_lookup m st).
Proof.
  intros Hc Hs Hf Ha.
  pose proof (get_issue_id_from_tags_of_first text m Hf) as Hi.
  pose proof (issue_lookup connection st (Some text) (Some m) Hc Hs Hi) as Hl.
  cbv zeta in Hl. simpl str_of_opt_str in Hl. rewrite Ha in Hl.
  rewrite get_issue_id_unfold, Hl. fold (after_failed_lookup m st).
  assert (Hfresh : fresh (Importer.self (after_failed_lookup m st))
                   = fresh (Importer.self st)) by reflexivity.
  now rewrite (get_issue_string_fresh (Importer.self (after_failed_lookup m st))),
    Hfresh, <- get_issue_string_fresh, Hs, Hi.
Qed.

(** X22: for a row with nothing cached whose issue the tracker does not
    know, the lookup of the project asks for the issue and then for the
    project named by the part of the issue id before its hyphen; the
    project that the tracker returns is the value of [project]. *)
Theorem project_lookup_uses_the_project_part (connection : youtrack.Connection)
    (st : Importer.state) (text m : string) :
  Importer.isinstance (Importer._issue (Importer.self st)) = false ->
  Importer.isinstance (Importer._project (Importer.self st)) = false ->
  Importer.get_issue_string (Importer.self st) = Ok (Some text) ->
  first_issue_id text m ->
  youtrack.get_issue connection (Importer.calls (Importer.outside st)) m
  = Raise YouTrackException ->
  exists p,
    before_hyphen m p
    /\ Importer.calls (Importer.outside (snd (Importer.project connection st)))
       = Importer.calls (Importer.outside st)
         ++ [youtrack.get_issue_call m; youtrack.getProject_call (Some p)]
    /\ (forall obj,
          youtrack.getProject connection
            (Importer.calls (Importer.outside st) ++ [youtrack.get_issue_call m])
            (Some p) = Ok (Some obj) ->
          fst (Importer.project connection st) = Ok (Importer.Found obj))
    /\ (youtrack.getProject connection
          (Importer.calls (Importer.outside st) ++ [youtrack.get_issue_call m])
          (Some p) = Ok None ->
        fst (Importer.project connection st) = Ok Importer.NotFound).
Proof.
  intros Hc Hp Hs Hf Ha.
  pose proof (get_issue_id_unknown_issue connection st text m Hc Hs Hf Ha) as Hid.
  destruct Hf as (n & _ & Hissue & _).
  destruct (project_part m Hissue) as (p & Hsplit & Hb).
  pose proof (issue_id_not_empty m Hissue) as Hne.
  exists p. split; [exact Hb|].
  assert (Hpid : Importer.get_project_id_from_tags connection st
                 = (Ok (Some p), after_failed_lookup m st)).
  { unfold Importer.get_project_id_from_tags. rewrite M_bind_unfold, Hid.
    destruct m as [|c0 m0]; [congruence|]. cbv beta iota.
    change (truthy (Some (String c0 m0))) with true. cbv iota.
    rewrite M_bind_unfold. unfold Importer.lift. simpl str_of_opt_str.
    now rewrite Hsplit. }
  assert (Hproj : Importer._project (Importer.self (after_failed_lookup m st))
                  = Importer._project (Importer.self st)) by reflexivity.
  unfold Importer.project, Importer.get_self, Importer.tracker,
    Importer.set_project.
  simpl. rewrite Hp. simpl. rewrite Hpid. simpl.
  destruct (youtrack.getProject connection
              (Importer.calls (Importer.outside st) ++ [youtrack.get_issue_call m])
              (Some p)) as [[obj|]|e]; simpl.
  - split; [now rewrite <- app_assoc|]. split; [now intros o [= <-] | discriminate].
  - split; [now rewrite <- app_assoc|]. split; [discriminate | reflexivity].
  - split; [now rewrite <- app_assoc|]. split; discriminate.
Qed.

Lemma project_lookup_uses_the_project_part_witness :
  exists p,
    before_hyphen "XY-7" p
    /\ Importer.calls (Importer.outside (snd (Importer.project empty_tracker
         (state_of (row_of Importer.ManicTimeRow [("Name", "XY-7")]) []))))
       = [] ++ [youtrack.get_issue_call "XY-7"; youtrack.getProject_call (Some p)]
    /\ (forall obj,
          youtrack.getProject empty_tracker ([] ++ [youtrack.get_issue_call "XY-7"])
            (Some p) = Ok (Some obj) ->
          fst (Importer.project empty_tracker
                 (state_of (row_of Importer.ManicTimeRow [("Name", "XY-7")]) []))
          = Ok (Importer.Found obj))
    /\ (youtrack.getProject empty_tracker ([] ++ [youtrack.get_issue_call "XY-7"])
          (Some p) = Ok None ->
        fst (Importer.project empty_tracker
               (state_of (row_of Importer.ManicTimeRow [("Name", "XY-7")]) []))
        = Ok Importer.NotFound).
Proof.
  apply (project_lookup_uses_the_project_part empty_tracker
           (state_of (row_of Importer.ManicTimeRow [("Name", "XY-7")]) [])
           "XY-7" "XY-7"); try (vm_compute; reflexivity).
  destruct (Re.search true issue_pattern "XY-7") as [mo|] eqn:E;
    [|vm_compute in E; discriminate E].
  pose proof (first_issue_id_of_search true "XY-7" mo E) as H.
  vm_compute in E. injection E as <-. exact H.
Defined.

(** X23: [TogglAPIRow.work_item] computes the duration before the date: a
    row without "dur" raises [TypeError], and a row with a duration and
    without "start" raises [AttributeError]. *)
Theorem work_item_missing_fields (mktime : Datetime.datetime -> Z)
    (r : RowModule.TogglAPIRow) :
  (RowModule.data_get r "dur" = PNone ->
   RowModule.work_item mktime r = Raise TypeError)
  /\ (forall minutes,
        RowModule.duration_minutes r = Ok minutes ->
        RowModule.data_get r "start" = PNone ->
        RowModule.work_item mktime r = Raise AttributeError).
Proof.
  split.
  - intros H. unfold RowModule.work_item, RowModule.duration_minutes. now rewrite H.
  - intros minutes Hm Hs.
    unfold RowModule.work_item, RowModule.date_milliseconds,
      RowModule.start_datetime.
    now rewrite Hm, Hs.
Qed.

(** ** A row that is uploaded *)

Lemma M_ret_unfold {A} (a : A) (st : Importer.state) :
  (ret a : Importer.M A) st = (Ok a, st).
Proof. reflexivity. Qed.

Ltac step_if :=
  try change (negb true) with false; try change (negb false) with true;
  cbv beta iota.

Section Upload.
Import Importer.
Variable connection : youtrack.Connection.

Lemma get_issue_id_cached (st : state) (obj : youtrack.Issue) :
  _issue (self st) = Found obj ->
  get_issue_id connection st = (Ok (Some (youtrack.issue_id obj)), st).
Proof.
  intros H. rewrite get_issue_id_unfold. now rewrite (issue_found connection st obj H).
Qed.

Lemma issue_exists_cached (st : state) (obj : youtrack.Issue) :
  _issue (self st) = Found obj -> issue_exists connection st = (Ok true, st).
Proof.
  intros H. unfold issue_exists. rewrite M_bind_unfold.
  now rewrite (issue_found connection st obj H).
Qed.

Lemma get_issue_id_known_issue (st : state) (s i : option string)
    (obj : youtrack.Issue) :
  isinstance (_issue (self st)) = false ->
  get_issue_string (self st) = Ok s ->
  get_issue_id_from_tags s = Ok i ->
  youtrack.get_issue connection (calls (outside st)) (str_of_opt_str i)
  = Ok (Some obj) ->
  get_issue_id connection st
  = (Ok (Some (youtrack.issue_id obj)),
     after_found_lookup (str_of_opt_str i) obj st).
Proof.
  intros Hc Hs Hi Ha.
  pose proof (issue_lookup connection st s i Hc Hs Hi) as Hl. cbv zeta in Hl.
  rewrite Ha in Hl. now rewrite get_issue_id_unfold, Hl.
Qed.

Lemma create_timeslip_fresh (r : row_obj) :
  create_timeslip r = create_timeslip (fresh r).
Proof. destruct r. reflexivity. Qed.

Lemma no_issue_found_cached (st : state) (obj : youtrack.Issue) :
  _issue (self st) = Found obj -> youtrack.issue_id obj <> "" ->
  no_issue_found connection st = (Ok false, st).
Proof.
  intros H Hid. unfold no_issue_found.
  rewrite M_bind_unfold, (get_issue_id_cached st obj H). cbv beta iota.
  assert (Ht : truthy (Some (youtrack.issue_id obj)) = true).
  { destruct (youtrack.issue_id obj); [congruence | reflexivity]. }
  rewrite Ht. step_if.
  rewrite M_bind_unfold, (get_issue_id_cached st obj H). cbv beta iota.
  rewrite Ht. cbv iota.
  rewrite M_bind_unfold, (issue_exists_cached st obj H). reflexivity.
Qed.
End Upload.

(** X24: the way of a row to the tracker. For a row whose tags do not say
    to ignore it, whose issue the tracker knows, and for which the tracker
    has no equal work item, the body of the loop asks nothing at the
    prompt and makes three calls: the lookup of the issue, the list of its
    work items, and [createWorkItem] with the id of the issue as the
    tracker gives it and the work item of the row; the row is counted as
    added. *)
Theorem new_row_is_uploaded (connection : youtrack.Connection)
    (row : gmap string string) (tags : string) (st : Importer.state)
    (i : option string) (obj : youtrack.Issue) (items : list youtrack.WorkItem)
    (w : youtrack.WorkItem) (v : pyval) :
  row !! "Name" = Some tags ->
  ~ contains_ignore tags ->
  Importer.get_issue_id_from_tags (Some tags) = Ok i ->
  youtrack.get_issue connection (Importer.calls (Importer.outside st))
    (str_of_opt_str i) = Ok (Some obj) ->
  youtrack.issue_id obj <> "" ->
  youtrack.getWorkItems connection
    (Importer.calls (Importer.outside st)
     ++ [youtrack.get_issue_call (str_of_opt_str i)])
    (Some (youtrack.issue_id obj)) = Ok items ->
  Importer.any_same_timeslip (Importer.new Importer.ManicTimeRow row) items
  = Ok false ->
  Importer.create_timeslip (Importer.new Importer.ManicTimeRow row) = Ok w ->
  youtrack.createWorkItem connection
    ((Importer.calls (Importer.outside st)
      ++ [youtrack.get_issue_call (str_of_opt_str i)])
     ++ [youtrack.getWorkItems_call (Some (youtrack.issue_id obj))])
    (youtrack.issue_id obj) w = Ok v ->
  fst (Importer.process_row connection row st) = Ok true
  /\ Importer.calls (Importer.outside (snd (Importer.process_row connection row st)))
     = ((Importer.calls (Importer.outside st)
         ++ [youtrack.get_issue_call (str_of_opt_str i)])
        ++ [youtrack.getWorkItems_call (Some (youtrack.issue_id obj))])
       ++ [youtrack.createWorkItem_call (youtrack.issue_id obj) w]
  /\ Importer.stdin (Importer.outside (snd (Importer.process_row connection row st)))
     = Importer.stdin (Importer.outside st)
  /\ Importer.stdout (Importer.outside (snd (Importer.process_row connection row st)))
     = Importer.stdout (Importer.outside st) ++ ["    uploaded timeslip"].
Proof.
  intros Hn Hni Hi Ha Hid Hitems Hsame Hw Hv.
  set (st0 := {| Importer.self := Importer.new Importer.ManicTimeRow row;
                 Importer.outside := Importer.outside st |}).
  set (st1 := after_found_lookup (str_of_opt_str i) obj st0).
  set (st2 := after_call (youtrack.getWorkItems_call (Some (youtrack.issue_id obj)))
                st1).
  assert (Hs0 : Importer.get_issue_string (Importer.self st0) = Ok (Some tags)).
  { unfold Importer.get_issue_string, Importer.get_tags, Importer.get_field.
    simpl. now rewrite Hn. }
  assert (Hsearch : Importer.search_ignore
                      (Importer.get_tags (Importer.new Importer.ManicTimeRow row))
                    = Ok None).
  { unfold Importer.get_tags, Importer.get_field, Importer.search_ignore. simpl.
    rewrite Hn.
    destruct (Re.search true (Re.Str "ignore") tags) as [mo|] eqn:E; [|reflexivity].
    exfalso. apply Hni. apply search_ignore_spec. now exists mo. }
  assert (G0 : Importer.no_issue_found connection st0 = (Ok false, st1)).
  { unfold Importer.no_issue_found.
    rewrite M_bind_unfold,
      (get_issue_id_known_issue connection st0 (Some tags) i obj eq_refl Hs0 Hi Ha).
    fold st1. cbv beta iota.
    assert (Ht : truthy (Some (youtrack.issue_id obj)) = true).
    { destruct (youtrack.issue_id obj); [congruence | reflexivity]. }
    rewrite Ht. step_if.
    rewrite M_bind_unfold, (get_issue_id_cached connection st1 obj eq_refl).
    cbv beta iota. rewrite Ht. cbv iota.
    now rewrite M_bind_unfold, (issue_exists_cached connection st1 obj eq_refl). }
  assert (G1 : Importer.get_timeslips connection st1 = (Ok items, st2)).
  { unfold Importer.get_timeslips.
    rewrite M_bind_unfold, (get_issue_id_cached connection st1 obj eq_refl).
    cbv beta iota. unfold Importer.tracker, st2, after_call, Importer.tracker.
    simpl. now rewrite Hitems. }
  assert (G2 : Importer.timeslip_exists connection st1 = (Ok false, st2)).
  { rewrite (timeslip_exists_unfold connection st1 st2 items G1).
    rewrite any_same_timeslip_fresh.
    change (fresh (Importer.self st1)) with (Importer.new Importer.ManicTimeRow row).
    now rewrite Hsame. }
  assert (G3 : Importer.save connection st2
               = (Ok v,
                  after_call (youtrack.createWorkItem_call (youtrack.issue_id obj) w)
                    st2)).
  { unfold Importer.save, Importer.get_self, Importer.lift.
    rewrite !M_bind_unfold. cbv beta iota.
    rewrite (create_timeslip_fresh (Importer.self st2)).
    change (fresh (Importer.self st2)) with (Importer.new Importer.ManicTimeRow row).
    rewrite Hw. cbv beta iota.
    rewrite M_bind_unfold, (get_issue_id_cached connection st2 obj eq_refl).
    cbv beta iota.
    assert (Ht : truthy (Some (youtrack.issue_id obj)) = true).
    { destruct (youtrack.issue_id obj); [congruence | reflexivity]. }
    rewrite Ht. cbv iota.
    unfold Importer.tracker, after_call, Importer.tracker. simpl.
    now rewrite Hv. }
  assert (E : Importer.process_row connection row st
              = (Ok true,
                 snd (Importer.print "    uploaded timeslip"
                   (after_call
                      (youtrack.createWorkItem_call (youtrack.issue_id obj) w) st2)))).
  { unfold Importer.process_row, Importer.set_self, Importer.get_self,
      Importer.lift.
    rewrite !M_bind_unfold. cbv beta iota. fold st0.
    change (Importer.self st0) with (Importer.new Importer.ManicTimeRow row).
    rewrite Hsearch. cbv beta iota.
    rewrite !M_bind_unfold, G0. cbv beta iota.
    rewrite M_ret_unfold. cbv beta iota. step_if.
    rewrite M_bind_unfold, G2. cbv beta iota. step_if.
    rewrite M_bind_unfold, G3. reflexivity. }
  rewrite E. simpl. repeat split; reflexivity.
Qed.

Lemma new_row_is_uploaded_witness :
  fst (Importer.process_row (abc_tracker [])
         (list_to_map [("Name", "ABC-123 meeting"); ("Duration", "0:30:00");
                       ("Start", "01/01/2020 09:00:00"); ("Notes", "sync")])
         (state_of csv_row_example [])) = Ok true.
Proof.
  refine (proj1 (new_row_is_uploaded (abc_tracker [])
    (list_to_map [("Name", "ABC-123 meeting"); ("Duration", "0:30:00");
                  ("Start", "01/01/2020 09:00:00"); ("Notes", "sync")])
    "ABC-123 meeting" (state_of csv_row_example [])
    (Some "ABC-123") {| youtrack.issue_id := "ABC-123" |} []
    {| youtrack.description := PStr "sync";
       youtrack.date := PInt 1577869200000;
       youtrack.duration := PInt 30 |} PNone _ _ _ _ _ _ _ _ _));
    try (vm_compute; reflexivity); try discriminate.
  intros Hc. apply search_ignore_spec in Hc as [mo Hmo].
  vm_compute in Hmo. discriminate Hmo.
Defined.

Lemma timeslip_string_fresh (r : Importer.row_obj) :
  Importer.timeslip_string r = Importer.timeslip_string (fresh r).
Proof. destruct r. reflexivity. Qed.

(** X25: the way of a row that is on the tracker already. For a row whose
    tags do not say to ignore it, whose issue the tracker knows, and for
    which the tracker has an equal work item, the body of the loop makes
    two calls, the lookup of the issue and the list of its work items,
    prints that the timeslip exists, and does not count the row. *)
Theorem known_row_is_reported (connection : youtrack.Connection)
    (row : gmap string string) (tags : string) (st : Importer.state)
    (i : option string) (obj : youtrack.Issue) (items : list youtrack.WorkItem)
    (t : string) :
  row !! "Name" = Some tags ->
  ~ contains_ignore tags ->
  Importer.get_issue_id_from_tags (Some tags) = Ok i ->
  youtrack.get_issue connection (Importer.calls (Importer.outside st))
    (str_of_opt_str i) = Ok (Some obj) ->
  youtrack.issue_id obj <> "" ->
  youtrack.getWorkItems connection
    (Importer.calls (Importer.outside st)
     ++ [youtrack.get_issue_call (str_of_opt_str i)])
    (Some (youtrack.issue_id obj)) = Ok items ->
  Importer.any_same_timeslip (Importer.new Importer.ManicTimeRow row) items
  = Ok true ->
  Importer.timeslip_string (Importer.new Importer.ManicTimeRow row) = Ok t ->
  fst (Importer.process_row connection row st) = Ok false
  /\ Importer.calls (Importer.outside (snd (Importer.process_row connection row st)))
     = (Importer.calls (Importer.outside st)
        ++ [youtrack.get_issue_call (str_of_opt_str i)])
       ++ [youtrack.getWorkItems_call (Some (youtrack.issue_id obj))]
  /\ Importer.stdout (Importer.outside (snd (Importer.process_row connection row st)))
     = Importer.stdout (Importer.outside st)
       ++ [("  Timeslip for " +:+ youtrack.issue_id obj)
           +:+ " (" +:+ t +:+ ") already exists"].
Proof.
  intros Hn Hni Hi Ha Hid Hitems Hsame Ht.
  set (st0 := {| Importer.self := Importer.new Importer.ManicTimeRow row;
                 Importer.outside := Importer.outside st |}).
  set (st1 := after_found_lookup (str_of_opt_str i) obj st0).
  set (st2 := after_call (youtrack.getWorkItems_call (Some (youtrack.issue_id obj)))
                st1).
  assert (Hs0 : Importer.get_issue_string (Importer.self st0) = Ok (Some tags)).
  { unfold Importer.get_issue_string, Importer.get_tags, Importer.get_field.
    simpl. now rewrite Hn. }
  assert (Hsearch : Importer.search_ignore
                      (Importer.get_tags (Importer.new Importer.ManicTimeRow row))
                    = Ok None).
  { unfold Importer.get_tags, Importer.get_field, Importer.search_ignore. simpl.
    rewrite Hn.
    destruct (Re.search true (Re.Str "ignore") tags) as [mo|] eqn:E; [|reflexivity].
    exfalso. apply Hni. apply search_ignore_spec. now exists mo. }
  assert (Htruthy : truthy (Some (youtrack.issue_id obj)) = true).
  { destruct (youtrack.issue_id obj); [congruence | reflexivity]. }
  assert (G0 : Importer.no_issue_found connection st0 = (Ok false, st1)).
  { unfold Importer.no_issue_found.
    rewrite M_bind_unfold,
      (get_issue_id_known_issue connection st0 (Some tags) i obj eq_refl Hs0 Hi Ha).
    fold st1. cbv beta iota. rewrite Htruthy. step_if.
    rewrite M_bind_unfold, (get_issue_id_cached connection st1 obj eq_refl).
    cbv beta iota. rewrite Htruthy. cbv iota.
    now rewrite M_bind_unfold, (issue_exists_cached connection st1 obj eq_refl). }
  assert (G1 : Importer.get_timeslips connection st1 = (Ok items, st2)).
  { unfold Importer.get_timeslips.
    rewrite M_bind_unfold, (get_issue_id_cached connection st1 obj eq_refl).
    cbv beta iota. unfold Importer.tracker, st2, after_call, Importer.tracker.
    simpl. now rewrite Hitems. }
  assert (G2 : Importer.timeslip_exists connection st1 = (Ok true, st2)).
  { rewrite (timeslip_exists_unfold connection st1 st2 items G1).
    rewrite any_same_timeslip_fresh.
    change (fresh (Importer.self st1)) with (Importer.new Importer.ManicTimeRow row).
    now rewrite Hsame. }
  assert (E : Importer.process_row connection row st
              = (Ok false,
                 snd (Importer.print
                        (("  Timeslip for " +:+ youtrack.issue_id obj)
                         +:+ " (" +:+ t +:+ ") already exists") st2))).
  { unfold Importer.process_row, Importer.set_self, Importer.get_self,
      Importer.lift.
    rewrite !M_bind_unfold. cbv beta iota. fold st0.
    change (Importer.self st0) with (Importer.new Importer.ManicTimeRow row).
    rewrite Hsearch. cbv beta iota.
    rewrite !M_bind_unfold, G0. cbv beta iota.
    rewrite M_ret_unfold. cbv beta iota. step_if.
    rewrite M_bind_unfold, G2. cbv beta iota. step_if.
    rewrite M_bind_unfold, (get_issue_id_cached connection st2 obj eq_refl).
    cbv beta iota. rewrite !M_bind_unfold. cbv beta iota.
    unfold concat. cbv beta iota.
    rewrite !M_bind_unfold. cbv beta iota.
    rewrite (timeslip_string_fresh (Importer.self st2)).
    change (fresh (Importer.self st2)) with (Importer.new Importer.ManicTimeRow row).
    rewrite Ht. reflexivity. }
  rewrite E. simpl. repeat split; reflexivity.
Qed.

Lemma known_row_is_reported_witness :
  fst (Importer.process_row (abc_tracker [stored_example])
         (list_to_map [("Name", "ABC-123 meeting"); ("Duration", "0:30:00");
                       ("Start", "01/01/2020 09:00:00"); ("Notes", "sync")])
         (state_of csv_row_example [])) = Ok false.
Proof.
  refine (proj1 (known_row_is_reported (abc_tracker [stored_example])
    (list_to_map [("Name", "ABC-123 meeting"); ("Duration", "0:30:00");
                  ("Start", "01/01/2020 09:00:00"); ("Notes", "sync")])
    "ABC-123 meeting" (state_of csv_row_example [])
    (Some "ABC-123") {| youtrack.issue_id := "ABC-123" |} [stored_example]
    "Wed, 01 Jan / 30m / sync" _ _ _ _ _ _ _ _));
    try (vm_compute; reflexivity); try discriminate.
  intros Hc. apply search_ignore_spec in Hc as [mo Hmo].
  vm_compute in Hmo. discriminate Hmo.
Defined.

(** ** The project id of a row of an export *)

Lemma hyphen_cases (m : string) :
  str_forall (fun c => negb (Ascii.eqb c "-")) m = true
  \/ exists a q, m = a +:+ String "-" q
       /\ str_forall (fun c => negb (Ascii.eqb c "-")) a = true.
Proof.
  induction m as [|c t IH]; [now left|].
  destruct (Ascii.eqb c "-") eqn:E.
  - apply Ascii.eqb_eq in E. subst c. right. now exists "", t.
  - destruct IH as [H|(a & q & -> & Ha)].
    + left. simpl. now rewrite E, H.
    + right. exists (String c a), q. split; [reflexivity|].
      simpl. now rewrite E, Ha.
Qed.

Lemma split_head (m : string) :
  exists p, index (split "-" m) 0 = Ok p
    /\ (before_hyphen m p
        \/ (str_forall (fun c => negb (Ascii.eqb c "-")) m = true /\ p = m)).
Proof.
  destruct (hyphen_cases m) as [H|(a & q & -> & Ha)].
  - exists m. rewrite (split_no_sep "-" m H). split; [reflexivity | now right].
  - exists a. rewrite (split_append "-" a q Ha). split; [reflexivity|].
    left. exists q. now split.
Qed.

Lemma issue_id_has_hyphen (m : string) :
  is_issue_id m -> str_forall (fun c => negb (Ascii.eqb c "-")) m = false.
Proof.
  intros (a & d & -> & _ & _ & _).
  rewrite str_forall_append. apply andb_false_iff. right. reflexivity.
Qed.

Section ProjectId.
Import Importer.
Variable connection : youtrack.Connection.

(** [get_project_id_from_tags] in terms of one call of [get_issue_id]. *)
Lemma get_project_id_from_tags_unfold (st st1 : state) (i : option string) :
  get_issue_id connection st = (Ok i, st1) ->
  fst (get_project_id_from_tags connection st)
  = if truthy i then
      match index (split "-" (str_of_opt_str i)) 0 with
      | Ok p => Ok (Some p)
      | Raise e => Raise e
      end
    else Ok None.
Proof.
  intros H. unfold get_project_id_from_tags. rewrite M_bind_unfold, H.
  cbv beta iota. destruct (truthy i); [|reflexivity].
  rewrite M_bind_unfold. unfold lift.
  now destruct (index (split "-" (str_of_opt_str i)) 0).
Qed.

(** The issue id of a row whose issue the tracker does not know is the
    one of its text. *)
Lemma get_issue_id_not_found (st : state) (s i : option string) :
  isinstance (_issue (self st)) = false ->
  get_issue_string (self st) = Ok s ->
  get_issue_id_from_tags s = Ok i ->
  (youtrack.get_issue connection (calls (outside st)) (str_of_opt_str i)
   = Raise YouTrackException
   \/ youtrack.get_issue connection (calls (outside st)) (str_of_opt_str i)
      = Ok None) ->
  get_issue_id connection st = (Ok i, after_failed_lookup (str_of_opt_str i) st).
Proof.
  intros Hc Hs Hi Ha.
  pose proof (issue_lookup connection st s i Hc Hs Hi) as Hl. cbv zeta in Hl.
  assert (Hl' : issue connection st
                = (Ok NotFound, after_failed_lookup (str_of_opt_str i) st)).
  { destruct Ha as [Ha|Ha]; rewrite Ha in Hl; exact Hl. }
  rewrite get_issue_id_unfold, Hl'.
  assert (Hfresh : fresh (self (after_failed_lookup (str_of_opt_str i) st))
                   = fresh (self st)) by reflexivity.
  now rewrite (get_issue_string_fresh
                 (self (after_failed_lookup (str_of_opt_str i) st))),
    Hfresh, <- get_issue_string_fresh, Hs, Hi.
Qed.

(** The project id cut from an issue id that the tracker gave. *)
Lemma project_id_of_tracker_id (st st1 : state) (id : string) :
  get_issue_id connection st = (Ok (Some id), st1) ->
  exists p, fst (get_project_id_from_tags connection st) = Ok p
    /\ project_part_of id p.
Proof.
  intros H. rewrite (get_project_id_from_tags_unfold st st1 (Some id) H).
  destruct id as [|c t].
  - exists None. split; [reflexivity|]. now left.
  - change (truthy (Some (String c t))) with true. cbv iota.
    change (str_of_opt_str (Some (String c t))) with (String c t).
    destruct (split_head (String c t)) as (p & -> & Hp).
    exists (Some p). split; [reflexivity|]. right.
    split; [discriminate|]. now exists p.
Qed.
End ProjectId.

Lemma project_part_of_issue_id (m : string) (p : option string) :
  is_issue_id m -> project_part_of m p ->
  exists q, p = Some q /\ before_hyphen m q.
Proof.
  intros Hid [[-> _]|(_ & q & -> & [Hb|[Hn _]])].
  - now apply issue_id_not_empty in Hid.
  - now exists q.
  - rewrite (issue_id_has_hyphen m Hid) in Hn. discriminate.
Qed.

(** C7, as the code has it: [find_issue_id] and [get_issue_id_from_tags]
    return the first match of the pattern in the text, and [False] or
    [None] when the text has no match; [find_project_id] of [row.py]
    returns the part of that issue id before its first hyphen, and [False]
    exactly when there is no issue id. [get_project_id_from_tags] of
    [__init__.py] cuts the project id from [get_issue_id()]: for a row
    whose issue the tracker does not know it is the part of the issue id
    of the text before its first hyphen, and [None] exactly when the text
    has no issue id; once the tracker has returned an issue, at this
    lookup or at an earlier one, it is the project part of the id of that
    issue, whatever the text holds, which is the part of the issue id of
    the text when the tracker's id is that one. *)
Theorem first_match_and_project_part (r : RowModule.TogglAPIRow) (text : string) :
  RowModule.data_get r "description" = PStr text ->
  (RowModule.find_issue_id r = Ok (PBool false)
   \/ exists m, RowModule.find_issue_id r = Ok (PStr m))
  /\ (forall m, RowModule.find_issue_id r = Ok (PStr m) <-> first_issue_id text m)
  /\ (RowModule.find_issue_id r = Ok (PBool false) <-> no_issue_id text)
  /\ (forall m, RowModule.find_issue_id r = Ok (PStr m) ->
        exists p, RowModule.find_project_id r = Ok (PStr p) /\ before_hyphen m p)
  /\ (RowModule.find_project_id r = Ok (PBool false)
      <-> RowModule.find_issue_id r = Ok (PBool false))
  /\ (forall m, Importer.get_issue_id_from_tags (Some text) = Ok (Some m)
                <-> first_issue_id text m)
  /\ (Importer.get_issue_id_from_tags (Some text) = Ok None <-> no_issue_id text)
  /\ (forall connection st i,
        Importer.isinstance (Importer._issue (Importer.self st)) = false ->
        Importer.get_issue_string (Importer.self st) = Ok (Some text) ->
        Importer.get_issue_id_from_tags (Some text) = Ok i ->
        (youtrack.get_issue connection (Importer.calls (Importer.outside st))
           (str_of_opt_str i) = Raise YouTrackException
         \/ youtrack.get_issue connection (Importer.calls (Importer.outside st))
              (str_of_opt_str i) = Ok None) ->
        (forall m, first_issue_id text m ->
           exists p,
             fst (Importer.get_project_id_from_tags connection st) = Ok (Some p)
             /\ before_hyphen m p)
        /\ (fst (Importer.get_project_id_from_tags connection st) = Ok None
            <-> no_issue_id text))
  /\ (forall connection st i obj,
        Importer.isinstance (Importer._issue (Importer.self st)) = false ->
        Importer.get_issue_string (Importer.self st) = Ok (Some text) ->
        Importer.get_issue_id_from_tags (Some text) = Ok i ->
        youtrack.get_issue connection (Importer.calls (Importer.outside st))
          (str_of_opt_str i) = Ok (Some obj) ->
        exists p,
          fst (Importer.get_project_id_from_tags connection st) = Ok p
          /\ project_part_of (youtrack.issue_id obj) p
          /\ (first_issue_id text (youtrack.issue_id obj) ->
              exists q, p = Some q /\ before_hyphen (youtrack.issue_id obj) q))
  /\ (forall connection st obj,
        Importer._issue (Importer.self st) = Importer.Found obj ->
        exists p,
          fst (Importer.get_project_id_from_tags connection st) = Ok p
          /\ project_part_of (youtrack.issue_id obj) p
          /\ (first_issue_id text (youtrack.issue_id obj) ->
              exists q, p = Some q /\ before_hyphen (youtrack.issue_id obj) q)).
Proof.
  intros Hd.
  assert (Hproj : forall m, RowModule.find_issue_id r = Ok (PStr m) ->
            first_issue_id text m ->
            exists p, RowModule.find_project_id r = Ok (PStr p) /\ before_hyphen m p).
  { intros m E (n & _ & Hid & _).
    destruct (project_part m Hid) as (p & Hp & Hb). exists p. split; [|exact Hb].
    unfold RowModule.find_project_id. rewrite E. simpl.
    pose proof (issue_id_not_empty m Hid) as Hne.
    destruct m; [congruence|]. simpl. now rewrite Hp. }
  assert (Hunknown : forall connection st i,
            Importer.isinstance (Importer._issue (Importer.self st)) = false ->
            Importer.get_issue_string (Importer.self st) = Ok (Some text) ->
            Importer.get_issue_id_from_tags (Some text) = Ok i ->
            (youtrack.get_issue connection (Importer.calls (Importer.outside st))
               (str_of_opt_str i) = Raise YouTrackException
             \/ youtrack.get_issue connection (Importer.calls (Importer.outside st))
                  (str_of_opt_str i) = Ok None) ->
            (forall m, first_issue_id text m ->
               exists p,
                 fst (Importer.get_project_id_from_tags connection st) = Ok (Some p)
                 /\ before_hyphen m p)
            /\ (fst (Importer.get_project_id_from_tags connection st) = Ok None
                <-> no_issue_id text)).
  { intros connection st i Hc Hs Hi Ha.
    pose proof (get_issue_id_not_found connection st (Some text) i Hc Hs Hi Ha)
      as Hid.
    pose proof (get_project_id_from_tags_unfold connection st _ i Hid) as Hp.
    destruct (get_issue_id_from_tags_cases text) as [[Hno E]|(m0 & Hf & E)];
      rewrite E in Hi; injection Hi as <-.
    - change (truthy None) with false in Hp. cbv iota in Hp. split.
      + intros m Hm. exfalso. eapply first_issue_id_is_some; eassumption.
      + now split.
    - destruct Hf as (n & Ho & Hissue & Hfirst).
      destruct (project_part m0 Hissue) as (p & Hsplit & Hb).
      pose proof (issue_id_not_empty m0 Hissue) as Hne.
      destruct m0 as [|c0 t0]; [congruence|].
      change (truthy (Some (String c0 t0))) with true in Hp. cbv iota in Hp.
      change (str_of_opt_str (Some (String c0 t0))) with (String c0 t0) in Hp.
      rewrite Hsplit in Hp. split.
      + intros m Hm.
        rewrite (first_issue_id_unique text m (String c0 t0) Hm
                   (ex_intro _ n (conj Ho (conj Hissue Hfirst)))).
        now exists p.
      + rewrite Hp. split; [discriminate|]. intros Hno. exfalso.
        exact (Hno n (String c0 t0) Ho Hissue). }
  assert (Hknown : forall connection st st1 obj,
            Importer.get_issue_id connection st
            = (Ok (Some (youtrack.issue_id obj)), st1) ->
            exists p,
              fst (Importer.get_project_id_from_tags connection st) = Ok p
              /\ project_part_of (youtrack.issue_id obj) p
              /\ (first_issue_id text (youtrack.issue_id obj) ->
                  exists q, p = Some q /\ before_hyphen (youtrack.issue_id obj) q)).
  { intros connection st st1 obj Hid.
    destruct (project_id_of_tracker_id connection st st1 _ Hid) as (p & Hp & Hpart).
    exists p. split; [exact Hp|]. split; [exact Hpart|].
    intros (n & _ & Hissue & _).
    exact (project_part_of_issue_id _ p Hissue Hpart). }
  assert (Hfound : forall connection st i obj,
            Importer.isinstance (Importer._issue (Importer.self st)) = false ->
            Importer.get_issue_string (Importer.self st) = Ok (Some text) ->
            Importer.get_issue_id_from_tags (Some text) = Ok i ->
            youtrack.get_issue connection (Importer.calls (Importer.outside st))
              (str_of_opt_str i) = Ok (Some obj) ->
            exists p,
              fst (Importer.get_project_id_from_tags connection st) = Ok p
              /\ project_part_of (youtrack.issue_id obj) p
              /\ (first_issue_id text (youtrack.issue_id obj) ->
                  exists q, p = Some q /\ before_hyphen (youtrack.issue_id obj) q)).
  { intros connection st i obj Hc Hs Hi Ha.
    exact (Hknown connection st _ obj
             (get_issue_id_known_issue connection st (Some text) i obj Hc Hs Hi Ha)). }
  assert (Hcached : forall connection st obj,
            Importer._issue (Importer.self st) = Importer.Found obj ->
            exists p,
              fst (Importer.get_project_id_from_tags connection st) = Ok p
              /\ project_part_of (youtrack.issue_id obj) p
              /\ (first_issue_id text (youtrack.issue_id obj) ->
                  exists q, p = Some q /\ before_hyphen (youtrack.issue_id obj) q)).
  { intros connection st obj Hc.
    exact (Hknown connection st _ obj (get_issue_id_cached connection st obj Hc)). }
  destruct (find_issue_id_cases r text Hd) as [[Hno E]|(m0 & Hf & E)];
  destruct (get_issue_id_from_tags_cases text) as [[Hno' E']|(m1 & Hf' & E')];
    try (exfalso; eapply first_issue_id_is_some; eassumption).
  - rewrite E, E'.
    split; [now left|].
    split; [intros m; split; [discriminate|]; intros Hm; exfalso;
            eapply first_issue_id_is_some; eassumption|].
    split; [now split|].
    split; [discriminate|].
    split; [unfold RowModule.find_project_id; now rewrite E|].
    split; [intros m; split; [discriminate|]; intros Hm; exfalso;
            eapply first_issue_id_is_some; eassumption|].
    split; [now split|].
    split.
    { intros connection st i Hc Hs Hi Ha.
      apply (Hunknown connection st i Hc Hs); [now rewrite E' | exact Ha]. }
    split; [|exact Hcached].
    intros connection st i obj Hc Hs Hi Ha.
    apply (Hfound connection st i obj Hc Hs); [now rewrite E' | exact Ha].
  - assert (m1 = m0) by (eapply first_issue_id_unique; eassumption). subst m1.
    destruct (Hproj m0 E Hf) as (p & Hp & Hb).
    rewrite E, E'. split; [right; now exists m0|].
    split.
    { intros m; split.
      - now intros [= <-].
      - intros Hm. now rewrite (first_issue_id_unique text m m0 Hm Hf). }
    split.
    { split; [discriminate|]. intros Hno. exfalso.
      eapply first_issue_id_is_some; eassumption. }
    split.
    { intros m [= <-]. now exists p. }
    split.
    { rewrite Hp. split; discriminate. }
    split.
    { intros m; split.
      - now intros [= <-].
      - intros Hm. now rewrite (first_issue_id_unique text m m0 Hm Hf). }
    split.
    { split; [discriminate|]. intros Hno. exfalso.
      eapply first_issue_id_is_some; eassumption. }
    split.
    { intros connection st i Hc Hs Hi Ha.
      apply (Hunknown connection st i Hc Hs); [now rewrite E' | exact Ha]. }
    split; [|exact Hcached].
    intros connection st i obj Hc Hs Hi Ha.
    apply (Hfound connection st i obj Hc Hs); [now rewrite E' | exact Ha].
Qed.

Lemma first_match_and_project_part_witness :
  first_issue_id "Working on ABC-123 today" "ABC-123"
  /\ RowModule.find_project_id
       (api_row_of [("description", PStr "Working on ABC-123 today")])
     = Ok (PStr "ABC")
  /\ no_issue_id "no id here"
  /\ (exists p,
        fst (Importer.get_project_id_from_tags empty_tracker
               (named_row "Working on ABC-123 today")) = Ok (Some p)
        /\ before_hyphen "ABC-123" p)
  /\ (fst (Importer.get_project_id_from_tags empty_tracker (named_row "no id here"))
      = Ok None).
Proof.
  pose proof (first_match_and_project_part
    (api_row_of [("description", PStr "Working on ABC-123 today")])
    "Working on ABC-123 today" eq_refl) as (_ & H1 & _ & _ & _ & _ & _ & H8 & _).
  pose proof (first_match_and_project_part
    (api_row_of [("description", PStr "no id here")])
    "no id here" eq_refl) as (_ & _ & H2 & _ & _ & _ & _ & K8 & _).
  assert (Hf : first_issue_id "Working on ABC-123 today" "ABC-123")
    by (apply H1; vm_compute; reflexivity).
  assert (Hn : no_issue_id "no id here") by (apply H2; vm_compute; reflexivity).
  split; [exact Hf|].
  split; [vm_compute; reflexivity|].
  split; [exact Hn|].
  split.
  - refine (proj1 (H8 empty_tracker (named_row "Working on ABC-123 today")
                     (Some "ABC-123") _ _ _ _) "ABC-123" Hf);
      try (vm_compute; reflexivity).
    left. reflexivity.
  - refine (proj2 (proj2 (K8 empty_tracker (named_row "no id here") None _ _ _ _)) Hn);
      try (vm_compute; reflexivity).
    left. reflexivity.
Defined.

(** The project id of a row of an export need not come from the issue id
    of its text: when the tracker answers the lookup of ABC-123 with the
    issue XYZ-45, the project id is XYZ; and a row whose text holds no
    issue id has the project id XYZ, when the tracker answers the lookup
    of "None" so. *)
Lemma tracker_id_decides_the_project :
  first_issue_id "ABC-123 meeting" "ABC-123"
  /\ Importer.get_issue_id_from_tags (Some "ABC-123 meeting") = Ok (Some "ABC-123")
  /\ fst (Importer.get_project_id_from_tags xyz_tracker (named_row "ABC-123 meeting"))
     = Ok (Some "XYZ")
  /\ ~ before_hyphen "ABC-123" "XYZ"
  /\ no_issue_id "no id here"
  /\ Importer.get_issue_id_from_tags (Some "no id here") = Ok None
  /\ fst (Importer.get_project_id_from_tags xyz_tracker (named_row "no id here"))
     = Ok (Some "XYZ").
Proof.
  split.
  { destruct (get_issue_id_from_tags_cases "ABC-123 meeting")
      as [[_ E]|(m & Hf & E)]; vm_compute in E; [discriminate|].
    injection E as <-. exact Hf. }
  split; [vm_compute; reflexivity|].
  split; [vm_compute; reflexivity|].
  split.
  { intros (q & E & _). discriminate E. }
  split.
  { destruct (get_issue_id_from_tags_cases "no id here")
      as [[H _]|(m & _ & E)]; [exact H|]. vm_compute in E. discriminate. }
  split; vm_compute; reflexivity.
Qed.
